(** * btcpool-go-modules: the Stratum switcher session and the user-coin seeder

    A shallow embedding of [stratumSwitcher/StratumSession.go] and
    [initUserCoin/InitUserCoin.go], and the properties of the specification
    that were checked against it.

    Conventions.
    - Go's [uint32] and [int] are [Z]; a [uint32] increment wraps modulo 2^32.
    - Go strings are [string] (sequences of bytes).
    - A Go [interface{}] that holds decoded JSON is a value of [JSON].
    - A pointer to a [JSONRPCRequest] is a location in a store of request
      objects, so that two names for one object see each other's writes.
    - A run-time panic (index or slice out of range, nil dereference) is the
      outcome [Panic]; a Go [error] result is an ordinary value. *)

From Stdlib Require Import ZArith String Ascii List Bool Lia.
From stdpp Require Import base option gmap strings.
Import ListNotations.

#[local] Set Warnings "-register-all".

Local Open Scope string_scope.
Local Open Scope Z_scope.

(** ** Go's [strings] package, as far as the sources use it *)

Module GoStrings.

(** [strings.HasPrefix(s, p)]. *)
Fixpoint HasPrefix (s p : string) {struct p} : bool :=
  match p with
  | EmptyString => true
  | String b p' =>
      match s with
      | EmptyString => false
      | String a s' => if Ascii.eqb a b then HasPrefix s' p' else false
      end
  end.

(** [strings.Index(s, sub)]: the first position at which [sub] occurs, or -1. *)
Fixpoint Index (s sub : string) : Z :=
  if HasPrefix s sub then 0
  else match s with
       | EmptyString => -1
       | String _ s' => let i := Index s' sub in if i <? 0 then -1 else i + 1
       end.

(** [strings.LastIndex(s, sub)]: the last position at which [sub] occurs, or -1. *)
Fixpoint LastIndex (s sub : string) : Z :=
  match s with
  | EmptyString => if HasPrefix s sub then 0 else -1
  | String _ s' =>
      let i := LastIndex s' sub in
      if i <? 0 then (if HasPrefix s sub then 0 else -1) else i + 1
  end.

(** [strings.Contains(s, sub)]. *)
Definition Contains (s sub : string) : bool := 0 <=? Index s sub.

(** [len(s)]. *)
Definition len (s : string) : Z := Z.of_nat (String.length s).

(** The slice expression [s[lo:hi]]; [None] where Go panics. *)
Definition slice (s : string) (lo hi : Z) : option string :=
  if (0 <=? lo) && (lo <=? hi) && (hi <=? len s)
  then Some (substring (Z.to_nat lo) (Z.to_nat (hi - lo)) s)
  else None.

(** [strings.HasSuffix(s, suffix)]. *)
Definition HasSuffix (s suffix : string) : bool :=
  (len suffix <=? len s) &&
  String.eqb (substring (String.length s - String.length suffix) (String.length suffix) s)
             suffix.

(** [strings.ToLower] on the ASCII letters.  Go also maps the upper-case
    letters outside ASCII; no property below looks at such bytes. *)
Definition lowerAscii (c : ascii) : ascii :=
  let n := nat_of_ascii c in
  if ((65 <=? n) && (n <=? 90))%nat then ascii_of_nat (n + 32) else c.

Fixpoint ToLower (s : string) : string :=
  match s with
  | EmptyString => EmptyString
  | String c s' => String (lowerAscii c) (ToLower s')
  end.

End GoStrings.

(** ** Hexadecimal renderings of 32-bit values *)

Module Hex.

Definition digits : list ascii :=
  ["0"; "1"; "2"; "3"; "4"; "5"; "6"; "7"; "8"; "9"; "a"; "b"; "c"; "d"; "e"; "f"]%char.

Definition hexDigit (n : Z) : ascii := nth (Z.to_nat (n mod 16)) digits "0"%char.

(** Two characters for one byte, high nibble first. *)
Definition hexByte (b : Z) : string :=
  String (hexDigit (b / 16)) (String (hexDigit b) EmptyString).

(** [hex.EncodeToString]. *)
Fixpoint EncodeToString (bs : list Z) : string :=
  match bs with
  | [] => EmptyString
  | b :: bs' => hexByte b ++ EncodeToString bs'
  end.

(** The four bytes of a [uint32], most significant first. *)
Definition BigEndianBytes (v : Z) : list Z :=
  [Z.land (Z.shiftr v 24) 255; Z.land (Z.shiftr v 16) 255;
   Z.land (Z.shiftr v 8) 255; Z.land v 255].

(** The four bytes of a [uint32], least significant first. *)
Definition LittleEndianBytes (v : Z) : list Z :=
  [Z.land v 255; Z.land (Z.shiftr v 8) 255;
   Z.land (Z.shiftr v 16) 255; Z.land (Z.shiftr v 24) 255].

(** Modelled from the spec: [Uint32ToHex] is declared in a file of the
    repository that is not among the sources.  The specification renders a
    session id with it as "sid as 8-char big-endian hex", and
    [NewStratumSession] takes the characters 2 to 8 of its result: the four
    bytes of the value, most significant first, two hex characters each. *)
Definition Uint32ToHex (num : Z) : string := EncodeToString (BigEndianBytes num).

(** Modelled from the spec: [Uint32ToHexLE] is declared in a file of the
    repository that is not among the sources.  The specification calls its
    result "sid as little-endian hex" and [NewStratumSession] calls it
    "reversed 4 bytes": the four bytes of the value, least significant
    first, two hex characters each. *)
Definition Uint32ToHexLE (num : Z) : string := EncodeToString (LittleEndianBytes num).

(** [fmt.Sprintf("%08x", v)] for a [uint32] [v]: eight digits, zero padded. *)
Definition Sprintf_08x (v : Z) : string := EncodeToString (BigEndianBytes v).

(** The value of a hex digit, upper or lower case. *)
Definition hexVal (c : ascii) : option Z :=
  let n := Z.of_nat (nat_of_ascii c) in
  if (48 <=? n) && (n <=? 57) then Some (n - 48)
  else if (97 <=? n) && (n <=? 102) then Some (n - 87)
  else if (65 <=? n) && (n <=? 70) then Some (n - 55)
  else None.

Fixpoint parseHexFrom (acc : Z) (s : string) : option Z :=
  match s with
  | EmptyString => Some acc
  | String c s' =>
      match hexVal c with
      | Some d => parseHexFrom (acc * 16 + d) s'
      | None => None
      end
  end.

(** [strconv.ParseUint(s, 16, 32)]: [None] stands for a non-nil error
    (empty input, a character that is no hex digit, or a value that does
    not fit 32 bits). *)
Definition ParseUint_16_32 (s : string) : option Z :=
  match s with
  | EmptyString => None
  | _ => match parseHexFrom 0 s with
         | Some v => if v <? 2 ^ 32 then Some v else None
         | None => None
         end
  end.

End Hex.

(** ** Decoded JSON and the JSON-RPC messages *)

(** What [encoding/json] puts into an [interface{}].  Numbers are kept as
    integers: the sources never look inside a number. *)
Inductive JSON : Type :=
| JNull
| JBool (b : bool)
| JNum (n : Z)
| JStr (s : string)
| JArr (items : list JSON)
| JObj (fields : list (string * JSON)).

(** The type assertions [v.(string)], [v.(bool)], [v.([]interface{})] and
    [v.(map[string]interface{})], with [None] for [ok == false]. *)
Definition asString (v : JSON) : option string :=
  match v with JStr s => Some s | _ => None end.

Definition asBool (v : JSON) : option bool :=
  match v with JBool b => Some b | _ => None end.

Definition asArray (v : JSON) : option (list JSON) :=
  match v with JArr l => Some l | _ => None end.

Definition asObject (v : JSON) : option (list (string * JSON)) :=
  match v with JObj m => Some m | _ => None end.

(** [x, _ = v.(string)]: the zero value when the assertion fails. *)
Definition stringOrZero (v : JSON) : string := default "" (asString v).

(** [m[key]] on a decoded JSON object. *)
Fixpoint objLookup (m : list (string * JSON)) (key : string) : option JSON :=
  match m with
  | [] => None
  | (k, v) :: m' => if String.eqb k key then Some v else objLookup m' key
  end.

(** [v != nil] for an [interface{}] result. *)
Definition notNil (v : JSON) : bool :=
  match v with JNull => false | _ => true end.

(** [JSONRPCRequest{ID, Method, Params, Worker}], in the order of the
    struct literals in the sources. *)
Record JSONRPCRequest : Type := mkRequest {
  req_ID : JSON;
  req_Method : string;
  req_Params : list JSON;
  req_Worker : string
}.

(** [JSONRPCResponse{ID, Result, Error}]. *)
Record JSONRPCResponse : Type := mkResponse {
  resp_ID : JSON;
  resp_Result : JSON;
  resp_Error : JSON
}.

(** [new(JSONRPCRequest)] and [var r JSONRPCResponse]: the zero values. *)
Definition zeroRequest : JSONRPCRequest := mkRequest JNull "" [] "".
Definition zeroResponse : JSONRPCResponse := mkResponse JNull JNull JNull.

(** A line read from a connection, given by what the two decoders of the
    repository, [NewJSONRPCResponse] and [NewJSONRPCRequest], return on it
    ([None] for a decoding error). *)
Record Line : Type := mkLine {
  asResponse : option JSONRPCResponse;
  asRequest : option JSONRPCRequest
}.

(** [StratumError]: a code and a message, as [NewStratumError(201, ...)] builds one. *)
Record StratumError : Type := NewStratumError {
  ErrNo : Z;
  ErrMsg : string
}.

(** [err.ToJSONRPCArray(extData)]: [nil] for a nil error, else code, message
    and the extra datum. *)
Definition ToJSONRPCArray (err : option StratumError) (extData : JSON) : JSON :=
  match err with
  | None => JNull
  | Some e => JArr [JNum (ErrNo e); JStr (ErrMsg e); extData]
  end.

(** The values of Go's [error] that the session passes around. *)
Inductive error : Type :=
| ErrParseSubscribeResponseFailed
| ErrSessionIDInconformity
| ErrTooMuchPendingAutoRegReq
| ErrConnClosed                      (* a read or write on a closed connection *)
| ErrCoordinator                     (* an error of the coordinator client *)
| ErrStratum (e : StratumError)      (* a [*StratumError] returned as [error] *)
| errors_New (msg : string)
| errors_Wrap (msg : string) (cause : error).   (* [errors.New(msg + cause.Error())] *)

(** ** The data model of a session *)

Inductive ChainType : Type :=
| ChainTypeBitcoin
| ChainTypeDecredNormal
| ChainTypeDecredGoMiner
| ChainTypeEthereum
| ChainTypeOther.                    (* any other value of the integer type *)

Inductive ProtocolType : Type :=
| ProtocolBitcoinStratum
| ProtocolEthereumStratum
| ProtocolEthereumStratumNiceHash
| ProtocolEthereumProxy
| ProtocolUnknown.

Inductive RunningStat : Type :=
| StatRunning
| StatStoped
| StatReconnecting.

Inductive AuthorizeStat : Type :=
| StatConnected
| StatSubScribed
| StatAuthorized.

#[global] Instance ChainType_eq_dec : EqDecision ChainType.
Proof. solve_decision. Defined.
#[global] Instance ProtocolType_eq_dec : EqDecision ProtocolType.
Proof. solve_decision. Defined.
#[global] Instance RunningStat_eq_dec : EqDecision RunningStat.
Proof. solve_decision. Defined.
#[global] Instance AuthorizeStat_eq_dec : EqDecision AuthorizeStat.
Proof. solve_decision. Defined.

Definition btcAgentClientTypePrefix : string := "btccom-agent/".
Definition niceHashClientTypePrefix : string := "nicehash/".
Definition ethereumStratumNiceHashPrefix : string := "ethereumstratum/".
Definition ethereumStratumNiceHashVersion : string := "EthereumStratum/1.0.0".
Definition ethproxyVersion : string := "ETHProxy/1.0.0".

(** An entry of [stratumServerInfoMap]. *)
Record StratumServerInfo : Type := mkServerInfo {
  URL : string;
  UserSuffix : string
}.

(** The fields of [StratumSessionManager] that a session reads. *)
Record StratumSessionManager : Type := mkManager {
  chainType : ChainType;
  serverID : Z;
  stratumServerInfoMap : gmap string StratumServerInfo;
  enableUserAutoReg : bool;
  zookeeperSwitcherWatchDir : string;
  zookeeperAutoRegWatchDir : string
}.

(** [StratumSession].  The two cached requests are pointers: locations in
    the store of request objects of the [World].  The sockets, the readers
    and the lock are fields of the [World]. *)
Record StratumSession : Type := mkSession {
  manager : option StratumSessionManager;
  protocolType : ProtocolType;
  isBTCAgent : bool;
  isNiceHashClient : bool;
  jsonRPCVersion : Z;
  versionMask : Z;
  runningStat : RunningStat;
  reconnectCounter : Z;
  clientIPPort : string;
  sessionID : Z;
  sessionIDString : string;
  fullWorkerName : string;
  subaccountName : string;
  minerNameWithDot : string;
  stratumSubscribeRequest : option nat;
  stratumAuthorizeRequest : option nat;
  miningCoin : string;
  zkWatchPath : string
}.

(** Assignments to one field of the session. *)
Definition set_manager (v : option StratumSessionManager) (s : StratumSession) : StratumSession :=
  mkSession v (protocolType s) (isBTCAgent s) (isNiceHashClient s) (jsonRPCVersion s)
            (versionMask s) (runningStat s) (reconnectCounter s) (clientIPPort s) (sessionID s)
            (sessionIDString s) (fullWorkerName s) (subaccountName s) (minerNameWithDot s)
            (stratumSubscribeRequest s) (stratumAuthorizeRequest s) (miningCoin s)
            (zkWatchPath s).
Definition set_protocolType (v : ProtocolType) (s : StratumSession) : StratumSession :=
  mkSession (manager s) v (isBTCAgent s) (isNiceHashClient s) (jsonRPCVersion s) (versionMask s)
            (runningStat s) (reconnectCounter s) (clientIPPort s) (sessionID s)
            (sessionIDString s) (fullWorkerName s) (subaccountName s) (minerNameWithDot s)
            (stratumSubscribeRequest s) (stratumAuthorizeRequest s) (miningCoin s)
            (zkWatchPath s).
Definition set_isBTCAgent (v : bool) (s : StratumSession) : StratumSession :=
  mkSession (manager s) (protocolType s) v (isNiceHashClient s) (jsonRPCVersion s)
            (versionMask s) (runningStat s) (reconnectCounter s) (clientIPPort s) (sessionID s)
            (sessionIDString s) (fullWorkerName s) (subaccountName s) (minerNameWithDot s)
            (stratumSubscribeRequest s) (stratumAuthorizeRequest s) (miningCoin s)
            (zkWatchPath s).
Definition set_isNiceHashClient (v : bool) (s : StratumSession) : StratumSession :=
  mkSession (manager s) (protocolType s) (isBTCAgent s) v (jsonRPCVersion s) (versionMask s)
            (runningStat s) (reconnectCounter s) (clientIPPort s) (sessionID s)
            (sessionIDString s) (fullWorkerName s) (subaccountName s) (minerNameWithDot s)
            (stratumSubscribeRequest s) (stratumAuthorizeRequest s) (miningCoin s)
            (zkWatchPath s).
Definition set_jsonRPCVersion (v : Z) (s : StratumSession) : StratumSession :=
  mkSession (manager s) (protocolType s) (isBTCAgent s) (isNiceHashClient s) v (versionMask s)
            (runningStat s) (reconnectCounter s) (clientIPPort s) (sessionID s)
            (sessionIDString s) (fullWorkerName s) (subaccountName s) (minerNameWithDot s)
            (stratumSubscribeRequest s) (stratumAuthorizeRequest s) (miningCoin s)
            (zkWatchPath s).
Definition set_versionMask (v : Z) (s : StratumSession) : StratumSession :=
  mkSession (manager s) (protocolType s) (isBTCAgent s) (isNiceHashClient s) (jsonRPCVersion s)
            v (runningStat s) (reconnectCounter s) (clientIPPort s) (sessionID s)
            (sessionIDString s) (fullWorkerName s) (subaccountName s) (minerNameWithDot s)
            (stratumSubscribeRequest s) (stratumAuthorizeRequest s) (miningCoin s)
            (zkWatchPath s).
Definition set_runningStat (v : RunningStat) (s : StratumSession) : StratumSession :=
  mkSession (manager s) (protocolType s) (isBTCAgent s) (isNiceHashClient s) (jsonRPCVersion s)
            (versionMask s) v (reconnectCounter s) (clientIPPort s) (sessionID s)
            (sessionIDString s) (fullWorkerName s) (subaccountName s) (minerNameWithDot s)
            (stratumSubscribeRequest s) (stratumAuthorizeRequest s) (miningCoin s)
            (zkWatchPath s).
Definition set_fullWorkerName (v : string) (s : StratumSession) : StratumSession :=
  mkSession (manager s) (protocolType s) (isBTCAgent s) (isNiceHashClient s) (jsonRPCVersion s)
            (versionMask s) (runningStat s) (reconnectCounter s) (clientIPPort s) (sessionID s)
            (sessionIDString s) v (subaccountName s) (minerNameWithDot s)
            (stratumSubscribeRequest s) (stratumAuthorizeRequest s) (miningCoin s)
            (zkWatchPath s).
Definition set_subaccountName (v : string) (s : StratumSession) : StratumSession :=
  mkSession (manager s) (protocolType s) (isBTCAgent s) (isNiceHashClient s) (jsonRPCVersion s)
            (versionMask s) (runningStat s) (reconnectCounter s) (clientIPPort s) (sessionID s)
            (sessionIDString s) (fullWorkerName s) v (minerNameWithDot s)
            (stratumSubscribeRequest s) (stratumAuthorizeRequest s) (miningCoin s)
            (zkWatchPath s).
Definition set_minerNameWithDot (v : string) (s : StratumSession) : StratumSession :=
  mkSession (manager s) (protocolType s) (isBTCAgent s) (isNiceHashClient s) (jsonRPCVersion s)
            (versionMask s) (runningStat s) (reconnectCounter s) (clientIPPort s) (sessionID s)
            (sessionIDString s) (fullWorkerName s) (subaccountName s) v
            (stratumSubscribeRequest s) (stratumAuthorizeRequest s) (miningCoin s)
            (zkWatchPath s).
Definition set_stratumSubscribeRequest (v : option nat) (s : StratumSession) : StratumSession :=
  mkSession (manager s) (protocolType s) (isBTCAgent s) (isNiceHashClient s) (jsonRPCVersion s)
            (versionMask s) (runningStat s) (reconnectCounter s) (clientIPPort s) (sessionID s)
            (sessionIDString s) (fullWorkerName s) (subaccountName s) (minerNameWithDot s) v
            (stratumAuthorizeRequest s) (miningCoin s) (zkWatchPath s).
Definition set_stratumAuthorizeRequest (v : option nat) (s : StratumSession) : StratumSession :=
  mkSession (manager s) (protocolType s) (isBTCAgent s) (isNiceHashClient s) (jsonRPCVersion s)
            (versionMask s) (runningStat s) (reconnectCounter s) (clientIPPort s) (sessionID s)
            (sessionIDString s) (fullWorkerName s) (subaccountName s) (minerNameWithDot s)
            (stratumSubscribeRequest s) v (miningCoin s) (zkWatchPath s).
Definition set_miningCoin (v : string) (s : StratumSession) : StratumSession :=
  mkSession (manager s) (protocolType s) (isBTCAgent s) (isNiceHashClient s) (jsonRPCVersion s)
            (versionMask s) (runningStat s) (reconnectCounter s) (clientIPPort s) (sessionID s)
            (sessionIDString s) (fullWorkerName s) (subaccountName s) (minerNameWithDot s)
            (stratumSubscribeRequest s) (stratumAuthorizeRequest s) v (zkWatchPath s).
Definition set_zkWatchPath (v : string) (s : StratumSession) : StratumSession :=
  mkSession (manager s) (protocolType s) (isBTCAgent s) (isNiceHashClient s) (jsonRPCVersion s)
            (versionMask s) (runningStat s) (reconnectCounter s) (clientIPPort s) (sessionID s)
            (sessionIDString s) (fullWorkerName s) (subaccountName s) (minerNameWithDot s)
            (stratumSubscribeRequest s) (stratumAuthorizeRequest s) (miningCoin s) v.
Definition set_sessionIDString (v : string) (s : StratumSession) : StratumSession :=
  mkSession (manager s) (protocolType s) (isBTCAgent s) (isNiceHashClient s) (jsonRPCVersion s)
            (versionMask s) (runningStat s) (reconnectCounter s) (clientIPPort s) (sessionID s)
            v (fullWorkerName s) (subaccountName s) (minerNameWithDot s)
            (stratumSubscribeRequest s) (stratumAuthorizeRequest s) (miningCoin s)
            (zkWatchPath s).

(** ** The coordinator (ZooKeeper) *)

(** A request sent to the coordinator. *)
Inductive ZkRequest : Type :=
| ZkExists (path : string)
| ZkCreate (path : string) (data : string)
| ZkGetW (path : string).

(** The coordinator as the two programs see it: the nodes with their data,
    the requests received so far, and for the coming requests whether each
    fails with an error ([true]; when the list is used up no request fails). *)
Record ZooKeeper : Type := mkZk {
  nodes : gmap string string;
  faults : list bool;
  zkLog : list ZkRequest
}.

(** One request arrives: it is logged and the next fault is consumed. *)
Definition zkArrive (r : ZkRequest) (z : ZooKeeper) : bool * ZooKeeper :=
  match faults z with
  | [] => (false, mkZk (nodes z) [] (zkLog z ++ [r]))
  | f :: fs => (f, mkZk (nodes z) fs (zkLog z ++ [r]))
  end.

(** [conn.Exists(path)]: [None] is an error. *)
Definition zkExists (path : string) (z : ZooKeeper) : option bool * ZooKeeper :=
  let '(failed, z') := zkArrive (ZkExists path) z in
  if failed then (None, z')
  else (Some (bool_decide (is_Some (nodes z' !! path))), z').

(** [conn.Create(path, data, 0, acl)]: [false] is an error; creating a node
    that exists is one. *)
Definition zkCreate (path data : string) (z : ZooKeeper) : bool * ZooKeeper :=
  let '(failed, z') := zkArrive (ZkCreate path data) z in
  if failed then (false, z')
  else match nodes z' !! path with
       | Some _ => (false, z')
       | None => (true, mkZk (<[path := data]> (nodes z')) (faults z') (zkLog z'))
       end.

(** [GetW(path, sessionID)] of the coordinator client: the data of the node
    (and a watch), or an error when the node is missing. *)
Definition zkGetW (path : string) (z : ZooKeeper) : option string * ZooKeeper :=
  let '(failed, z') := zkArrive (ZkGetW path) z in
  if failed then (None, z') else (nodes z' !! path, z').

(** ** The world of one session *)

(** A TCP connection from the side of the proxy: the lines it will still
    deliver (after them a read fails) and whether a write succeeds. *)
Record Conn : Type := mkConn {
  pending : list Line;
  writable : bool
}.

(** [conn.Close()]: nothing more is delivered and no write succeeds. *)
Definition closed : Conn := mkConn [] false.

(** A goroutine started with [go]. *)
Inductive Task : Type :=
| TaskStop
| TaskProxyStratum
| TaskDownStream
| TaskUpStream
| TaskCoinWatcher.

(** What the session does to its surroundings, in order. *)
Inductive Event : Type :=
| ClientGetsResponse (r : JSONRPCResponse) (version : Z)
| ClientGetsNotify (n : JSONRPCRequest)
| ClientGetsResidue (ls : list Line) (* what was left in [serverReader] *)
| ServerGets (r : JSONRPCRequest)
| Dialed (url : string)
| ServerClosed
| ClientClosed
| Registered
| UnRegistered
| Released
| Slept
| Spawned (t : Task).

Record World : Type := mkWorld {
  session : StratumSession;
  requests : list JSONRPCRequest;    (* the objects behind [*JSONRPCRequest] *)
  locked : bool;                     (* [session.lock] is held *)
  clientConn : Conn;
  clientReader : bool;               (* [session.clientReader != nil] *)
  serverConn : option Conn;
  serverReader : bool;               (* [session.serverReader != nil] *)
  serverBuffered : nat;              (* how many of the coming lines of the server
                                        [serverReader] holds when it is released *)
  network : list (option Conn);      (* what the coming [net.Dial] calls return *)
  zookeeper : ZooKeeper;
  autoRegAllowUsers : Z;
  trace : list Event
}.

Definition set_session (v : StratumSession) (w : World) : World :=
  mkWorld v (requests w) (locked w) (clientConn w) (clientReader w) (serverConn w)
          (serverReader w) (serverBuffered w) (network w) (zookeeper w)
          (autoRegAllowUsers w) (trace w).
Definition set_requests (v : list JSONRPCRequest) (w : World) : World :=
  mkWorld (session w) v (locked w) (clientConn w) (clientReader w) (serverConn w)
          (serverReader w) (serverBuffered w) (network w) (zookeeper w)
          (autoRegAllowUsers w) (trace w).
Definition set_locked (v : bool) (w : World) : World :=
  mkWorld (session w) (requests w) v (clientConn w) (clientReader w) (serverConn w)
          (serverReader w) (serverBuffered w) (network w) (zookeeper w)
          (autoRegAllowUsers w) (trace w).
Definition set_clientConn (v : Conn) (w : World) : World :=
  mkWorld (session w) (requests w) (locked w) v (clientReader w) (serverConn w)
          (serverReader w) (serverBuffered w) (network w) (zookeeper w)
          (autoRegAllowUsers w) (trace w).
Definition set_serverConn (v : option Conn) (w : World) : World :=
  mkWorld (session w) (requests w) (locked w) (clientConn w) (clientReader w) v
          (serverReader w) (serverBuffered w) (network w) (zookeeper w)
          (autoRegAllowUsers w) (trace w).
Definition set_serverReader (v : bool) (w : World) : World :=
  mkWorld (session w) (requests w) (locked w) (clientConn w) (clientReader w) (serverConn w)
          v (serverBuffered w) (network w) (zookeeper w) (autoRegAllowUsers w) (trace w).
Definition set_network (v : list (option Conn)) (w : World) : World :=
  mkWorld (session w) (requests w) (locked w) (clientConn w) (clientReader w) (serverConn w)
          (serverReader w) (serverBuffered w) v (zookeeper w) (autoRegAllowUsers w) (trace w).
Definition set_zookeeper (v : ZooKeeper) (w : World) : World :=
  mkWorld (session w) (requests w) (locked w) (clientConn w) (clientReader w) (serverConn w)
          (serverReader w) (serverBuffered w) (network w) v (autoRegAllowUsers w) (trace w).
Definition set_autoRegAllowUsers (v : Z) (w : World) : World :=
  mkWorld (session w) (requests w) (locked w) (clientConn w) (clientReader w) (serverConn w)
          (serverReader w) (serverBuffered w) (network w) (zookeeper w) v (trace w).
Definition set_trace (v : list Event) (w : World) : World :=
  mkWorld (session w) (requests w) (locked w) (clientConn w) (clientReader w) (serverConn w)
          (serverReader w) (serverBuffered w) (network w) (zookeeper w) (autoRegAllowUsers w) v.

(** ** Computations of the session *)

(** A method either returns in a new world, panics, or blocks for ever (a
    second [Lock] of the mutex by the goroutine that holds it). *)
Inductive Outcome (A : Type) : Type :=
| Done (a : A) (w : World)
| Panic
| Blocked.
Arguments Done {A} a w.
Arguments Panic {A}.
Arguments Blocked {A}.

Definition M (A : Type) : Type := World -> Outcome A.

Definition ret {A : Type} (a : A) : M A := fun w => Done a w.

Definition bind {A B : Type} (m : M A) (k : A -> M B) : M B :=
  fun w => match m w with
           | Done a w' => k a w'
           | Panic => Panic
           | Blocked => Blocked
           end.

Notation "'let*' x ':=' m 'in' k" := (bind m (fun x => k))
  (at level 10, x name, m at level 100, k at level 200).
Notation "'let*' ' p ':=' m 'in' k" := (bind m (fun x => match x with p => k end))
  (at level 10, p pattern, m at level 100, k at level 200).
Notation "m '>>' k" := (bind m (fun _ => k))
  (at level 100, k at level 200, right associativity).

Definition panic {A : Type} : M A := fun _ => Panic.

(** The result of a method that changes nothing: a value or a panic. *)
Inductive Result (A : Type) : Type :=
| Returns (a : A)
| Panics.
Arguments Returns {A} a.
Arguments Panics {A}.

Definition returned {A : Type} (r : Result A) : M A :=
  match r with
  | Returns a => ret a
  | Panics => panic
  end.

Definition getWorld : M World := fun w => Done w w.
Definition getSession : M StratumSession := fun w => Done (session w) w.
Definition modifyWorld (f : World -> World) : M unit := fun w => Done tt (f w).
Definition modifySession (f : StratumSession -> StratumSession) : M unit :=
  modifyWorld (fun w => set_session (f (session w)) w).
Definition emit (e : Event) : M unit :=
  modifyWorld (fun w => set_trace (trace w ++ [e]) w).

(** [session.lock.Lock()] and [session.lock.Unlock()]. *)
Definition Lock : M unit :=
  fun w => if locked w then Blocked else Done tt (set_locked true w).
Definition Unlock : M unit :=
  fun w => if locked w then Done tt (set_locked false w) else Panic.

(** [session.manager], dereferenced. *)
Definition theManager : M StratumSessionManager :=
  let* s := getSession in
  match manager s with Some m => ret m | None => panic end.

(** [*p] for a pointer to a request; nil panics. *)
Definition loadRequest (p : option nat) : M JSONRPCRequest :=
  match p with
  | None => panic
  | Some l => let* w := getWorld in
              match requests w !! l with Some r => ret r | None => panic end
  end.

(** An assignment through a pointer to a request. *)
Definition updateRequest (p : option nat) (f : JSONRPCRequest -> JSONRPCRequest) : M unit :=
  let* r := loadRequest p in
  match p with
  | None => panic
  | Some l => modifyWorld (fun w => set_requests (<[l := f r]> (requests w)) w)
  end.

(** A new request object; the result is the pointer to it. *)
Definition allocRequest (r : JSONRPCRequest) : M (option nat) :=
  let* w := getWorld in
  modifyWorld (set_requests (requests w ++ [r])) >>
  ret (Some (length (requests w))).

Definition set_req_ID (v : JSON) (r : JSONRPCRequest) : JSONRPCRequest :=
  mkRequest v (req_Method r) (req_Params r) (req_Worker r).
Definition set_req_Method (v : string) (r : JSONRPCRequest) : JSONRPCRequest :=
  mkRequest (req_ID r) v (req_Params r) (req_Worker r).

(** Modelled from the spec: the method [SetParam] of [JSONRPCRequest] is
    declared in a file of the repository that is not among the sources.  The
    specification gives the parameters of a request after the call as exactly
    the arguments, in order (the synthetic subscribe request has params
    ["ETHProxy", "ETHProxy/1.0.0"]; the upstream subscribe is rewritten to
    (userAgent, sessionIDString, clientIP)). *)
Definition SetParam (param : list JSON) (r : JSONRPCRequest) : JSONRPCRequest :=
  mkRequest (req_ID r) (req_Method r) param (req_Worker r).

(** ** What the sources take from the rest of the repository *)

(** Helpers and constants that the two source files use and other files of
    the repository declare; and what the coordinator has become when a watch
    that the session waits for fires. *)
Class Externals : Type := {
  FilterWorkerName : string -> string;
  StripEthAddrFromFullName : string -> string;
  GetRegularSubaccountName : string -> string;
  IP2Long : string -> Z;
  StratumErrUnknownChainType : StratumError;
  StratumErrDuplicateSubscribed : StratumError;
  StratumErrNeedSubscribed : StratumError;
  StratumErrTooFewParams : StratumError;
  StratumErrWorkerNameMustBeString : StratumError;
  StratumErrWorkerNameStartWrong : StratumError;
  StratumErrStratumServerNotFound : StratumError;
  StratumErrConnectStratumServerFailed : StratumError;
  jsonMarshalAutoRegInfo : Z -> string -> string;
  awaitWatch : ZooKeeper -> ZooKeeper
}.

(** ** The session: creation and the client handshake *)

Section Session.
Context `{Externals}.

(** [NewStratumSession(manager, clientConn, sessionID)]; the connection is
    given by its remote address.  [None] where a slice would panic. *)
Definition NewStratumSession (mgr : StratumSessionManager) (remoteAddr : string)
    (id : Z) : option StratumSession :=
  let session :=
    mkSession (Some mgr) ProtocolBitcoinStratum false false 1 0 StatStoped 0
              remoteAddr id "" "" "" "" None None "" "" in
  match chainType mgr with
  | ChainTypeBitcoin =>
      Some (set_sessionIDString (Hex.Uint32ToHex (sessionID session)) session)
  | ChainTypeDecredNormal =>
      Some (set_sessionIDString
              ("0000000000000000" ++ Hex.Uint32ToHexLE (sessionID session)) session)
  | ChainTypeDecredGoMiner =>
      Some (set_sessionIDString (Hex.Uint32ToHexLE (sessionID session)) session)
  | ChainTypeEthereum =>
      match GoStrings.slice (Hex.Uint32ToHex (sessionID session)) 2 8 with
      | Some str => Some (set_sessionIDString str session)
      | None => None
      end
  | ChainTypeOther => Some session
  end.

(** [session.getVersionMaskStr()]. *)
Definition getVersionMaskStr (s : StratumSession) : string :=
  Hex.Sprintf_08x (versionMask s).

(** [session.getDefaultStratumProtocol()]. *)
Definition getDefaultStratumProtocol : M ProtocolType :=
  let* m := theManager in
  match chainType m with
  | ChainTypeBitcoin | ChainTypeDecredNormal | ChainTypeDecredGoMiner =>
      ret ProtocolBitcoinStratum
  | ChainTypeEthereum => ret ProtocolEthereumProxy
  | ChainTypeOther => ret ProtocolUnknown
  end.

(** [session.writeJSONResponseToClient(jsonData)]. *)
Definition writeJSONResponseToClient (r : JSONRPCResponse) : M (option error) :=
  let* w := getWorld in
  if writable (clientConn w)
  then emit (ClientGetsResponse r (jsonRPCVersion (session w))) >> ret None
  else ret (Some ErrConnClosed).

(** [session.writeJSONNotifyToClient(jsonData)]. *)
Definition writeJSONNotifyToClient (n : JSONRPCRequest) : M (option error) :=
  let* w := getWorld in
  if writable (clientConn w)
  then emit (ClientGetsNotify n) >> ret None
  else ret (Some ErrConnClosed).

(** [session.writeJSONRequestToServer(jsonData)]. *)
Definition writeJSONRequestToServer (r : JSONRPCRequest) : M (option error) :=
  let* w := getWorld in
  match serverConn w with
  | None => panic
  | Some c => if writable c then emit (ServerGets r) >> ret None
              else ret (Some ErrConnClosed)
  end.

(** The extranonce of a NiceHash Ethereum session: [sessionIDString], and
    for NiceHash miners only its slice [0:4].  [None] where the slice
    panics. *)
Definition sessionExtraNonce (s : StratumSession) : option string :=
  if isNiceHashClient s then GoStrings.slice (sessionIDString s) 0 4
  else Some (sessionIDString s).

(** [session.parseSubscribeRequest(request)]. *)
Definition parseSubscribeRequest (request : option nat)
  : M (JSON * option StratumError) :=
  modifySession (set_stratumSubscribeRequest request) >>
  let* m := theManager in
  let* r := loadRequest request in
  match chainType m with
  | ChainTypeBitcoin | ChainTypeDecredNormal | ChainTypeDecredGoMiner =>
      match req_Params r !! 0%nat with
      | Some p0 =>
          match asString p0 with
          | Some userAgent =>
              if GoStrings.HasPrefix (GoStrings.ToLower userAgent) btcAgentClientTypePrefix
              then modifySession (set_isBTCAgent true) else ret tt
          | None => ret tt
          end
      | None => ret tt
      end >>
      let* s := getSession in
      ret (JArr [JArr [JArr [JStr "mining.set_difficulty"; JStr (sessionIDString s)];
                       JArr [JStr "mining.notify"; JStr (sessionIDString s)]];
                 JStr (sessionIDString s); JNum 8], None)
  | ChainTypeEthereum =>
      modifySession (set_protocolType ProtocolEthereumStratum) >>
      match req_Params r !! 0%nat with
      | Some p0 =>
          match asString p0 with
          | Some userAgent =>
              (if GoStrings.HasPrefix (GoStrings.ToLower userAgent) niceHashClientTypePrefix
               then modifySession (set_isNiceHashClient true) else ret tt) >>
              (if GoStrings.HasPrefix (GoStrings.ToLower userAgent) btcAgentClientTypePrefix
               then modifySession (set_isBTCAgent true) >>
                    modifySession (set_protocolType ProtocolEthereumStratumNiceHash)
               else ret tt)
          | None => ret tt
          end
      | None => ret tt
      end >>
      match req_Params r !! 1%nat with
      | Some p1 =>
          match asString p1 with
          | Some protocol =>
              if GoStrings.HasPrefix (GoStrings.ToLower protocol) ethereumStratumNiceHashPrefix
              then modifySession (set_protocolType ProtocolEthereumStratumNiceHash)
              else ret tt
          | None => ret tt
          end
      | None => ret tt
      end >>
      let* s := getSession in
      if decide (protocolType s = ProtocolEthereumStratumNiceHash) then
        let* extraNonce := match sessionExtraNonce s with
                           | Some e => ret e
                           | None => panic
                           end in
        ret (JArr [JArr [JStr "mining.notify"; JStr (sessionIDString s);
                         JStr ethereumStratumNiceHashVersion];
                   JStr extraNonce], None)
      else ret (JBool true, None)
  | ChainTypeOther => panic            (* [glog.Fatal] ends the process *)
  end.

(** [session.makeSubscribeMessageForEthProxy()]. *)
Definition makeSubscribeMessageForEthProxy : M unit :=
  let* p := allocRequest zeroRequest in
  modifySession (set_stratumSubscribeRequest p) >>
  updateRequest p (set_req_Method "mining.subscribe") >>
  updateRequest p (SetParam [JStr "ETHProxy"; JStr ethproxyVersion]).

(** [session.parseAuthorizeRequest(request)]. *)
Definition parseAuthorizeRequest (request : option nat)
  : M (JSON * option StratumError) :=
  modifySession (set_stratumAuthorizeRequest request) >>
  let* r := loadRequest request in
  match req_Params r !! 0%nat with
  | None => ret (JNull, Some StratumErrTooFewParams)
  | Some p0 =>
      match asString p0 with
      | None => ret (JNull, Some StratumErrWorkerNameMustBeString)
      | Some fullName =>
          modifySession (set_fullWorkerName (FilterWorkerName fullName)) >>
          let* s := getSession in
          (if decide (protocolType s = ProtocolBitcoinStratum) then ret tt
           else
             (if String.eqb (req_Worker r) "" then ret tt
              else modifySession (fun s =>
                     set_fullWorkerName
                       (fullWorkerName s ++ "." ++ FilterWorkerName (req_Worker r)) s)) >>
             modifySession (fun s =>
               set_fullWorkerName (StripEthAddrFromFullName (fullWorkerName s)) s)) >>
          let* s := getSession in
          theManager >>
          (if GoStrings.Contains (fullWorkerName s) "." then
             let pos := GoStrings.Index (fullWorkerName s) "." in
             match GoStrings.slice (fullWorkerName s) 0 pos,
                   GoStrings.slice (fullWorkerName s) pos (GoStrings.len (fullWorkerName s)) with
             | Some before, Some after =>
                 modifySession (set_subaccountName (GetRegularSubaccountName before)) >>
                 modifySession (set_minerNameWithDot after) >>
                 modifySession (fun s =>
                   set_fullWorkerName (subaccountName s ++ minerNameWithDot s) s)
             | _, _ => panic
             end
           else
             modifySession (set_subaccountName
                              (GetRegularSubaccountName (fullWorkerName s))) >>
             modifySession (set_minerNameWithDot "") >>
             modifySession (fun s => set_fullWorkerName (subaccountName s) s)) >>
          let* s := getSession in
          if GoStrings.len (subaccountName s) <? 1
          then ret (JNull, Some StratumErrWorkerNameStartWrong)
          else ret (JNull, None)
      end
  end.

(** [session.parseConfigureRequest(request)]. *)
Definition parseConfigureRequest (request : option nat)
  : M (JSON * option StratumError) :=
  let* r := loadRequest request in
  if Z.of_nat (length (req_Params r)) <? 2 then ret (JNull, Some StratumErrTooFewParams)
  else
    match req_Params r !! 1%nat with
    | Some p1 =>
        match asObject p1 with
        | Some options =>
            match objLookup options "version-rolling.mask" with
            | Some versionMaskI =>
                match asString versionMaskI with
                | Some versionMaskStr =>
                    match Hex.ParseUint_16_32 versionMaskStr with
                    | Some v => modifySession (set_versionMask v)
                    | None => ret tt
                    end
                | None => ret tt
                end
            | None => ret tt
            end
        | None => ret tt
        end
    | None => panic
    end >>
    let* s := getSession in
    if negb (versionMask s =? 0)
    then ret (JObj [("version-rolling", JBool true);
                    ("version-rolling.mask", JStr (getVersionMaskStr s))], None)
    else ret (JNull, None).

(** The case ["mining.authorize"] of [stratumHandleRequest], which the case
    ["eth_submitLogin"] falls through to. *)
Definition handleAuthorize (request : option nat) (stat : AuthorizeStat)
  : M (JSON * option StratumError * AuthorizeStat) :=
  if decide (stat = StatSubScribed) then
    let* '(result, err) := parseAuthorizeRequest request in
    match err with
    | None => ret (result, err, StatAuthorized)
    | Some _ => ret (result, err, stat)
    end
  else ret (JNull, Some StratumErrNeedSubscribed, stat).

(** [session.stratumHandleRequest(request, &stat)]; the new value of [stat]
    is the third component of the result. *)
Definition stratumHandleRequest (request : option nat) (stat : AuthorizeStat)
  : M (JSON * option StratumError * AuthorizeStat) :=
  let* r := loadRequest request in
  if String.eqb (req_Method r) "mining.subscribe" then
    if decide (stat = StatConnected) then
      let* '(result, err) := parseSubscribeRequest request in
      match err with
      | None => ret (result, err, StatSubScribed)
      | Some _ => ret (result, err, stat)
      end
    else ret (JNull, Some StratumErrDuplicateSubscribed, stat)
  else if String.eqb (req_Method r) "eth_submitLogin" then
    let* s := getSession in
    let* stat' :=
      (if decide (protocolType s = ProtocolEthereumProxy) then
         makeSubscribeMessageForEthProxy >>
         modifySession (set_jsonRPCVersion 2) >>
         ret StatSubScribed
       else ret stat) in
    handleAuthorize request stat'
  else if String.eqb (req_Method r) "mining.authorize" then
    handleAuthorize request stat
  else if String.eqb (req_Method r) "mining.configure" then
    let* s := getSession in
    if decide (protocolType s = ProtocolBitcoinStratum) then
      let* '(result, err) := parseConfigureRequest request in
      ret (result, err, stat)
    else ret (JNull, None, stat)
  else ret (JNull, None, stat).

(** [session.clientReader.ReadBytes('\n')] when the client will still
    deliver [lines]: the next line, or [None] for a read error. *)
Definition readLineFromClient (lines : list Line) : M (option Line) :=
  let* w := getWorld in
  if clientReader w then
    match lines with
    | [] => ret None
    | l :: rest =>
        modifyWorld (set_clientConn (mkConn rest (writable (clientConn w)))) >>
        ret (Some l)
    end
  else panic.

(** The loop of [stratumFindWorkerName], by recursion on the lines that the
    client will still deliver. *)
Fixpoint findWorkerNameLoop (lines : list Line) (stat : AuthorizeStat)
  : M (option error) :=
  if decide (stat = StatAuthorized) then ret None
  else
    let* next := readLineFromClient lines in
    match lines, next with
    | _ :: rest, Some l =>
        match asRequest l with
        | None => findWorkerNameLoop rest stat
        | Some decoded =>
            let* request := allocRequest decoded in
            let* '(result, stratumErr, stat') := stratumHandleRequest request stat in
            if notNil result || bool_decide (is_Some stratumErr) then
              let* r := loadRequest request in
              let* m := theManager in
              let* werr := writeJSONResponseToClient
                             (mkResponse (req_ID r) result
                                (ToJSONRPCArray stratumErr (JNum (serverID m)))) in
              match werr with
              | Some e => ret (Some (errors_Wrap "Write JSON Response Failed: " e))
              | None => findWorkerNameLoop rest stat'
              end
            else findWorkerNameLoop rest stat'
        end
    | _, _ => ret (Some (errors_Wrap "read line failed: " ErrConnClosed))
    end.

(** [session.stratumFindWorkerName()], without the 60 s timer. *)
Definition stratumFindWorkerName : M (option error) :=
  let* w := getWorld in
  findWorkerNameLoop (pending (clientConn w)) StatConnected.


(** ** The coin of a sub-account *)

(** [GetW(path, sessionID)] of the coordinator client. *)
Definition GetW (path : string) : M (option string) :=
  let* w := getWorld in
  let '(data, z) := zkGetW path (zookeeper w) in
  modifyWorld (set_zookeeper z) >> ret data.

(** [zookeeperManager.Create(path, data)]; [false] is an error. *)
Definition Create (path data : string) : M bool :=
  let* w := getWorld in
  let '(ok, z) := zkCreate path data (zookeeper w) in
  modifyWorld (set_zookeeper z) >> ret ok.

(** [session.findMiningCoin(autoReg)], with what it does when registration
    is to be tried given as [onAutoReg]. *)
Definition findMiningCoinWith (onAutoReg : M (option error)) (autoReg : bool)
  : M (option error) :=
  let* m := theManager in
  modifySession (fun s =>
    set_zkWatchPath (zookeeperSwitcherWatchDir m ++ subaccountName s) s) >>
  let* s := getSession in
  let* data := GetW (zkWatchPath s) in
  match data with
  | None =>
      if autoReg then onAutoReg
      else
        let* id := match stratumAuthorizeRequest s with
                   | Some _ => let* r := loadRequest (stratumAuthorizeRequest s) in
                               ret (req_ID r)
                   | None => ret JNull
                   end in
        writeJSONResponseToClient
          (mkResponse id JNull
             (ToJSONRPCArray (Some (NewStratumError 201 "Invalid Sub-account Name"))
                             (JNum (serverID m)))) >>
        ret (Some ErrCoordinator)
  | Some coin =>
      modifySession (set_miningCoin coin) >> ret None
  end.

(** [session.tryAutoReg()].  The wait [<-event] lets the coordinator become
    what [awaitWatch] says. *)
Definition tryAutoReg : M (option error) :=
  let* m := theManager in
  let* s := getSession in
  let autoRegWatchPath := zookeeperAutoRegWatchDir m ++ subaccountName s in
  let wait :=
    modifyWorld (fun w => set_zookeeper (awaitWatch (zookeeper w)) w) >>
    findMiningCoinWith panic false in
  let* data := GetW autoRegWatchPath in
  match data with
  | Some _ => wait
  | None =>
      let* w := getWorld in
      if autoRegAllowUsers w <? 1 then ret (Some ErrTooMuchPendingAutoRegReq)
      else
        modifyWorld (fun w => set_autoRegAllowUsers (autoRegAllowUsers w - 1) w) >>
        Create autoRegWatchPath
               (jsonMarshalAutoRegInfo (sessionID s) (fullWorkerName s)) >>
        let* data := GetW autoRegWatchPath in
        let* res := match data with
                    | None => ret (Some ErrCoordinator)
                    | Some _ => wait
                    end in
        modifyWorld (fun w => set_autoRegAllowUsers (autoRegAllowUsers w + 1) w) >>
        ret res
  end.

(** [session.findMiningCoin(autoReg)]. *)
Definition findMiningCoin (autoReg : bool) : M (option error) :=
  findMiningCoinWith tryAutoReg autoReg.

(** ** The upstream handshake *)

(** [session.sendMiningConfigureToServer()]. *)
Definition sendMiningConfigureToServer : M (option error) :=
  let* s := getSession in
  if versionMask s =? 0 then ret None
  else writeJSONRequestToServer
         (mkRequest (JStr "configure") "mining.configure"
            [JArr [JStr "version-rolling"];
             JObj [("version-rolling.mask", JStr (getVersionMaskStr s))]]
            "").

(** The client address without the port: [clientIPPort[:LastIndex(clientIPPort, ":")]]. *)
Definition clientIPOf (s : StratumSession) : M string :=
  match GoStrings.slice (clientIPPort s) 0 (GoStrings.LastIndex (clientIPPort s) ":") with
  | Some ip => ret ip
  | None => panic
  end.

(** [session.sendMiningSubscribeToServer()].  The local [request] is the
    pointer [session.stratumSubscribeRequest] itself, so the assignment to
    [request.ID] and the calls of [SetParam] write to the cached object. *)
Definition sendMiningSubscribeToServer : M (string * string * option error) :=
  let* s := getSession in
  let request := stratumSubscribeRequest s in
  updateRequest request (set_req_ID (JStr "subscribe")) >>
  let* '(userAgent, protocol) :=
    match protocolType s with
    | ProtocolBitcoinStratum =>
        let* r := loadRequest (stratumSubscribeRequest s) in
        let userAgent := match req_Params r !! 0%nat with
                         | Some p0 => stringOrZero p0
                         | None => "stratumSwitcher"
                         end in
        let* clientIP := clientIPOf s in
        let sessionIDString := Hex.Uint32ToHex (sessionID s) in
        updateRequest (stratumSubscribeRequest s)
          (SetParam [JStr userAgent; JStr sessionIDString; JNum (IP2Long clientIP)]) >>
        ret (userAgent, "Stratum")
    | ProtocolEthereumStratum | ProtocolEthereumStratumNiceHash | ProtocolEthereumProxy =>
        let* r := loadRequest (stratumSubscribeRequest s) in
        let userAgent := match req_Params r !! 0%nat with
                         | Some p0 => stringOrZero p0
                         | None => "stratumSwitcher"
                         end in
        let protocol := match req_Params r !! 1%nat with
                        | Some p1 => stringOrZero p1
                        | None => "Stratum"
                        end in
        let* clientIP := clientIPOf s in
        updateRequest (stratumSubscribeRequest s)
          (SetParam [JStr userAgent; JStr protocol; JStr (sessionIDString s);
                     JNum (IP2Long clientIP)]) >>
        ret (userAgent, protocol)
    | ProtocolUnknown => panic         (* [glog.Fatal] ends the process *)
    end in
  let* r := loadRequest (stratumSubscribeRequest s) in
  let* err := writeJSONRequestToServer r in
  ret (userAgent, protocol, err).

(** [session.getUserSuffix()]. *)
Definition getUserSuffix : M string :=
  let* m := theManager in
  let* s := getSession in
  match stratumServerInfoMap m !! miningCoin s with
  | Some serverInfo => ret (UserSuffix serverInfo)
  | None => ret (miningCoin s)
  end.

(** [session.sendMiningAuthorizeToServer(withSuffix)].  The request that is
    sent is a new object with a copy of the cached parameters. *)
Definition sendMiningAuthorizeToServer (withSuffix : bool)
  : M (string * string * option error) :=
  let* s := getSession in
  let* authWorkerName :=
    (if withSuffix
     then let* suffix := getUserSuffix in
          ret (subaccountName s ++ "_" ++ suffix ++ minerNameWithDot s)
     else ret (fullWorkerName s)) in
  let* cached := loadRequest (stratumAuthorizeRequest s) in
  let params := req_Params cached in
  let authWorkerPasswd := match params !! 1%nat with
                          | Some p1 => stringOrZero p1
                          | None => ""
                          end in
  match params with
  | [] => panic
  | _ :: _ =>
      let request := mkRequest (JStr "auth") (req_Method cached)
                               (<[0%nat := JStr authWorkerName]> params) "" in
      let* err := writeJSONRequestToServer request in
      ret (authWorkerName, authWorkerPasswd, err)
  end.

(** [session.stratumHandleServerNotify(notify, &allowedVersionMask)]; the
    result is the new value of [allowedVersionMask]. *)
Definition stratumHandleServerNotify (notify : JSONRPCRequest) (allowedVersionMask : Z) : Z :=
  if String.eqb (req_Method notify) "mining.set_version_mask" then
    match req_Params notify !! 0%nat with
    | Some p0 =>
        match asString p0 with
        | Some versionMaskStr =>
            match Hex.ParseUint_16_32 versionMaskStr with
            | Some mask => mask
            | None => allowedVersionMask
            end
        | None => allowedVersionMask
        end
    | None => allowedVersionMask
    end
  else allowedVersionMask.

(** [session.stratumHandleServerAuthorizeResponse(response)]. *)
Definition stratumHandleServerAuthorizeResponse (response : JSONRPCResponse) : bool :=
  match asBool (resp_Result response) with
  | Some success => success
  | None => false
  end.

(** [session.stratumHandleServerSubscribeResponse(response)].  The method
    reads fields of the session and writes none, so it is a function of the
    session: [Returns None] for nil, [Returns (Some e)] for the error [e]. *)
Definition stratumHandleServerSubscribeResponse (s : StratumSession)
    (response : JSONRPCResponse) : Result (option error) :=
  match protocolType s with
  | ProtocolBitcoinStratum =>
      match asArray (resp_Result response) with
      | None => Returns (Some ErrParseSubscribeResponseFailed)
      | Some result =>
          if Z.of_nat (length result) <? 2
          then Returns (Some ErrParseSubscribeResponseFailed)
          else
            match result !! 1%nat with
            | None => Panics
            | Some r1 =>
                match asString r1 with
                | None => Returns (Some ErrParseSubscribeResponseFailed)
                | Some sessionID =>
                    if negb (String.eqb sessionID (sessionIDString s))
                    then Returns (Some ErrSessionIDInconformity)
                    else Returns None
                end
            end
      end
  | ProtocolEthereumStratumNiceHash =>
      match asArray (resp_Result response) with
      | None => Returns (Some ErrParseSubscribeResponseFailed)
      | Some result =>
          if Z.of_nat (length result) <? 2
          then Returns (Some ErrParseSubscribeResponseFailed)
          else
            match result !! 0%nat, result !! 1%nat with
            | Some r0, Some r1 =>
                match asArray r0 with
                | None => Returns (Some ErrParseSubscribeResponseFailed)
                | Some notify =>
                    match notify !! 1%nat with
                    | None => Panics   (* [notify[1]]: index out of range *)
                    | Some n1 =>
                        match asString n1 with
                        | None => Returns (Some ErrParseSubscribeResponseFailed)
                        | Some sessionID =>
                            match sessionExtraNonce s with
                            | None => Panics
                            | Some extraNonce' =>
                                match asString r1 with
                                | None => Returns (Some ErrParseSubscribeResponseFailed)
                                | Some extraNonce =>
                                    if negb (String.eqb sessionID (sessionIDString s))
                                    then Returns (Some ErrSessionIDInconformity)
                                    else if negb (String.eqb extraNonce extraNonce')
                                    then Returns (Some ErrSessionIDInconformity)
                                    else Returns None
                                end
                            end
                        end
                    end
                end
            | _, _ => Panics
            end
      end
  | ProtocolEthereumStratum | ProtocolEthereumProxy =>
      match asBool (resp_Result response) with
      | Some true => Returns None
      | _ => Returns (Some ErrParseSubscribeResponseFailed)
      end
  | ProtocolUnknown => Panics          (* [glog.Fatal] ends the process *)
  end.

(** The local variables of the reader goroutine of
    [serverSubscribeAndAuthorize]. *)
Record AuthState : Type := mkAuthState {
  allowedVersionMask : Z;
  authResponse : JSONRPCResponse;
  authMsgCounter : Z;
  authSuccess : bool
}.

(** [session.stratumHandleServerResponse(response, &authMsgCounter,
    &authSuccess, &authResponse)]; the result carries the new values of the
    three variables. *)
Definition stratumHandleServerResponse (response : JSONRPCResponse) (st : AuthState)
  : M (option error * AuthState) :=
  match asString (resp_ID response) with
  | None => ret (None, st)
  | Some id =>
      if String.eqb id "configure" then ret (None, st)
      else if String.eqb id "subscribe" then
        let* s := getSession in
        let* err := returned (stratumHandleServerSubscribeResponse s response) in
        ret (err, st)
      else if String.eqb id "auth" then
        let counter := authMsgCounter st + 1 in
        let success := stratumHandleServerAuthorizeResponse response in
        let response' := if success || negb (authSuccess st)
                         then response else authResponse st in
        if success
        then ret (None, mkAuthState (allowedVersionMask st) response' 2 true)
        else ret (None, mkAuthState (allowedVersionMask st) response' counter (authSuccess st))
      else ret (None, st)
  end.

Definition set_allowedVersionMask (v : Z) (st : AuthState) : AuthState :=
  mkAuthState v (authResponse st) (authMsgCounter st) (authSuccess st).

(** [session.serverReader.ReadBytes('\n')] when the server will still
    deliver [lines]: the next line, or [None] for a read error. *)
Definition readLineFromServer (lines : list Line) : M (option Line) :=
  let* w := getWorld in
  match serverReader w, serverConn w with
  | true, Some c =>
      match lines with
      | [] => ret None
      | l :: rest =>
          modifyWorld (set_serverConn (Some (mkConn rest (writable c)))) >>
          ret (Some l)
      end
  | _, _ => panic
  end.

(** The loop [for authMsgCounter < 2] of the reader goroutine of
    [serverSubscribeAndAuthorize], by recursion on the lines that the server
    will still deliver.  The result is the error sent to the channel, or
    the variables at the end of the loop. *)
Fixpoint authLoop (lines : list Line) (st : AuthState) : M (error + AuthState) :=
  if authMsgCounter st <? 2 then
    let* next := readLineFromServer lines in
    match lines, next with
    | _ :: rest, Some json =>
        let asNotify :=
          match asRequest json with
          | Some notify =>
              authLoop rest (set_allowedVersionMask
                               (stratumHandleServerNotify notify (allowedVersionMask st)) st)
          | None => authLoop rest st
          end in
        match asResponse json with
        | Some response =>
            if notNil (resp_ID response) then
              let* '(err, st') := stratumHandleServerResponse response st in
              match err with
              | Some e => ret (inl e)
              | None =>
                  if negb (authSuccess st') && (authMsgCounter st' =? 1) then
                    let* '(_, _, err) := sendMiningAuthorizeToServer true in
                    match err with
                    | Some e => ret (inl e)
                    | None => authLoop rest st'
                    end
                  else authLoop rest st'
              end
            else asNotify
        | None => asNotify
        end
    | _, _ => ret (inl (errors_Wrap "read line failed: " ErrConnClosed))
    end
  else ret (inr st).

(** The reader goroutine of [serverSubscribeAndAuthorize]: the loop, then
    the reply to the client. *)
Definition readServerReplies : M (option error) :=
  let* w := getWorld in
  let lines := match serverConn w with Some c => pending c | None => [] end in
  let* res := authLoop lines (mkAuthState 0 zeroResponse 0 false) in
  match res with
  | inl e => ret (Some e)
  | inr st =>
      let* s := getSession in
      let* cached := loadRequest (stratumAuthorizeRequest s) in
      let* err := writeJSONResponseToClient
                    (mkResponse (req_ID cached) (resp_Result (authResponse st))
                                (resp_Error (authResponse st))) in
      match err with
      | Some e => ret (Some e)
      | None =>
          let* err :=
            (if authSuccess st && negb (versionMask s =? 0) then
               writeJSONNotifyToClient
                 (mkRequest JNull "mining.set_version_mask"
                    [JStr (Hex.Sprintf_08x
                             (Z.land (allowedVersionMask st) (versionMask s)))]
                    "")
             else ret None) in
          match err with
          | Some e => ret (Some e)
          | None =>
              if negb (authSuccess st)
              then ret (Some (errors_New "Authorize Failed for Server"))
              else ret None
          end
      end
  end.

(** [session.serverSubscribeAndAuthorize()], without the 10 s timer. *)
Definition serverSubscribeAndAuthorize : M (option error) :=
  let* err := sendMiningConfigureToServer in
  match err with
  | Some e => ret (Some e)
  | None =>
      let* '(_, _, err) := sendMiningSubscribeToServer in
      match err with
      | Some e => ret (Some e)
      | None =>
          let* '(_, _, err) := sendMiningAuthorizeToServer false in
          match err with
          | Some e => ret (Some e)
          | None => readServerReplies
          end
      end
  end.

(** [session.connectStratumServer()]. *)
Definition connectStratumServer : M (option error) :=
  let* s := getSession in
  let stat := runningStat s in
  let* m := theManager in
  let* rpcID := match stratumAuthorizeRequest s with
                | Some _ => let* r := loadRequest (stratumAuthorizeRequest s) in
                            ret (req_ID r)
                | None => ret JNull
                end in
  let report (e : StratumError) : M (option error) :=
    (if decide (stat = StatReconnecting) then ret None
     else writeJSONResponseToClient
            (mkResponse rpcID JNull (ToJSONRPCArray (Some e) (JNum (serverID m))))) >>
    ret (Some (ErrStratum e)) in
  match stratumServerInfoMap m !! miningCoin s with
  | None => report StratumErrStratumServerNotFound
  | Some serverInfo =>
      emit (Dialed (URL serverInfo)) >>
      let* w := getWorld in
      match network w with
      | Some conn :: rest =>
          modifyWorld (set_network rest) >>
          modifyWorld (set_serverConn (Some conn)) >>
          modifyWorld (set_serverReader true) >>
          serverSubscribeAndAuthorize
      | None :: rest =>
          modifyWorld (set_network rest) >>
          report StratumErrConnectStratumServerFailed
      | [] => report StratumErrConnectStratumServerFailed
      end
  end.

(** ** Stopping, reconnecting and switching *)

(** [session.Stop()]. *)
Definition Stop : M unit :=
  Lock >>
  let* s := getSession in
  if decide (runningStat s = StatStoped) then Unlock
  else
    modifySession (set_runningStat StatStoped) >>
    Unlock >>
    let* w := getWorld in
    match serverConn w with
    | Some _ => modifyWorld (set_serverConn (Some closed)) >> emit ServerClosed
    | None => ret tt
    end >>
    modifyWorld (set_clientConn closed) >> emit ClientClosed >>
    theManager >> emit Released >>
    modifySession (set_manager None).

(** [session.proxyStratum()]: the three goroutines are started, not run. *)
Definition proxyStratum : M unit :=
  Lock >>
  let* s := getSession in
  Unlock >>
  if decide (runningStat s = StatRunning) then
    theManager >> emit Registered >>
    emit (Spawned TaskDownStream) >>
    emit (Spawned TaskUpStream) >>
    emit (Spawned TaskCoinWatcher)
  else ret tt.

(** [session.runProxyStratum()]. *)
Definition runProxyStratum : M unit :=
  let* err := stratumFindWorkerName in
  match err with
  | Some _ => Stop
  | None =>
      let* m := theManager in
      let* err := findMiningCoin (enableUserAutoReg m) in
      match err with
      | Some _ => Stop
      | None =>
          let* err := connectStratumServer in
          match err with
          | Some _ => Stop
          | None => proxyStratum
          end
      end
  end.

(** The loop of [reconnectStratumServer]: [attempts] more calls of
    [connectStratumServer], [err] being the result of the last one. *)
Fixpoint reconnectLoop (attempts : nat) (err : option error) : M (option error) :=
  match attempts with
  | O => ret err
  | S n =>
      let* err := connectStratumServer in
      match err with
      | None => ret None
      | Some e => emit Slept >> reconnectLoop n (Some e)
      end
  end.






End Session.

(** The world in which [connectStratumServer] has dialed the server at
    [url] and got the connection [conn], the further dials being [rest]. *)
Definition dialed (url : string) (conn : Conn) (rest : list (option Conn)) (w : World)
  : World :=
  set_serverReader true
    (set_serverConn (Some conn)
       (set_network rest (set_trace (trace w ++ [Dialed url]) w))).

(** ** The seeder: [initUserCoin/InitUserCoin.go] *)

Module Seeder.

(** The fields of [configData] that the seeder reads. *)
Record ConfigData : Type := mkConfig {
  UserListAPI : gmap string string;
  StratumServerCaseInsensitive : bool;
  ZKUserCaseInsensitiveIndex : string;
  ZKSwitcherWatchDir : string
}.

(** The [*APIError] values, which the sources compare as pointers. *)
Inductive APIError : Type :=
| APIErrPunameIsEmpty
| APIErrPunameInvalid
| APIErrCoinIsEmpty
| APIErrCoinIsInexistent
| APIErrReadRecordFailed
| APIErrRecordExists
| APIErrWriteRecordFailed.

#[global] Instance APIError_eq_dec : EqDecision APIError.
Proof. solve_decision. Defined.

(** The name under which [setMiningCoin] files a user: lower case when the
    stratum servers ignore case. *)
Definition regularName (cfg : ConfigData) (puname : string) : string :=
  if StratumServerCaseInsensitive cfg then GoStrings.ToLower puname else puname.

(** The key that the switcher watches for a user. *)
Definition switcherKey (cfg : ConfigData) (puname : string) : string :=
  ZKSwitcherWatchDir cfg ++ regularName cfg puname.

(** The part of [setMiningCoin] that keeps the case-insensitive index. *)
Definition writeIndex (cfg : ConfigData) (puname : string) (z : ZooKeeper) : ZooKeeper :=
  if StratumServerCaseInsensitive cfg then z
  else if 0 <? GoStrings.len (ZKUserCaseInsensitiveIndex cfg) then
    let zkIndexPath := ZKUserCaseInsensitiveIndex cfg ++ GoStrings.ToLower puname in
    let '(exists_, z1) := zkExists zkIndexPath z in
    match exists_ with
    | Some true => z1
    | _ => snd (zkCreate zkIndexPath puname z1)
    end
  else z.

(** [setMiningCoin(puname, coin)]: the error returned ([None] for nil) and
    the coordinator afterwards. *)
Definition setMiningCoin (cfg : ConfigData) (puname coin : string) (z : ZooKeeper)
  : option APIError * ZooKeeper :=
  if GoStrings.len puname <? 1 then (Some APIErrPunameIsEmpty, z)
  else if GoStrings.Contains puname "/" then (Some APIErrPunameInvalid, z)
  else if GoStrings.len coin <? 1 then (Some APIErrCoinIsEmpty, z)
  else if negb (bool_decide (is_Some (UserListAPI cfg !! coin)))
  then (Some APIErrCoinIsInexistent, z)
  else
    let z1 := writeIndex cfg puname z in
    let zkPath := switcherKey cfg puname in
    let '(exists_, z2) := zkExists zkPath z1 in
    match exists_ with
    | None => (Some APIErrReadRecordFailed, z2)
    | Some true => (Some APIErrRecordExists, z2)
    | Some false =>
        let '(ok, z3) := zkCreate zkPath coin z2 in
        if ok then (None, z3) else (Some APIErrWriteRecordFailed, z3)
    end.

(** The name that the loop of [InitUserCoin] passes to [setMiningCoin] for
    an entry [puname] of the user map; [None] where the slice would panic. *)
Definition keyName (puname : string) : option string :=
  if GoStrings.Contains puname "_"
  then GoStrings.slice puname 0 (GoStrings.LastIndex puname "_")
  else Some puname.

(** The state of the loop over the user map: the highest user id seen, the
    coordinator, and the calls of [setMiningCoin] made so far. *)
Record LoopState : Type := mkLoop {
  lastPUID : Z;
  zk : ZooKeeper;
  calls : list (string * string)
}.

(** The body of [for puname, puid := range userIDMapResponse.Data]. *)
Definition visitUser (cfg : ConfigData) (coin : string) (st : option LoopState)
    (entry : string * Z) : option LoopState :=
  match st with
  | None => None
  | Some st =>
      let '(puname, puid) := entry in
      match keyName puname with
      | None => None
      | Some puname' =>
          let '(err, z') := setMiningCoin cfg puname' coin (zk st) in
          let calls' := (calls st ++ [(puname', coin)])%list in
          let counted := mkLoop (if lastPUID st <? puid then puid else lastPUID st) z' calls' in
          match err with
          | None => Some counted
          | Some e => if decide (e = APIErrRecordExists) then Some counted
                      else Some (mkLoop (lastPUID st) z' calls')
          end
      end
  end.

(** What one HTTP request for the user list brought. *)
Inductive Fetched : Type :=
| RequestFailed                      (* [http.Get] or reading the body failed *)
| Unparsable                         (* neither shape of the response decodes *)
| NoNewUser                          (* the shape with [data: []] *)
| UserIDMap (errNo : Z) (data : list (string * Z)).
                                     (* [data] in the order that [range] visits it *)

(** One round of the loop of [InitUserCoin]: the function literal that is
    called before each sleep. *)
Definition round (cfg : ConfigData) (coin : string) (fetched : Fetched)
    (st : LoopState) : option LoopState :=
  match fetched with
  | UserIDMap errNo data =>
      if negb (errNo =? 0) then Some st
      else fold_left (visitUser cfg coin) data (Some st)
  | _ => Some st
  end.

(** [InitUserCoin(coin, url)] over the responses of as many rounds. *)
Definition InitUserCoin (cfg : ConfigData) (coin : string) (responses : list Fetched)
    (z : ZooKeeper) : option LoopState :=
  fold_left (fun st fetched =>
               match st with
               | None => None
               | Some st => round cfg coin fetched st
               end)
            responses (Some (mkLoop 0 z [])).

End Seeder.

(** ** Concrete surroundings for the examples *)

Module Demo.

(** Helpers that leave names as they are, and the errors with codes of
    their own. *)
Definition externals : Externals := {|
  FilterWorkerName := fun name => name;
  StripEthAddrFromFullName := fun name => name;
  GetRegularSubaccountName := fun name => name;
  IP2Long := fun _ => 167772162;
  StratumErrUnknownChainType := NewStratumError 500 "Unknown Chain Type";
  StratumErrDuplicateSubscribed := NewStratumError 102 "Duplicate Subscribed";
  StratumErrNeedSubscribed := NewStratumError 101 "Need Subscribed";
  StratumErrTooFewParams := NewStratumError 103 "Too Few Params";
  StratumErrWorkerNameMustBeString := NewStratumError 104 "Worker Name Must be a String";
  StratumErrWorkerNameStartWrong := NewStratumError 105 "Worker Name Cannot Start with '.'";
  StratumErrStratumServerNotFound := NewStratumError 301 "Stratum Server Not Found";
  StratumErrConnectStratumServerFailed := NewStratumError 302 "Connect Stratum Server Failed";
  jsonMarshalAutoRegInfo := fun _ worker => worker;
  awaitWatch := fun z => z
|}.

(** A manager with the servers of the scenarios of the specification. *)
Definition theManagerOf (chain : ChainType) : StratumSessionManager :=
  mkManager chain 1
            (<["btc" := mkServerInfo "10.0.0.1:3333" "btc"]>
               (<["bch" := mkServerInfo "10.0.0.2:3333" "bch"]> ∅))
            false "/switcher/" "/autoreg/".

(** The session that [NewStratumSession] makes for the session id [id], or
    an empty one where it panics. *)
Definition sessionOf (chain : ChainType) (id : Z) : StratumSession :=
  default (mkSession None ProtocolUnknown false false 1 0 StatStoped 0 "" 0 "" "" "" ""
                     None None "" "")
          (NewStratumSession (theManagerOf chain) "10.0.0.2:51000" id).

(** A line that decodes as a request only, and one that decodes as a
    response only. *)
Definition requestLine (id : JSON) (method : string) (params : list JSON) : Line :=
  mkLine None (Some (mkRequest id method params "")).
Definition responseLine (id : JSON) (result err : JSON) : Line :=
  mkLine (Some (mkResponse id result err)) None.

(** A world around a session: its client will send [fromClient], and each
    dial reaches a server that will send [fromServer]. *)
Definition worldOf (s : StratumSession) (fromClient : list Line)
    (dials : list (list Line)) : World :=
  mkWorld s [] false (mkConn fromClient true) true None false 0
          (map (fun ls => Some (mkConn ls true)) dials)
          (mkZk (<["/switcher/alice" := "btc"]> ∅) [] []) 10 [].

(** The handshake of a miner: subscribe, then authorize. *)
Definition minerHello : list Line :=
  [requestLine (JNum 1) "mining.subscribe" [JStr "cgminer/4.11"];
   requestLine (JNum 2) "mining.authorize" [JStr "alice.rig1"; JStr "x"]].

(** The seeder configured for the coin btc alone, with servers that tell
    upper case from lower case and no case-insensitive index. *)
Definition seederConfig : Seeder.ConfigData :=
  Seeder.mkConfig (<["btc" := "http://pool.example/users"]> ∅) false "" "/switcher/".

(** A coordinator without nodes that answers every request. *)
Definition emptyZk : ZooKeeper := mkZk ∅ [] [].

(** A running session of the given chain. *)
Definition running (chain : ChainType) (id : Z) : StratumSession :=
  set_runningStat StatRunning (sessionOf chain id).

(** The handshake of a miner that first asks for version rolling with the
    mask 1fffe000. *)
Definition rollingHello : list Line :=
  requestLine (JNum 0) "mining.configure"
    [JArr [JStr "version-rolling"]; JObj [("version-rolling.mask", JStr "1fffe000")]]
  :: minerHello.

(** The world of a running session after the handshake [hello] and the
    lookup of its coin, connected to a server that will send [fromServer]. *)
Definition connected (chain : ChainType) (id : Z) (hello fromServer : list Line) : World :=
  let w0 := worldOf (running chain id) hello [] in
  let w1 := match (@stratumFindWorkerName externals >> @findMiningCoin externals false) w0 with
            | Done _ w => w
            | _ => w0
            end in
  set_serverReader true (set_serverConn (Some (mkConn fromServer true)) w1).

(** The world of [connected] after the session has sent its configure,
    subscribe and authorize requests: it awaits the replies [fromServer]. *)
Definition awaiting (chain : ChainType) (id : Z) (hello fromServer : list Line) : World :=
  let w := connected chain id hello fromServer in
  match (sendMiningConfigureToServer >>
         @sendMiningSubscribeToServer externals >>
         sendMiningAuthorizeToServer false) w with
  | Done _ w' => w'
  | _ => w
  end.

(** The authorize request of [minerHello], as the session caches it. *)
Definition helloAuthorize : JSONRPCRequest :=
  mkRequest (JNum 2) "mining.authorize" [JStr "alice.rig1"; JStr "x"] "".

(** Replies of a server: the subscription is accepted (for the session id 1
    on Bitcoin) and two authorize attempts are refused, each with an error of
    its own. *)
Definition subscribedWith (id : string) : Line :=
  responseLine (JStr "subscribe") (JArr [JArr []; JStr id; JNum 8]) JNull.
Definition subscribed : Line := subscribedWith "00000001".
Definition refusedFirst : Line :=
  responseLine (JStr "auth") (JBool false) (JStr "first refusal").
Definition refusedSecond : Line :=
  responseLine (JStr "auth") (JBool false) (JStr "second refusal").
Definition accepted : Line :=
  responseLine (JStr "auth") (JBool true) JNull.


(** The world of a running session after the handshake [hello] and the
    lookup of its coin, before it connects; the dials will reach servers
    that send [dials]. *)
Definition handshaken (chain : ChainType) (id : Z) (hello : list Line)
    (dials : list (list Line)) : World :=
  let w0 := worldOf (running chain id) hello dials in
  match (@stratumFindWorkerName externals >> @findMiningCoin externals false) w0 with
  | Done _ w => w
  | _ => w0
  end.

(** The world of [handshaken] after the session has dialed the server of
    btc and sent its configure, subscribe and authorize requests. *)
Definition sent (chain : ChainType) (id : Z) (hello : list Line)
    (dials : list (list Line)) : World :=
  let w := handshaken chain id hello dials in
  match network w with
  | Some conn :: rest =>
      match (sendMiningConfigureToServer >>
             @sendMiningSubscribeToServer externals >>
             sendMiningAuthorizeToServer false) (dialed "10.0.0.1:3333" conn rest w) with
      | Done _ w' => w'
      | _ => w
      end
  | _ => w
  end.

(** A notification [mining.set_version_mask] of the server. *)
Definition maskNotify (mask : string) : Line :=
  requestLine JNull "mining.set_version_mask" [JStr mask].

End Demo.

(** ** Notions that the statements below use *)



(** The reply to an authorize request that a line of the server carries:
    a response whose id is the string "auth". *)
Definition authReplyOf (l : Line) : option JSONRPCResponse :=
  match asResponse l with
  | Some r =>
      if notNil (resp_ID r) && bool_decide (asString (resp_ID r) = Some "auth")
      then Some r else None
  | None => None
  end.

(** The upstream accepts the authorization: the result is the boolean true. *)
Definition accepts (r : JSONRPCResponse) : Prop := resp_Result r = JBool true.

(** The session is in the upstream handshake: it is connected to a server
    that takes what is written to it and will still send [lines], it has a
    manager [m], and its cached authorize request is the object [cached],
    which has a first parameter. *)
Record Handshaking (w : World) (m : StratumSessionManager) (cached : JSONRPCRequest)
    (lines : list Line) : Prop := mkHandshaking {
  hs_reader : serverReader w = true;
  hs_conn : serverConn w = Some (mkConn lines true);
  hs_manager : manager (session w) = Some m;
  hs_cached : exists p, stratumAuthorizeRequest (session w) = Some p /\
                        requests w !! p = Some cached;
  hs_params : req_Params cached <> []
}.

(** A line of the server that is taken for a notification: it does not
    decode as a response with an id. *)
Definition isNotification (l : Line) : bool :=
  match asResponse l with
  | Some r => negb (notNil (resp_ID r))
  | None => true
  end.

(** The mask that a notification announces: its method is
    [mining.set_version_mask] and its first parameter is a string that
    parses as 32-bit hex. *)
Definition announcedMask (n : JSONRPCRequest) : option Z :=
  if String.eqb (req_Method n) "mining.set_version_mask"
  then p0 ← req_Params n !! 0%nat; str ← asString p0; Hex.ParseUint_16_32 str
  else None.

(** The mask that a line of the server announces, if any. *)
Definition notifiedMask (l : Line) : option Z :=
  if isNotification l then asRequest l ≫= announcedMask else None.

(** The server-allowed mask after the lines [ls]: the last one announced,
    zero if there was none. *)
Definition serverAllowedMask (ls : list Line) : Z :=
  default 0 (last (omap notifiedMask ls)).

(** A line of the server that does not end the handshake: a notification,
    or a response with an id that is neither an accepted authorization nor a
    subscribe reply that [stratumHandleServerSubscribeResponse] refuses. *)
Definition harmless (s : StratumSession) (l : Line) : Prop :=
  isNotification l = true \/
  exists r, asResponse l = Some r /\ notNil (resp_ID r) = true /\
            (asString (resp_ID r) = Some "auth" -> ~ accepts r) /\
            (asString (resp_ID r) = Some "subscribe" ->
             stratumHandleServerSubscribeResponse s r = Returns None).

(** How often the second authorize request is sent while the lines [ls]
    are read, [counter] authorize replies having been refused before: once
    after each response with an id that is read while exactly one reply has
    been refused. *)
Fixpoint resends (counter : Z) (ls : list Line) : nat :=
  match ls with
  | [] => 0
  | l :: ls' =>
      if isNotification l then resends counter ls'
      else
        let counter' := match authReplyOf l with
                        | Some _ => counter + 1
                        | None => counter
                        end in
        (if Z.eqb counter' 1 then S (resends counter' ls') else resends counter' ls')
  end.


(** A computation keeps the store when it leaves the request objects and
    the session as they are. *)
Definition keepsStore {A : Type} (m : M A) : Prop :=
  forall (w w' : World) (a : A),
    m w = Done a w' -> requests w' = requests w /\ session w' = session w.

(** The parameters with which the subscribe request goes upstream, for the
    user agent [ua], the protocol name [proto] and the client address [ip]. *)
Definition upstreamSubscribeParams `{Externals} (s : StratumSession) (ua proto ip : string)
  : list JSON :=
  match protocolType s with
  | ProtocolBitcoinStratum =>
      [JStr ua; JStr (Hex.Uint32ToHex (sessionID s)); JNum (IP2Long ip)]
  | _ => [JStr ua; JStr proto; JStr (sessionIDString s); JNum (IP2Long ip)]
  end.

(** The worker name of the second authorize attempt: sub-account, an
    underscore, the user suffix of the server of the coin (the coin itself
    when the coin has no server), and the miner name with its dot. *)
Definition suffixedWorkerName (m : StratumSessionManager) (s : StratumSession) : string :=
  subaccountName s ++ "_" ++
  match stratumServerInfoMap m !! miningCoin s with
  | Some serverInfo => UserSuffix serverInfo
  | None => miningCoin s
  end ++ minerNameWithDot s.

(** The authorize request sent upstream for the worker name [name], made
    from the cached request of the client. *)
Definition upstreamAuthorize (cached : JSONRPCRequest) (name : string) : JSONRPCRequest :=
  mkRequest (JStr "auth") (req_Method cached)
            (<[0%nat := JStr name]> (req_Params cached)) "".

(** The connection attempt that starts in the world [w2] reaches [w]: the
    coin of the session has a server, the dial succeeds, and the configure,
    subscribe and authorize requests are sent without an error, which leaves
    the world [w], in which the session awaits the replies. *)
Definition Sent `{Externals} (w2 w : World) : Prop :=
  exists (m : StratumSessionManager) (info : StratumServerInfo) (conn : Conn)
         (rest : list (option Conn)) (wa wb : World) (ua proto name passwd : string),
    manager (session w2) = Some m /\
    (forall p, stratumAuthorizeRequest (session w2) = Some p -> is_Some (requests w2 !! p)) /\
    stratumServerInfoMap m !! miningCoin (session w2) = Some info /\
    network w2 = Some conn :: rest /\
    sendMiningConfigureToServer (dialed (URL info) conn rest w2) = Done None wa /\
    sendMiningSubscribeToServer wa = Done (ua, proto, None) wb /\
    sendMiningAuthorizeToServer false wb = Done (name, passwd, None) w.

(** The subscribe request that [makeSubscribeMessageForEthProxy] makes. *)
Definition ethProxySubscribe : JSONRPCRequest :=
  mkRequest JNull "mining.subscribe" [JStr "ETHProxy"; JStr ethproxyVersion] "".

(** The world after the session has read the lines of the server up to
    [rest] and the events [evs] have happened. *)
Definition served (rest : list Line) (evs : list Event) (w : World) : World :=
  set_trace (trace w ++ evs)
    (set_serverConn
       (Some (mkConn rest (match serverConn w with Some c => writable c | None => false end)))
       w).

(** The notifications that the client gets among some events. *)
Definition clientNotifies (evs : list Event) : list JSONRPCRequest :=
  omap (fun e => match e with ClientGetsNotify n => Some n | _ => None end) evs.

(** The responses that the client gets among some events. *)
Definition clientResponses (evs : list Event) : list JSONRPCResponse :=
  omap (fun e => match e with ClientGetsResponse r _ => Some r | _ => None end) evs.

(** Every character is one of 0-9 and a-f. *)
Fixpoint lowerHex (s : string) : Prop :=
  match s with
  | EmptyString => True
  | String c s' => In c Hex.digits /\ lowerHex s'
  end.

(** * Properties *)

(** ** Hexadecimal renderings *)

Lemma hexVal_hexDigit (n : Z) : Hex.hexVal (Hex.hexDigit n) = Some (n mod 16).
Proof.
  unfold Hex.hexDigit.
  assert (Hr : 0 <= n mod 16 < 16) by (apply Z.mod_pos_bound; lia).
  set (k := n mod 16) in *. clearbody k.
  assert (Hk : k = 0 \/ k = 1 \/ k = 2 \/ k = 3 \/ k = 4 \/ k = 5 \/ k = 6 \/ k = 7 \/
               k = 8 \/ k = 9 \/ k = 10 \/ k = 11 \/ k = 12 \/ k = 13 \/ k = 14 \/ k = 15)
    by lia.
  repeat (destruct Hk as [-> | Hk]; [reflexivity |]). subst k. reflexivity.
Qed.

Lemma byte_of_shift (v k : Z) :
  0 <= k -> Z.land (Z.shiftr v k) 255 = (v / 2 ^ k) mod 256.
Proof.
  intros Hk. rewrite Z.shiftr_div_pow2 by lia.
  change 255 with (Z.ones 8). rewrite Z.land_ones by lia. reflexivity.
Qed.

Lemma byte_low (v : Z) : Z.land v 255 = v mod 256.
Proof. change 255 with (Z.ones 8). rewrite Z.land_ones by lia. reflexivity. Qed.

Ltac parse_hex_digits :=
  cbv [Hex.EncodeToString Hex.hexByte String.append];
  unfold Hex.ParseUint_16_32; cbn [Hex.parseHexFrom];
  repeat (rewrite hexVal_hexDigit; cbn [Hex.parseHexFrom]).

(** Reading back the eight characters of [Uint32ToHex] gives the value. *)
Lemma parse_Uint32ToHex (v : Z) :
  0 <= v < 2 ^ 32 -> Hex.ParseUint_16_32 (Hex.Uint32ToHex v) = Some v.
Proof.
  intros Hv. unfold Hex.Uint32ToHex, Hex.BigEndianBytes.
  rewrite !byte_of_shift, byte_low by lia.
  parse_hex_digits.
  match goal with |- (if ?e <? _ then _ else _) = _ => assert (He : e = v) end.
  { change (2 ^ 24) with 16777216. change (2 ^ 16) with 65536. change (2 ^ 8) with 256.
    change (2 ^ 32) with 4294967296 in Hv.
    Z.div_mod_to_equations. lia. }
  rewrite He. destruct (Z.ltb_spec v (2 ^ 32)); [reflexivity | lia].
Qed.

(** Reading back the low three bytes gives the low 24 bits. *)
Lemma parse_low_three_bytes (v : Z) :
  0 <= v < 2 ^ 32 ->
  Hex.ParseUint_16_32
    (Hex.EncodeToString [Z.land (Z.shiftr v 16) 255; Z.land (Z.shiftr v 8) 255; Z.land v 255])
  = Some (v mod 2 ^ 24).
Proof.
  intros Hv. rewrite !byte_of_shift, byte_low by lia.
  parse_hex_digits.
  match goal with |- (if ?e <? _ then _ else _) = _ => assert (He : e = v mod 2 ^ 24) end.
  { change (2 ^ 24) with 16777216. change (2 ^ 16) with 65536. change (2 ^ 8) with 256.
    change (2 ^ 32) with 4294967296 in Hv.
    Z.div_mod_to_equations. lia. }
  rewrite He.
  assert (0 <= v mod 2 ^ 24 < 2 ^ 24) by (apply Z.mod_pos_bound; lia).
  destruct (Z.ltb_spec (v mod 2 ^ 24) (2 ^ 32)); [reflexivity | lia].
Qed.

Lemma Uint32ToHex_length (v : Z) : String.length (Hex.Uint32ToHex v) = 8%nat.
Proof. reflexivity. Qed.

Lemma Uint32ToHexLE_length (v : Z) : String.length (Hex.Uint32ToHexLE v) = 8%nat.
Proof. reflexivity. Qed.

Lemma LittleEndianBytes_rev (v : Z) :
  Hex.LittleEndianBytes v = rev (Hex.BigEndianBytes v).
Proof. reflexivity. Qed.

(** The characters 2 to 8 of [Uint32ToHex] are the low three bytes. *)
Lemma Uint32ToHex_slice_2_8 (v : Z) :
  GoStrings.slice (Hex.Uint32ToHex v) 2 8 =
  Some (Hex.EncodeToString
          [Z.land (Z.shiftr v 16) 255; Z.land (Z.shiftr v 8) 255; Z.land v 255]).
Proof. reflexivity. Qed.

(** ** C6: the session identifier string *)

(** C6, as the code has it.  For a 32-bit session id [sid],
    [NewStratumSession] returns a session whose [sessionIDString] is: on
    Bitcoin, the 8 characters of the big-endian hex of [sid], which read back
    as [sid]; on Decred normal, sixteen characters '0' followed by the 8
    characters of the little-endian hex of [sid] (the four bytes in reverse
    order), 24 characters in all; on Decred go-miner, those 8 little-endian
    characters alone; on Ethereum, the last 6 characters of the big-endian
    hex, which read back as the low 24 bits of [sid]. *)
Theorem C6_sessionIDString_by_chain (mgr : StratumSessionManager) (addr : string) (sid : Z) :
  0 <= sid < 2 ^ 32 ->
  exists s,
    NewStratumSession mgr addr sid = Some s /\ sessionID s = sid /\
    match chainType mgr with
    | ChainTypeBitcoin =>
        sessionIDString s = Hex.EncodeToString (Hex.BigEndianBytes sid) /\
        String.length (sessionIDString s) = 8%nat /\
        Hex.ParseUint_16_32 (sessionIDString s) = Some sid
    | ChainTypeDecredNormal =>
        sessionIDString s =
          "0000000000000000" ++ Hex.EncodeToString (rev (Hex.BigEndianBytes sid)) /\
        String.length (sessionIDString s) = 24%nat
    | ChainTypeDecredGoMiner =>
        sessionIDString s = Hex.EncodeToString (rev (Hex.BigEndianBytes sid)) /\
        String.length (sessionIDString s) = 8%nat
    | ChainTypeEthereum =>
        (exists front, Hex.Uint32ToHex sid = front ++ sessionIDString s /\
                       String.length front = 2%nat) /\
        String.length (sessionIDString s) = 6%nat /\
        Hex.ParseUint_16_32 (sessionIDString s) = Some (sid mod 2 ^ 24)
    | ChainTypeOther => sessionIDString s = ""
    end.
Proof.
  intros Hsid. unfold NewStratumSession.
  destruct (chainType mgr) eqn:Hchain.
  - eexists; split; [reflexivity |]. split; [reflexivity |].
    cbn [sessionIDString set_sessionIDString sessionID].
    split; [reflexivity |]. split; [reflexivity |]. now apply parse_Uint32ToHex.
  - eexists; split; [reflexivity |]. split; [reflexivity |].
    cbn [sessionIDString set_sessionIDString sessionID].
    split; reflexivity.
  - eexists; split; [reflexivity |]. split; [reflexivity |].
    cbn [sessionIDString set_sessionIDString sessionID].
    split; reflexivity.
  - cbn [sessionID]. rewrite Uint32ToHex_slice_2_8.
    eexists; split; [reflexivity |]. split; [reflexivity |].
    cbn [sessionIDString set_sessionIDString].
    split; [| split; [reflexivity | now apply parse_low_three_bytes]].
    exists (Hex.hexByte (Z.land (Z.shiftr sid 24) 255)). split; reflexivity.
  - eexists; split; [reflexivity |]. split; reflexivity.
Qed.

(** C6 at the session id 0x01020304 of a Decred go-miner session. *)
Lemma C6_sessionIDString_witness :
  0 <= 16909060 < 2 ^ 32 /\
  exists s,
    NewStratumSession (Demo.theManagerOf ChainTypeDecredGoMiner) "10.0.0.2:51000" 16909060
      = Some s /\
    sessionIDString s = "04030201" /\ String.length (sessionIDString s) = 8%nat.
Proof.
  assert (Hr : 0 <= 16909060 < 2 ^ 32) by lia.
  split; [exact Hr |].
  destruct (C6_sessionIDString_by_chain (Demo.theManagerOf ChainTypeDecredGoMiner)
              "10.0.0.2:51000" 16909060 Hr) as (s & Hs & _ & Hstr & Hlen).
  exists s. split; [exact Hs |]. split; [| exact Hlen].
  rewrite Hstr. reflexivity.
Defined.

(** C6 as stated fails: on Decred go-miner the identifier has 8 characters,
    not 4. *)
Lemma C6_gominer_is_not_4_chars :
  exists s,
    NewStratumSession (Demo.theManagerOf ChainTypeDecredGoMiner) "10.0.0.2:51000" 16909060
      = Some s /\
    sessionIDString s = "04030201" /\ String.length (sessionIDString s) <> 4%nat.
Proof.
  eexists. split; [reflexivity |]. split; [reflexivity |]. discriminate.
Qed.

(** ** Computations *)

Lemma loadRequest_found (w : World) (p : nat) (r : JSONRPCRequest) :
  requests w !! p = Some r -> loadRequest (Some p) w = Done r w.
Proof. intros Hp. unfold loadRequest, bind, getWorld, ret. now rewrite Hp. Qed.

Lemma bind_Done {A B : Type} (m : M A) (k : A -> M B) (w : World) (a : A) (w' : World) :
  m w = Done a w' -> bind m k w = k a w'.
Proof. intros E. unfold bind. now rewrite E. Qed.

Lemma updateRequest_found (w : World) (p : nat) (r : JSONRPCRequest)
    (f : JSONRPCRequest -> JSONRPCRequest) :
  requests w !! p = Some r ->
  updateRequest (Some p) f w = Done tt (set_requests (<[p := f r]> (requests w)) w).
Proof.
  intros Hp. unfold updateRequest. rewrite (bind_Done _ _ _ _ _ (loadRequest_found _ _ _ Hp)).
  reflexivity.
Qed.

(** ** The client handshake *)

Section Handshake.
Context `{Externals}.

(** The case ["mining.authorize"], entered in a state other than
    [StatSubScribed], answers "need subscribed" and changes nothing. *)
Lemma handleAuthorize_unsubscribed (w : World) (p : option nat) (stat : AuthorizeStat) :
  stat <> StatSubScribed ->
  handleAuthorize p stat w = Done (JNull, Some StratumErrNeedSubscribed, stat) w.
Proof.
  intros Hs. unfold handleAuthorize. now rewrite decide_False by assumption.
Qed.

(** Without an error the case ["mining.authorize"] ends in [StatAuthorized]. *)
Lemma handleAuthorize_success (w w' : World) (p : option nat) (stat stat' : AuthorizeStat)
    (res : JSON) :
  handleAuthorize p stat w = Done (res, None, stat') w' ->
  stat = StatSubScribed /\ stat' = StatAuthorized.
Proof.
  unfold handleAuthorize. destruct (decide (stat = StatSubScribed)); [| discriminate].
  intros Hrun. split; [assumption |].
  unfold bind in Hrun.
  destruct (parseAuthorizeRequest p w) as [[res1 [e1|]] w1| |]; try discriminate.
  cbn in Hrun. unfold ret in Hrun. congruence.
Qed.

(** What [stratumHandleRequest] does with each method that the handshake
    knows. *)
Lemma handle_subscribe (w : World) (p : nat) (r : JSONRPCRequest) (stat : AuthorizeStat) :
  requests w !! p = Some r -> req_Method r = "mining.subscribe" ->
  stratumHandleRequest (Some p) stat w =
  (if decide (stat = StatConnected) then
     let* '(result, err) := parseSubscribeRequest (Some p) in
     match err with
     | None => ret (result, err, StatSubScribed)
     | Some _ => ret (result, err, stat)
     end
   else ret (JNull, Some StratumErrDuplicateSubscribed, stat)) w.
Proof.
  intros Hp Hm. unfold stratumHandleRequest.
  rewrite (bind_Done _ _ _ _ _ (loadRequest_found _ _ _ Hp)).
  rewrite Hm. reflexivity.
Qed.

Lemma handle_authorize (w : World) (p : nat) (r : JSONRPCRequest) (stat : AuthorizeStat) :
  requests w !! p = Some r -> req_Method r = "mining.authorize" ->
  stratumHandleRequest (Some p) stat w = handleAuthorize (Some p) stat w.
Proof.
  intros Hp Hm. unfold stratumHandleRequest.
  rewrite (bind_Done _ _ _ _ _ (loadRequest_found _ _ _ Hp)).
  rewrite Hm. reflexivity.
Qed.

Lemma handle_login (w : World) (p : nat) (r : JSONRPCRequest) (stat : AuthorizeStat) :
  requests w !! p = Some r -> req_Method r = "eth_submitLogin" ->
  stratumHandleRequest (Some p) stat w =
  (let* stat' :=
     (if decide (protocolType (session w) = ProtocolEthereumProxy) then
        makeSubscribeMessageForEthProxy >>
        modifySession (set_jsonRPCVersion 2) >>
        ret StatSubScribed
      else ret stat) in
   handleAuthorize (Some p) stat') w.
Proof.
  intros Hp Hm. unfold stratumHandleRequest.
  rewrite (bind_Done _ _ _ _ _ (loadRequest_found _ _ _ Hp)).
  rewrite Hm. reflexivity.
Qed.


(** An [eth_submitLogin] on a session of the Ethereum proxy protocol: the
    login stands for the subscription, whatever the state is. *)
Lemma handle_login_proxy (w w' : World) (p : nat) (r : JSONRPCRequest)
    (stat stat' : AuthorizeStat) (res : JSON) (err : option StratumError) :
  requests w !! p = Some r -> req_Method r = "eth_submitLogin" ->
  protocolType (session w) = ProtocolEthereumProxy ->
  stratumHandleRequest (Some p) stat w = Done (res, err, stat') w' ->
  (forall other, stratumHandleRequest (Some p) other w = Done (res, err, stat') w') /\
  jsonRPCVersion (session w') = 2 /\
  stratumSubscribeRequest (session w') = Some (length (requests w)) /\
  requests w' = (requests w ++ [ethProxySubscribe])%list /\
  stat' = match err with Some _ => StatSubScribed | None => StatAuthorized end.
Proof.
  intros Hp Hm Hproto Hrun.
  assert (Hstart : forall st : AuthorizeStat,
            stratumHandleRequest (Some p) st w
            = ((makeSubscribeMessageForEthProxy >>
                modifySession (set_jsonRPCVersion 2) >> ret StatSubScribed) >>
               handleAuthorize (Some p) StatSubScribed) w).
  { intros st. rewrite (handle_login _ _ _ _ Hp Hm).
    rewrite decide_True by assumption.
    unfold bind. destruct (makeSubscribeMessageForEthProxy w); reflexivity. }
  split; [intros other; now rewrite Hstart, <- (Hstart stat) |].
  rewrite Hstart in Hrun. clear Hstart.
  set (w1 := set_session
               (set_jsonRPCVersion 2
                  (set_stratumSubscribeRequest (Some (length (requests w))) (session w)))
               (set_requests (requests w ++ [ethProxySubscribe]) w)).
  assert (Hmake : (makeSubscribeMessageForEthProxy >>
                   modifySession (set_jsonRPCVersion 2) >> ret StatSubScribed) w
                  = Done StatSubScribed w1).
  { unfold makeSubscribeMessageForEthProxy, allocRequest.
    unfold bind at 1. unfold bind at 1. unfold bind at 1, getWorld at 1.
    unfold bind at 1, modifyWorld at 1, ret at 1.
    unfold bind at 1, modifySession at 1, modifyWorld at 1.
    set (w0 := set_session _ (set_requests _ w)).
    assert (H0 : requests w0 !! length (requests w) = Some zeroRequest).
    { subst w0. destruct w. cbn. apply list_lookup_middle. reflexivity. }
    rewrite (bind_Done _ _ _ _ _ (updateRequest_found _ _ _ _ H0)).
    set (w0' := set_requests _ w0).
    assert (H0' : requests w0' !! length (requests w)
                  = Some (set_req_Method "mining.subscribe" zeroRequest)).
    { subst w0' w0. destruct w. cbn. apply list_lookup_insert_eq.
      rewrite length_app. cbn. lia. }
    rewrite (updateRequest_found _ _ _ _ H0').
    unfold bind, modifySession, modifyWorld, ret. f_equal.
    subst w1 w0' w0. destruct w as [s rq lk cc cr sc sr sb nw zk ar tr]. destruct s. cbn.
    rewrite list_insert_insert_eq, insert_app_r_alt, Nat.sub_diag by lia. reflexivity. }
  rewrite (bind_Done _ _ _ _ _ Hmake) in Hrun.
  unfold handleAuthorize in Hrun. rewrite decide_True in Hrun by reflexivity.
  unfold bind in Hrun.
  destruct (parseAuthorizeRequest (Some p) w1) as [[res1 e1] w2| |] eqn:Hparse;
    try discriminate.
  assert (Hkeep : jsonRPCVersion (session w2) = jsonRPCVersion (session w1) /\
                  stratumSubscribeRequest (session w2) = stratumSubscribeRequest (session w1) /\
                  requests w2 = requests w1).
  { clear Hrun Hmake. unfold parseAuthorizeRequest in Hparse.
    generalize dependent w1. intros w1.
    destruct w1 as [s rq lk cc cr sc sr sb nw zk ar tr]. destruct s.
    unfold bind, modifySession, modifyWorld, loadRequest, bind, getWorld, getSession,
      theManager, bind, getSession, ret, panic. cbn.
    repeat match goal with
           | |- context [match ?x with _ => _ end] =>
               lazymatch x with
               | context [match _ with _ => _ end] => fail
               | _ => destruct x eqn:?
               end
           end; cbn; intros Hq; try discriminate Hq; injection Hq as <- <- <-;
      cbn; repeat split; reflexivity. }
  destruct Hkeep as (Hv & Hs & Hrq).
  destruct e1 as [e|]; injection Hrun as <- <- <- <-;
    rewrite Hv, Hs, Hrq; subst w1; destruct w as [s ? ? ? ? ? ? ? ? ? ? ?]; destruct s;
    repeat split; reflexivity.
Qed.

(** C7, as the code has it.  In [stratumHandleRequest], for every
    authorization state [stat]: a [mining.subscribe] in a state other than
    Connected is answered with the duplicate-subscribed error, and neither
    the state nor the world changes; so is, with the need-subscribed error, a
    [mining.authorize] in a state other than Subscribed, and an
    [eth_submitLogin] in such a state on a session whose protocol is not the
    Ethereum proxy protocol.  On a session of the Ethereum proxy protocol an
    [eth_submitLogin] is handled in every state as in the state Subscribed:
    the outcome does not depend on the state, the session holds a new
    subscribe request and speaks JSON-RPC 2, and the new state is Authorized
    without an error and Subscribed with one.  Whenever the handler returns
    without an error, a subscribe has moved the state from Connected to
    Subscribed and an authorize (or a login) has moved it to Authorized. *)
Theorem C7_handshake_state_machine (w : World) (p : nat) (r : JSONRPCRequest)
    (stat : AuthorizeStat) :
  requests w !! p = Some r ->
  (req_Method r = "mining.subscribe" -> stat <> StatConnected ->
   stratumHandleRequest (Some p) stat w =
     Done (JNull, Some StratumErrDuplicateSubscribed, stat) w) /\
  (req_Method r = "mining.authorize" -> stat <> StatSubScribed ->
   stratumHandleRequest (Some p) stat w =
     Done (JNull, Some StratumErrNeedSubscribed, stat) w) /\
  (req_Method r = "eth_submitLogin" ->
   protocolType (session w) <> ProtocolEthereumProxy -> stat <> StatSubScribed ->
   stratumHandleRequest (Some p) stat w =
     Done (JNull, Some StratumErrNeedSubscribed, stat) w) /\
  (req_Method r = "eth_submitLogin" ->
   protocolType (session w) = ProtocolEthereumProxy ->
   forall (res : JSON) (err : option StratumError) (stat' : AuthorizeStat) (w' : World),
     stratumHandleRequest (Some p) stat w = Done (res, err, stat') w' ->
     (forall other, stratumHandleRequest (Some p) other w = Done (res, err, stat') w') /\
     stat' = match err with Some _ => StatSubScribed | None => StatAuthorized end /\
     jsonRPCVersion (session w') = 2 /\
     stratumSubscribeRequest (session w') = Some (length (requests w)) /\
     requests w' = (requests w ++ [ethProxySubscribe])%list) /\
  (forall (res : JSON) (stat' : AuthorizeStat) (w' : World),
     stratumHandleRequest (Some p) stat w = Done (res, None, stat') w' ->
     (req_Method r = "mining.subscribe" ->
      stat = StatConnected /\ stat' = StatSubScribed) /\
     (req_Method r = "mining.authorize" ->
      stat = StatSubScribed /\ stat' = StatAuthorized) /\
     (req_Method r = "eth_submitLogin" ->
      stat' = StatAuthorized /\
      (protocolType (session w) <> ProtocolEthereumProxy -> stat = StatSubScribed))).
Proof.
  intros Hp. repeat apply conj.
  - intros Hm Hs. rewrite (handle_subscribe _ _ _ _ Hp Hm).
    now rewrite decide_False by assumption.
  - intros Hm Hs. rewrite (handle_authorize _ _ _ _ Hp Hm).
    now apply handleAuthorize_unsubscribed.
  - intros Hm Hproto Hs. rewrite (handle_login _ _ _ _ Hp Hm).
    rewrite decide_False by assumption.
    unfold bind at 1, ret at 1. now apply handleAuthorize_unsubscribed.
  - intros Hm Hproto res err stat' w' Hrun.
    destruct (handle_login_proxy _ _ _ _ _ _ _ _ Hp Hm Hproto Hrun)
      as (Hany & Hv & Hsub & Hrq & Hstat).
    repeat split; assumption.
  - intros res stat' w' Hrun. repeat apply conj; intros Hm.
    + rewrite (handle_subscribe _ _ _ _ Hp Hm) in Hrun.
      destruct (decide (stat = StatConnected)); [| discriminate].
      split; [assumption |]. unfold bind in Hrun.
      destruct (parseSubscribeRequest (Some p) w) as [[res1 [e1|]] w1| |];
        try discriminate.
      cbn in Hrun. unfold ret in Hrun. congruence.
    + rewrite (handle_authorize _ _ _ _ Hp Hm) in Hrun.
      now apply handleAuthorize_success in Hrun.
    + rewrite (handle_login _ _ _ _ Hp Hm) in Hrun.
      destruct (decide (protocolType (session w) = ProtocolEthereumProxy)) as [Hy | Hn].
      * unfold bind at 1 in Hrun.
        match type of Hrun with
        | context [match ?m w with _ => _ end] =>
            destruct (m w) as [st1 w1| |]; try discriminate
        end.
        apply handleAuthorize_success in Hrun. split; [tauto | contradiction].
      * unfold bind at 1, ret at 1 in Hrun.
        apply handleAuthorize_success in Hrun. split; [tauto | intros _; tauto].
Qed.

Lemma set_versionMask_same (s : StratumSession) :
  set_versionMask (versionMask s) s = s.
Proof. now destruct s. Qed.





End Handshake.

(** C7 on a Bitcoin session that holds a subscribe request: in the state
    Subscribed it is a duplicate, in the state Connected it succeeds and the
    state becomes Subscribed. *)
Lemma C7_handshake_witness :
  let r := mkRequest (JNum 1) "mining.subscribe" [JStr "cgminer/4.11"] "" in
  let w := set_requests [r] (Demo.worldOf (Demo.sessionOf ChainTypeBitcoin 1) [] []) in
  requests w !! 0%nat = Some r /\
  @stratumHandleRequest Demo.externals (Some 0%nat) StatSubScribed w =
    Done (JNull, Some (NewStratumError 102 "Duplicate Subscribed"), StatSubScribed) w /\
  exists res w',
    @stratumHandleRequest Demo.externals (Some 0%nat) StatConnected w =
      Done (res, None, StatSubScribed) w'.
Proof.
  intros r w.
  assert (Hp : requests w !! 0%nat = Some r) by reflexivity.
  split; [exact Hp |]. split.
  - apply (proj1 (@C7_handshake_state_machine Demo.externals w 0%nat r StatSubScribed Hp));
      [reflexivity | discriminate].
  - destruct (@stratumHandleRequest Demo.externals (Some 0%nat) StatConnected w)
      as [[[res e] stat'] w'| |] eqn:Hrun; try (vm_compute in Hrun; discriminate).
    assert (He : e = None) by (vm_compute in Hrun; congruence). subst e.
    destruct (proj2 (proj2 (proj2 (proj2
      (@C7_handshake_state_machine Demo.externals w 0%nat r StatConnected Hp))))
      res stat' w' Hrun) as [Hsub _].
    destruct (Hsub eq_refl) as [_ ->]. now exists res, w'.
Defined.

(** C7 as stated fails: on a session of the Ethereum proxy protocol an
    [eth_submitLogin] that arrives in the state Connected, or in the state
    Authorized, is not answered with the need-subscribed error: the miner is
    authorized; and a login without parameters that arrives in the state
    Authorized is answered with the too-few-params error and changes the
    state to Subscribed. *)
Lemma C7_login_is_accepted_in_every_state :
  let login := mkRequest (JNum 1) "eth_submitLogin" [JStr "alice.rig1"] "" in
  let bare := mkRequest (JNum 2) "eth_submitLogin" [] "" in
  let s := set_protocolType ProtocolEthereumProxy (Demo.running ChainTypeEthereum 1) in
  let w := set_requests [login; bare] (Demo.worldOf s [] []) in
  (exists w', @stratumHandleRequest Demo.externals (Some 0%nat) StatConnected w
              = Done (JNull, None, StatAuthorized) w') /\
  (exists w', @stratumHandleRequest Demo.externals (Some 0%nat) StatAuthorized w
              = Done (JNull, None, StatAuthorized) w') /\
  (exists w', @stratumHandleRequest Demo.externals (Some 1%nat) StatAuthorized w
              = Done (JNull, Some (NewStratumError 103 "Too Few Params"), StatSubScribed) w').
Proof.
  intros login bare s w.
  split; [| split]; eexists; vm_compute; reflexivity.
Qed.


(** ** Stopping *)

Section Stopping.
Context `{Externals}.

(** [Stop] on a session that is not stopped and whose lock is free. *)
Lemma Stop_stops (w : World) (m : StratumSessionManager) :
  locked w = false -> runningStat (session w) <> StatStoped ->
  manager (session w) = Some m ->
  exists w', Stop w = Done tt w' /\
             runningStat (session w') = StatStoped /\
             manager (session w') = None /\
             clientConn w' = closed /\
             (exists evs, trace w' = (trace w ++ evs ++ [ClientClosed; Released])%list) /\
             clientResponses (trace w') = clientResponses (trace w).
Proof.
  intros Hl Hs Hm. unfold Stop.
  destruct w as [s rq lk cc cr sc sr sb nw zk ar tr]. cbn in *. subst lk.
  unfold bind, Lock, Unlock, getSession, modifySession, modifyWorld, getWorld, emit,
    theManager, bind, getSession, ret. cbn.
  destruct (decide (runningStat s = StatStoped)) as [|_]; [contradiction |].
  destruct sc as [c|]; cbn; rewrite Hm; cbn;
    (eexists; split; [reflexivity |]); cbn; repeat split; try reflexivity.
  - exists [ServerClosed]. cbn. now rewrite <- !app_assoc.
  - unfold clientResponses. rewrite !omap_app. cbn. now rewrite !app_nil_r.
  - exists []. cbn. now rewrite <- !app_assoc.
  - unfold clientResponses. rewrite !omap_app. cbn. now rewrite !app_nil_r.
Qed.

(** [runProxyStratum] when the upstream handshake fails. *)
Lemma runProxyStratum_connect_error (w w1 w2 w3 : World) (m : StratumSessionManager)
    (e : error) :
  stratumFindWorkerName w = Done None w1 ->
  manager (session w1) = Some m ->
  findMiningCoin (enableUserAutoReg m) w1 = Done None w2 ->
  connectStratumServer w2 = Done (Some e) w3 ->
  runProxyStratum w = Stop w3.
Proof.
  intros Hfind Hm Hcoin Hconn. unfold runProxyStratum.
  rewrite (bind_Done _ _ _ _ _ Hfind). cbv beta iota.
  unfold bind at 1, theManager at 1, bind at 1, getSession at 1. rewrite Hm.
  unfold ret at 1. rewrite (bind_Done _ _ _ _ _ Hcoin). cbv beta iota.
  now rewrite (bind_Done _ _ _ _ _ Hconn).
Qed.
End Stopping.

(** ** The upstream handshake *)

Section Upstream.
Context `{Externals}.

Lemma served_nil (w : World) (lines : list Line) (wr : bool) :
  serverConn w = Some (mkConn lines wr) -> served lines [] w = w.
Proof.
  intros Hc. unfold served. rewrite Hc. destruct w. cbn in *. subst.
  now rewrite app_nil_r.
Qed.

Lemma served_served (w : World) (r1 r2 : list Line) (e1 e2 : list Event) :
  served r2 e2 (served r1 e1 w) = served r2 (e1 ++ e2) w.
Proof.
  unfold served. destruct w as [? ? ? ? ? [c|] ? ? ? ? ? ?]; cbn; now rewrite app_assoc.
Qed.

Lemma Handshaking_served (w : World) m cached lines rest evs :
  Handshaking w m cached lines -> Handshaking (served rest evs w) m cached rest.
Proof.
  intros [Hr Hc Hm Hp Hn]. unfold served. rewrite Hc.
  destruct w; cbn in *. split; eauto.
Qed.

(** The second authorize attempt during the handshake. *)
Lemma sendMiningAuthorizeToServer_suffix (w : World) m cached lines :
  Handshaking w m cached lines ->
  exists a, sendMiningAuthorizeToServer true w =
    Done (a, None)
      (served lines [ServerGets (upstreamAuthorize cached (suffixedWorkerName m (session w)))] w).
Proof.
  intros [Hr Hc Hm (p & Hp & Hreq) Hn].
  unfold sendMiningAuthorizeToServer, served, suffixedWorkerName, upstreamAuthorize.
  destruct w as [s rq lk cc cr sc sr sb nw zk ar tr]. cbn in *. subst sc.
  unfold bind, getSession, getUserSuffix, theManager, getSession, loadRequest, getWorld, ret,
    writeJSONRequestToServer, getWorld, emit, modifyWorld, bind.
  cbn. rewrite Hm, Hp. cbn.
  destruct (stratumServerInfoMap m !! miningCoin s); cbn; rewrite Hreq; cbn;
  (destruct (req_Params cached) as [| p0 ps] eqn:Hps; [contradiction |]);
  cbn; eexists; reflexivity.
Qed.

Lemma authLoop_done (lines : list Line) (st : AuthState) (w : World) :
  (authMsgCounter st <? 2) = false -> authLoop lines st w = Done (inr st) w.
Proof. intros Hc. destruct lines; cbn [authLoop]; now rewrite Hc. Qed.

Lemma authLoop_nil (st : AuthState) (w : World) (res : AuthState) (w' : World) :
  (authMsgCounter st <? 2) = true -> authLoop [] st w <> Done (inr res) w'.
Proof.
  intros Hc. cbn [authLoop]. rewrite Hc. unfold bind, readLineFromServer, getWorld, ret, bind.
  destruct (serverReader w), (serverConn w); cbn; discriminate.
Qed.

Lemma authLoop_notification (l : Line) (rest : list Line) (st : AuthState) (w : World)
    m cached :
  Handshaking w m cached (l :: rest) ->
  (authMsgCounter st <? 2) = true -> isNotification l = true ->
  authLoop (l :: rest) st w =
  authLoop rest
    (match asRequest l with
     | Some notify =>
         set_allowedVersionMask (stratumHandleServerNotify notify (allowedVersionMask st)) st
     | None => st
     end) (served rest [] w).
Proof.
  intros [Hr Hc Hm Hp Hn] Hlt Hnot. cbn [authLoop]. rewrite Hlt.
  unfold served. rewrite Hc.
  destruct w as [s rq lk cc cr sc sr sb nw zk ar tr]. cbn in Hr, Hc. subst sc sr.
  unfold bind at 1, readLineFromServer, bind at 1, getWorld.
  cbn -[authLoop]. rewrite app_nil_r.
  unfold isNotification in Hnot.
  destruct (asResponse l) as [r|].
  - destruct (notNil (resp_ID r)); [discriminate |]. destruct (asRequest l); reflexivity.
  - destruct (asRequest l); reflexivity.
Qed.

Lemma authLoop_response (l : Line) (rest : list Line) (st : AuthState) (w : World)
    m cached (r : JSONRPCResponse) :
  Handshaking w m cached (l :: rest) ->
  (authMsgCounter st <? 2) = true ->
  asResponse l = Some r -> notNil (resp_ID r) = true ->
  authLoop (l :: rest) st w =
  (let* '(err, st') := stratumHandleServerResponse r st in
   match err with
   | Some e => ret (inl e)
   | None =>
       if negb (authSuccess st') && (authMsgCounter st' =? 1) then
         let* '(_, _, err) := sendMiningAuthorizeToServer true in
         match err with
         | Some e => ret (inl e)
         | None => authLoop rest st'
         end
       else authLoop rest st'
   end) (served rest [] w).
Proof.
  intros [Hr Hc Hm Hp Hn] Hlt Hresp Hid. cbn [authLoop]. rewrite Hlt.
  unfold served. rewrite Hc.
  destruct w as [s rq lk cc cr sc sr sb nw zk ar tr]. cbn in Hr, Hc. subst sc sr.
  unfold bind at 1, readLineFromServer, bind at 1, getWorld.
  cbn -[authLoop stratumHandleServerResponse sendMiningAuthorizeToServer]. rewrite app_nil_r.
  rewrite Hresp, Hid. reflexivity.
Qed.

Lemma accepts_iff (r : JSONRPCResponse) :
  stratumHandleServerAuthorizeResponse r = true <-> accepts r.
Proof.
  unfold stratumHandleServerAuthorizeResponse, accepts, asBool.
  destruct (resp_Result r) as [| [|] | | | |]; split; congruence.
Qed.

Lemma handleResponse_spec (r : JSONRPCResponse) (st st' : AuthState) (w w' : World)
    (e : option error) :
  notNil (resp_ID r) = true ->
  stratumHandleServerResponse r st w = Done (e, st') w' ->
  w' = w /\
  match bool_decide (asString (resp_ID r) = Some "auth") with
  | true =>
      e = None /\
      st' = (if stratumHandleServerAuthorizeResponse r
             then mkAuthState (allowedVersionMask st) r 2 true
             else mkAuthState (allowedVersionMask st)
                    (if authSuccess st then authResponse st else r)
                    (authMsgCounter st + 1) (authSuccess st))
  | false => st' = st
  end.
Proof.
  intros Hid. unfold stratumHandleServerResponse.
  destruct (asString (resp_ID r)) as [id|] eqn:Hs.
  2:{ intros [= <- <- <-]. split; [reflexivity |]. now rewrite bool_decide_eq_false_2. }
  destruct (String.eqb id "configure") eqn:E1.
  { apply String.eqb_eq in E1. subst id. intros [= <- <- <-]. split; [reflexivity |].
    now rewrite bool_decide_eq_false_2. }
  destruct (String.eqb id "subscribe") eqn:E2.
  { apply String.eqb_eq in E2. subst id. unfold bind, getSession, returned.
    destruct (stratumHandleServerSubscribeResponse (session w) r) as [e1|];
      [| discriminate].
    intros [= <- <- <-]. split; [reflexivity |].
    now rewrite bool_decide_eq_false_2. }
  destruct (String.eqb id "auth") eqn:E3.
  { apply String.eqb_eq in E3. subst id. rewrite bool_decide_eq_true_2 by reflexivity.
    destruct (stratumHandleServerAuthorizeResponse r) eqn:Hacc; cbn [orb].
    - intros [= <- <- <-]. done.
    - intros [= <- <- <-]. split; [done |]. split; [done |].
      now destruct (authSuccess st). }
  apply String.eqb_neq in E3. intros [= <- <- <-]. split; [reflexivity |].
  rewrite bool_decide_eq_false_2; [reflexivity | congruence].
Qed.

Lemma handleNotify_announced (n : JSONRPCRequest) (mask : Z) :
  stratumHandleServerNotify n mask = default mask (announcedMask n).
Proof.
  unfold stratumHandleServerNotify, announcedMask.
  destruct (String.eqb (req_Method n) "mining.set_version_mask"); [| reflexivity].
  destruct (req_Params n !! 0%nat) as [p0|]; [| reflexivity]. cbn.
  destruct (asString p0) as [str|]; [| reflexivity]. cbn.
  now destruct (Hex.ParseUint_16_32 str).
Qed.

Lemma default_last_cons {A : Type} (d x : A) (xs : list A) :
  default d (last (x :: xs)) = default x (last xs).
Proof.
  revert d x. induction xs as [| y ys IH]; intros d x; [reflexivity |].
  rewrite last_cons_cons. now rewrite (IH d y), (IH x y).
Qed.

Lemma omap_cons {A B : Type} (f : A -> option B) (x : A) (l : list A) :
  omap f (x :: l) = match f x with Some y => y :: omap f l | None => omap f l end.
Proof. reflexivity. Qed.

Lemma session_served (rest : list Line) (evs : list Event) (w : World) :
  session (served rest evs w) = session w.
Proof. now destruct w. Qed.

(** What the loop has done when it ends without an error, from a state in
    which no authorization has succeeded. *)
Lemma authLoop_inr (lines : list Line) :
  forall (st : AuthState) (w : World) m cached (st' : AuthState) (w' : World),
    Handshaking w m cached lines -> authSuccess st = false ->
    authLoop lines st w = Done (inr st') w' ->
    exists (consumed rest : list Line) (k : nat),
      lines = (consumed ++ rest)%list /\
      w' = served rest
             (replicate k (ServerGets (upstreamAuthorize cached
                                         (suffixedWorkerName m (session w))))) w /\
      allowedVersionMask st' =
        default (allowedVersionMask st) (last (omap notifiedMask consumed)) /\
      2 <= authMsgCounter st' /\
      (authSuccess st' = false ->
       authMsgCounter st' =
         authMsgCounter st + Z.of_nat (length (omap authReplyOf consumed)) /\
       Forall (fun r => ~ accepts r) (omap authReplyOf consumed) /\
       authResponse st' = default (authResponse st) (last (omap authReplyOf consumed)) /\
       (authMsgCounter st = 0 -> (1 <= k)%nat) /\
       (authMsgCounter st <= 2 -> authMsgCounter st' = 2)) /\
      (authSuccess st' = true ->
       exists pre r, omap authReplyOf consumed = (pre ++ [r])%list /\
                     Forall (fun r => ~ accepts r) pre /\ accepts r /\
                     authResponse st' = r).
Proof.
  induction lines as [| l rest IH]; intros st w m cached st' w' Hhs Hfail Hrun.
  { destruct (authMsgCounter st <? 2) eqn:Hlt; [exfalso; exact (authLoop_nil _ _ _ _ Hlt Hrun) |].
    rewrite (authLoop_done _ _ _ Hlt) in Hrun. injection Hrun as <- <-.
    apply Z.ltb_ge in Hlt. destruct Hhs as [? Hc ? ? ?].
    exists [], [], 0%nat. cbn. rewrite (served_nil _ _ _ Hc).
    repeat split; try done; try lia. congruence. }
  destruct (authMsgCounter st <? 2) eqn:Hlt.
  2:{ rewrite (authLoop_done _ _ _ Hlt) in Hrun. injection Hrun as <- <-.
      apply Z.ltb_ge in Hlt. destruct Hhs as [? Hc ? ? ?].
      exists [], (l :: rest), 0%nat. cbn. rewrite (served_nil _ _ _ Hc).
      repeat split; try done; try lia. congruence. }
  assert (Hltb := Hlt). apply Z.ltb_lt in Hlt.
  assert (Hhs1 : Handshaking (served rest [] w) m cached rest)
    by (eapply Handshaking_served; eassumption).
  destruct (isNotification l) eqn:Hnot.
  - (* a notification *)
    rewrite (authLoop_notification _ _ _ _ _ _ Hhs Hltb Hnot) in Hrun.
    assert (Hreply : authReplyOf l = None).
    { unfold authReplyOf. unfold isNotification in Hnot.
      destruct (asResponse l) as [r|]; [| reflexivity].
      now destruct (notNil (resp_ID r)). }
    set (st1 := match asRequest l with
                | Some notify => set_allowedVersionMask
                                   (stratumHandleServerNotify notify (allowedVersionMask st)) st
                | None => st
                end) in Hrun.
    assert (Hst1 : authSuccess st1 = false /\ authMsgCounter st1 = authMsgCounter st /\
                   authResponse st1 = authResponse st /\
                   allowedVersionMask st1 =
                     default (allowedVersionMask st) (notifiedMask l)).
    { unfold notifiedMask. rewrite Hnot. subst st1.
      destruct (asRequest l) as [n|]; cbn; [| done].
      now rewrite handleNotify_announced. }
    destruct Hst1 as (Hs1 & Hc1 & Hr1 & Hm1).
    destruct (IH st1 _ m cached st' w' Hhs1 Hs1 Hrun)
      as (consumed & rest' & k & -> & -> & Hmask & Hge & Hf & Ht).
    exists (l :: consumed), rest', k.
    rewrite served_served, session_served. rewrite !omap_cons. cbn [app]. rewrite Hreply.
    split; [reflexivity |]. split; [reflexivity |]. split.
    { rewrite Hmask, Hm1. destruct (notifiedMask l) as [v|]; [| reflexivity].
      cbn [default]. now rewrite default_last_cons. }
    split; [assumption |]. rewrite <- Hc1, <- Hr1. split; assumption.
  - (* a response with an id *)
    unfold isNotification in Hnot.
    destruct (asResponse l) as [r|] eqn:Hresp; [| discriminate].
    apply negb_false_iff in Hnot.
    rewrite (authLoop_response _ _ _ _ _ _ _ Hhs Hltb Hresp Hnot) in Hrun.
    assert (Hmaskl : notifiedMask l = None).
    { unfold notifiedMask, isNotification. now rewrite Hresp, Hnot. }
    unfold bind at 1 in Hrun.
    destruct (stratumHandleServerResponse r st (served rest [] w))
      as [[e st1] w1| |] eqn:Hh; try discriminate.
    destruct (handleResponse_spec _ _ _ _ _ _ Hnot Hh) as [-> Hst1].
    assert (Hreply : authReplyOf l =
                     if bool_decide (asString (resp_ID r) = Some "auth") then Some r else None).
    { unfold authReplyOf. now rewrite Hresp, Hnot. }
    destruct (bool_decide (asString (resp_ID r) = Some "auth")) eqn:Hauth.
    + (* a reply to an authorize request *)
      destruct Hst1 as [-> Hst1].
      destruct (stratumHandleServerAuthorizeResponse r) eqn:Hacc.
      * (* accepted *)
        subst st1. cbn [authSuccess authMsgCounter negb andb] in Hrun.
        rewrite authLoop_done in Hrun by reflexivity. injection Hrun as <- <-.
        exists [l], rest, 0%nat. rewrite !omap_cons. cbn [app]. rewrite Hreply, Hmaskl. cbn.
        split; [reflexivity |]. split; [reflexivity |]. split; [reflexivity |].
        split; [lia |]. split; [discriminate |]. intros _.
        exists [], r. repeat split; try done. now apply accepts_iff.
      * (* refused *)
        rewrite Hfail in Hst1. subst st1.
        assert (Hnacc : ~ accepts r) by (rewrite <- accepts_iff; congruence).
        cbn [authSuccess authMsgCounter negb andb] in Hrun.
        destruct (authMsgCounter st + 1 =? 1) eqn:Hone.
        -- apply Z.eqb_eq in Hone.
           unfold bind at 1 in Hrun.
           destruct (sendMiningAuthorizeToServer_suffix _ _ _ _ Hhs1) as [a Hsend].
           rewrite Hsend in Hrun. destruct a as [a1 a2]. cbv beta iota in Hrun.
           rewrite served_served, session_served in Hrun. cbn [app] in Hrun.
           eapply (IH _ _ m cached) in Hrun;
             [| eapply Handshaking_served; eassumption | reflexivity].
           destruct Hrun as (consumed & rest' & k & -> & -> & Hmask & Hge & Hf & Ht).
           exists (l :: consumed), rest', (S k).
           rewrite served_served, session_served. rewrite !omap_cons. cbn [app replicate].
           rewrite Hreply, Hmaskl. cbn [authSuccess authMsgCounter authResponse
                                         allowedVersionMask] in *.
           split; [reflexivity |]. split; [reflexivity |]. split; [assumption |].
           split; [assumption |]. split.
           ++ intros Hs. destruct (Hf Hs) as (Hcnt & Hall & Hresp' & _ & Htwo).
              cbn [length]. rewrite default_last_cons.
              repeat split; try assumption; try lia; try (now constructor).
           ++ intros Hs. destruct (Ht Hs) as (pre & r' & Hpre & Hall & Hacc' & Hr').
              exists (r :: pre), r'. rewrite Hpre. repeat split; try assumption;
                try reflexivity; try (now constructor).
        -- apply Z.eqb_neq in Hone.
           eapply (IH _ _ m cached) in Hrun; [| eassumption | reflexivity].
           destruct Hrun as (consumed & rest' & k & -> & -> & Hmask & Hge & Hf & Ht).
           exists (l :: consumed), rest', k.
           rewrite served_served, session_served. rewrite !omap_cons. cbn [app].
           rewrite Hreply, Hmaskl. cbn [authSuccess authMsgCounter authResponse
                                         allowedVersionMask] in *.
           split; [reflexivity |]. split; [reflexivity |]. split; [assumption |].
           split; [assumption |]. split.
           ++ intros Hs. destruct (Hf Hs) as (Hcnt & Hall & Hresp' & _ & Htwo).
              cbn [length]. rewrite default_last_cons.
              repeat split; try assumption; try lia; try (now constructor).
           ++ intros Hs. destruct (Ht Hs) as (pre & r' & Hpre & Hall & Hacc' & Hr').
              exists (r :: pre), r'. rewrite Hpre. repeat split; try assumption;
                try reflexivity; try (now constructor).
    + (* another response *)
      subst st1. destruct e as [e|]; [discriminate |].
      rewrite Hfail in Hrun. cbn [negb andb] in Hrun.
      destruct (authMsgCounter st =? 1) eqn:Hone.
      * apply Z.eqb_eq in Hone.
        unfold bind at 1 in Hrun.
        destruct (sendMiningAuthorizeToServer_suffix _ _ _ _ Hhs1) as [a Hsend].
        rewrite Hsend in Hrun. destruct a as [a1 a2]. cbv beta iota in Hrun.
        rewrite served_served, session_served in Hrun. cbn [app] in Hrun.
        eapply (IH _ _ m cached) in Hrun;
          [| eapply Handshaking_served; eassumption | assumption].
        destruct Hrun as (consumed & rest' & k & -> & -> & Hmask & Hge & Hf & Ht).
        exists (l :: consumed), rest', (S k).
        rewrite served_served, session_served. rewrite !omap_cons. cbn [app replicate].
        rewrite Hreply, Hmaskl.
        split; [reflexivity |]. split; [reflexivity |]. split; [assumption |].
        split; [assumption |]. split; [| assumption].
        intros Hs. destruct (Hf Hs) as (Hcnt & Hall & Hresp' & _ & Htwo).
        repeat split; try assumption; lia.
      * eapply (IH _ _ m cached) in Hrun; [| eassumption | assumption].
        destruct Hrun as (consumed & rest' & k & -> & -> & Hmask & Hge & Hf & Ht).
        exists (l :: consumed), rest', k.
        rewrite served_served, session_served. rewrite !omap_cons. cbn [app].
        rewrite Hreply, Hmaskl.
        split; [reflexivity |]. split; [reflexivity |]. split; [assumption |].
        split; [assumption |]. split; assumption.
Qed.

Lemma handleResponse_harmless (r : JSONRPCResponse) (st : AuthState) (w : World) :
  notNil (resp_ID r) = true ->
  (asString (resp_ID r) = Some "auth" -> ~ accepts r) ->
  (asString (resp_ID r) = Some "subscribe" ->
   stratumHandleServerSubscribeResponse (session w) r = Returns None) ->
  authSuccess st = false ->
  stratumHandleServerResponse r st w =
  Done (None,
        if bool_decide (asString (resp_ID r) = Some "auth")
        then mkAuthState (allowedVersionMask st) r (authMsgCounter st + 1) false
        else st) w.
Proof.
  intros Hid Hauth Hsub Hfail. unfold stratumHandleServerResponse.
  destruct (asString (resp_ID r)) as [id|] eqn:Hs.
  2:{ now rewrite bool_decide_eq_false_2. }
  destruct (String.eqb id "configure") eqn:E1.
  { apply String.eqb_eq in E1. subst id. now rewrite bool_decide_eq_false_2. }
  destruct (String.eqb id "subscribe") eqn:E2.
  { apply String.eqb_eq in E2. subst id. unfold bind, getSession. rewrite (Hsub eq_refl).
    now rewrite bool_decide_eq_false_2. }
  destruct (String.eqb id "auth") eqn:E3.
  { apply String.eqb_eq in E3. subst id. rewrite bool_decide_eq_true_2 by reflexivity.
    destruct (stratumHandleServerAuthorizeResponse r) eqn:Hacc.
    - apply accepts_iff in Hacc. now destruct (Hauth eq_refl).
    - rewrite Hfail. cbn. reflexivity. }
  apply String.eqb_neq in E3. rewrite bool_decide_eq_false_2; [reflexivity | congruence].
Qed.

Lemma AuthState_eta (st : AuthState) :
  mkAuthState (allowedVersionMask st) (authResponse st) (authMsgCounter st) (authSuccess st)
  = st.
Proof. now destruct st. Qed.

(** Reading lines that do not end the handshake. *)
Lemma authLoop_prefix (pre : list Line) :
  forall (more : list Line) (st : AuthState) (w : World) m cached,
    Handshaking w m cached (pre ++ more) -> authSuccess st = false ->
    authMsgCounter st + Z.of_nat (length (omap authReplyOf pre)) < 2 ->
    Forall (harmless (session w)) pre ->
    authLoop (pre ++ more) st w =
    authLoop more
      (mkAuthState (default (allowedVersionMask st) (last (omap notifiedMask pre)))
                   (default (authResponse st) (last (omap authReplyOf pre)))
                   (authMsgCounter st + Z.of_nat (length (omap authReplyOf pre)))
                   false)
      (served more
         (replicate (resends (authMsgCounter st) pre)
            (ServerGets (upstreamAuthorize cached (suffixedWorkerName m (session w))))) w).
Proof.
  induction pre as [| l pre IH]; intros more st w m cached Hhs Hfail Hcnt Hall.
  { destruct Hhs as [? Hc ? ? ?]. cbn [app] in Hc |- *.
    f_equal; [| symmetry; exact (served_nil _ _ _ Hc)].
    rewrite <- (AuthState_eta st) at 1. rewrite Hfail. f_equal. cbn. lia. }
  cbn [app] in *. inversion Hall as [| ? ? Hl Hpre]; subst.
  rewrite omap_cons in Hcnt.
  assert (Hlt : authMsgCounter st < 2) by (destruct (authReplyOf l); cbn in Hcnt; lia).
  assert (Hltb : (authMsgCounter st <? 2) = true) by now apply Z.ltb_lt.
  assert (Hhs1 : forall evs, Handshaking (served (pre ++ more) evs w) m cached (pre ++ more))
    by (intros evs; eapply Handshaking_served; eassumption).
  assert (Hpre1 : forall evs, Forall (harmless (session (served (pre ++ more) evs w))) pre)
    by (intros evs; now rewrite session_served).
  destruct (isNotification l) eqn:Hnot.
  - rewrite (authLoop_notification _ _ _ _ _ _ Hhs Hltb Hnot).
    assert (Hreply : authReplyOf l = None).
    { unfold authReplyOf. unfold isNotification in Hnot.
      destruct (asResponse l) as [r|]; [| reflexivity].
      now destruct (notNil (resp_ID r)). }
    rewrite !omap_cons, Hreply in *. cbn [resends]. rewrite Hnot.
    set (st1 := match asRequest l with
                | Some notify => set_allowedVersionMask
                                   (stratumHandleServerNotify notify (allowedVersionMask st)) st
                | None => st
                end).
    assert (Hst1 : authSuccess st1 = false /\ authMsgCounter st1 = authMsgCounter st /\
                   authResponse st1 = authResponse st /\
                   allowedVersionMask st1 =
                     default (allowedVersionMask st) (notifiedMask l)).
    { unfold notifiedMask. rewrite Hnot. subst st1.
      destruct (asRequest l) as [n|]; cbn; [| done].
      now rewrite handleNotify_announced. }
    destruct Hst1 as (Hs1 & Hc1 & Hr1 & Hm1).
    assert (Hcnt1 : authMsgCounter st1 + Z.of_nat (length (omap authReplyOf pre)) < 2)
      by lia.
    rewrite (IH more st1 _ m cached (Hhs1 []) Hs1 Hcnt1 (Hpre1 [])).
    rewrite served_served, session_served, Hc1, Hr1, Hm1. cbn [app].
    f_equal. f_equal.
    destruct (notifiedMask l) as [v|]; [| reflexivity].
    cbn [default]. now rewrite default_last_cons.
  - assert (Hnot' := Hnot). unfold isNotification in Hnot'.
    destruct Hl as [Hl | (r & Hresp & Hid & Hauth & Hsub)]; [congruence |].
    rewrite (authLoop_response _ _ _ _ _ _ _ Hhs Hltb Hresp Hid).
    assert (Hmaskl : notifiedMask l = None) by (unfold notifiedMask; now rewrite Hnot).
    assert (Hreply : authReplyOf l =
                     if bool_decide (asString (resp_ID r) = Some "auth") then Some r else None).
    { unfold authReplyOf. now rewrite Hresp, Hid. }
    assert (Hsub1 : asString (resp_ID r) = Some "subscribe" ->
                    stratumHandleServerSubscribeResponse
                      (session (served (pre ++ more) [] w)) r = Returns None)
      by now rewrite session_served.
    rewrite (bind_Done _ _ _ _ _ (handleResponse_harmless _ _ _ Hid Hauth Hsub1 Hfail)).
    cbv beta iota. rewrite !omap_cons, Hmaskl, Hreply in *. cbn [resends]. rewrite Hnot, Hreply.
    destruct (bool_decide (asString (resp_ID r) = Some "auth")) eqn:Hisauth.
    + cbn [authSuccess authMsgCounter negb andb length] in *.
      assert (Hcnt1 : authMsgCounter st + 1 + Z.of_nat (length (omap authReplyOf pre)) < 2)
        by lia.
      destruct (authMsgCounter st + 1 =? 1) eqn:Hone.
      * destruct (sendMiningAuthorizeToServer_suffix _ _ _ _ (Hhs1 [])) as [[a1 a2] Hsend].
        rewrite (bind_Done _ _ _ _ _ Hsend). cbv beta iota.
        rewrite served_served, session_served. cbn [app].
        rewrite (IH more (mkAuthState (allowedVersionMask st) r (authMsgCounter st + 1) false)
                   _ m cached (Hhs1 _) eq_refl Hcnt1 (Hpre1 _)).
        rewrite served_served, session_served.
        cbn [authSuccess authMsgCounter authResponse allowedVersionMask replicate app].
        rewrite default_last_cons. f_equal. f_equal. lia.
      * rewrite (IH more (mkAuthState (allowedVersionMask st) r (authMsgCounter st + 1) false)
                   _ m cached (Hhs1 _) eq_refl Hcnt1 (Hpre1 _)).
        rewrite served_served, session_served.
        cbn [authSuccess authMsgCounter authResponse allowedVersionMask replicate app].
        rewrite default_last_cons. f_equal. f_equal. lia.
    + rewrite Hfail. cbn [negb andb].
      destruct (authMsgCounter st =? 1) eqn:Hone.
      * destruct (sendMiningAuthorizeToServer_suffix _ _ _ _ (Hhs1 [])) as [[a1 a2] Hsend].
        rewrite (bind_Done _ _ _ _ _ Hsend). cbv beta iota.
        rewrite served_served, session_served. cbn [app].
        rewrite (IH more _ _ m cached (Hhs1 _) Hfail Hcnt (Hpre1 _)).
        now rewrite served_served, session_served.
      * rewrite (IH more _ _ m cached (Hhs1 _) Hfail Hcnt (Hpre1 _)).
        now rewrite served_served, session_served.
Qed.

Lemma authReplyOf_Some (l : Line) (r : JSONRPCResponse) :
  authReplyOf l = Some r ->
  asResponse l = Some r /\ notNil (resp_ID r) = true /\
  asString (resp_ID r) = Some "auth" /\ isNotification l = false /\ notifiedMask l = None.
Proof.
  unfold authReplyOf, isNotification, notifiedMask, isNotification.
  destruct (asResponse l) as [r'|]; [| discriminate].
  destruct (notNil (resp_ID r')) eqn:Hid; [| discriminate]. cbn.
  destruct (bool_decide (asString (resp_ID r') = Some "auth")) eqn:Hauth; [| discriminate].
  intros [= <-]. apply bool_decide_eq_true in Hauth. done.
Qed.

Lemma resends_first_refusal (pre : list Line) :
  omap authReplyOf pre <> [] -> (1 <= resends 0 pre)%nat.
Proof.
  induction pre as [| l pre IH]; [done |]. rewrite omap_cons. cbn [resends].
  destruct (isNotification l) eqn:Hnot.
  - destruct (authReplyOf l) as [r|] eqn:Hr; [| exact IH].
    apply authReplyOf_Some in Hr. destruct Hr as (_ & _ & _ & Hn & _). congruence.
  - destruct (authReplyOf l) as [r|]; [intros _; destruct (Z.eqb_spec (0 + 1) 1); lia |].
    change (0 =? 1) with false. exact IH.
Qed.

(** The loop when the second reply to an authorize request is a refusal
    too. *)
Lemma authLoop_two_refusals (pre rest : list Line) (l2 : Line) (r1 r2 : JSONRPCResponse)
    (w : World) m cached :
  Handshaking w m cached (pre ++ l2 :: rest) ->
  Forall (harmless (session w)) pre -> omap authReplyOf pre = [r1] ->
  authReplyOf l2 = Some r2 -> ~ accepts r2 ->
  authLoop (pre ++ l2 :: rest) (mkAuthState 0 zeroResponse 0 false) w =
  Done (inr (mkAuthState (serverAllowedMask pre) r2 2 false))
       (served rest
          (replicate (resends 0 pre)
             (ServerGets (upstreamAuthorize cached (suffixedWorkerName m (session w))))) w).
Proof.
  intros Hhs Hpre Hone Hl2 Hno.
  assert (Hcnt : authMsgCounter (mkAuthState 0 zeroResponse 0 false) +
                 Z.of_nat (length (omap authReplyOf pre)) < 2)
    by (rewrite Hone; cbn [authMsgCounter length]; lia).
  rewrite (authLoop_prefix pre _ (mkAuthState 0 zeroResponse 0 false) _ _ _ Hhs eq_refl Hcnt Hpre).
  rewrite Hone. cbn [authMsgCounter authResponse allowedVersionMask length last default].
  apply authReplyOf_Some in Hl2. destruct Hl2 as (Hresp & Hid & Hauth & _ & _).
  assert (Hhs1 : Handshaking (served (l2 :: rest)
                   (replicate (resends 0 pre)
                      (ServerGets (upstreamAuthorize cached
                                     (suffixedWorkerName m (session w))))) w)
                   m cached (l2 :: rest)) by (eapply Handshaking_served; eassumption).
  set (st1 := mkAuthState _ _ _ false).
  rewrite (authLoop_response l2 rest st1 _ m cached r2 Hhs1 eq_refl Hresp Hid).
  assert (Hsub : asString (resp_ID r2) = Some "subscribe" ->
                 stratumHandleServerSubscribeResponse
                   (session (served rest [] (served (l2 :: rest)
                      (replicate (resends 0 pre)
                         (ServerGets (upstreamAuthorize cached
                                        (suffixedWorkerName m (session w))))) w))) r2
                 = Returns None) by congruence.
  rewrite (bind_Done _ _ _ _ _
             (handleResponse_harmless r2 st1 _ Hid (fun _ => Hno) Hsub eq_refl)).
  rewrite bool_decide_eq_true_2 by assumption. cbv beta iota.
  subst st1. cbn [authSuccess authMsgCounter allowedVersionMask negb andb].
  change (0 + Z.of_nat 1 + 1 =? 1) with false.
  cbv beta iota. rewrite authLoop_done by reflexivity.
  rewrite served_served, app_nil_r. reflexivity.
Qed.

(** The loop when a reply to an authorize request accepts. *)
Lemma authLoop_acceptance (pre rest : list Line) (l : Line) (r : JSONRPCResponse)
    (w : World) m cached :
  Handshaking w m cached (pre ++ l :: rest) ->
  Forall (harmless (session w)) pre -> (length (omap authReplyOf pre) <= 1)%nat ->
  authReplyOf l = Some r -> accepts r ->
  authLoop (pre ++ l :: rest) (mkAuthState 0 zeroResponse 0 false) w =
  Done (inr (mkAuthState (serverAllowedMask pre) r 2 true))
       (served rest
          (replicate (resends 0 pre)
             (ServerGets (upstreamAuthorize cached (suffixedWorkerName m (session w))))) w).
Proof.
  intros Hhs Hpre Hone Hl Hyes.
  assert (Hcnt : authMsgCounter (mkAuthState 0 zeroResponse 0 false) +
                 Z.of_nat (length (omap authReplyOf pre)) < 2)
    by (cbn [authMsgCounter]; lia).
  rewrite (authLoop_prefix pre _ (mkAuthState 0 zeroResponse 0 false) _ _ _ Hhs eq_refl Hcnt Hpre).
  cbn [authMsgCounter authResponse allowedVersionMask].
  apply authReplyOf_Some in Hl. destruct Hl as (Hresp & Hid & Hauth & _ & _).
  assert (Hhs1 : Handshaking (served (l :: rest)
                   (replicate (resends 0 pre)
                      (ServerGets (upstreamAuthorize cached
                                     (suffixedWorkerName m (session w))))) w)
                   m cached (l :: rest)) by (eapply Handshaking_served; eassumption).
  assert (Hlt : (0 + Z.of_nat (length (omap authReplyOf pre)) <? 2) = true)
    by (apply Z.ltb_lt; lia).
  set (st1 := mkAuthState _ _ _ false).
  rewrite (authLoop_response l rest st1 _ m cached r Hhs1 Hlt Hresp Hid).
  unfold stratumHandleServerResponse at 1. rewrite Hauth.
  change (String.eqb "auth" "configure") with false.
  change (String.eqb "auth" "subscribe") with false.
  change (String.eqb "auth" "auth") with true. cbv beta iota.
  rewrite (proj2 (accepts_iff r) Hyes). cbn [orb]. unfold bind at 1, ret at 1.
  cbv beta iota. cbn [authSuccess negb andb]. rewrite authLoop_done by reflexivity.
  rewrite served_served, app_nil_r. reflexivity.
Qed.

Lemma Handshaking_fields (w : World) m cached lines (rest : list Line) (evs : list Event) :
  Handshaking w m cached lines ->
  exists p, stratumAuthorizeRequest (session w) = Some p /\
            requests (served rest evs w) !! p = Some cached /\
            session (served rest evs w) = session w /\
            clientConn (served rest evs w) = clientConn w.
Proof.
  intros [_ _ _ (p & Hp & Hreq) _]. exists p. destruct w. cbn in *. done.
Qed.

(** The reader goroutine after its loop. *)
Lemma readServerReplies_after_loop (w : World) m cached lines (st : AuthState)
    (rest : list Line) (evs : list Event) :
  Handshaking w m cached lines -> writable (clientConn w) = true ->
  authLoop lines (mkAuthState 0 zeroResponse 0 false) w = Done (inr st) (served rest evs w) ->
  readServerReplies w =
  Done (if authSuccess st then None else Some (errors_New "Authorize Failed for Server"))
       (served rest
          (evs ++
           ClientGetsResponse
             (mkResponse (req_ID cached) (resp_Result (authResponse st))
                         (resp_Error (authResponse st)))
             (jsonRPCVersion (session w)) ::
           (if authSuccess st && negb (versionMask (session w) =? 0)
            then [ClientGetsNotify
                    (mkRequest JNull "mining.set_version_mask"
                       [JStr (Hex.Sprintf_08x
                                (Z.land (allowedVersionMask st) (versionMask (session w))))]
                       "")]
            else [])) w).
Proof.
  intros Hhs Hwr Hloop.
  destruct (Handshaking_fields _ _ _ _ rest evs Hhs) as (p & Hp & Hreq & Hsess & Hcc).
  destruct Hhs as [Hr Hc Hm _ Hn].
  unfold readServerReplies. unfold bind at 1, getWorld at 1. rewrite Hc. cbn [pending].
  rewrite (bind_Done _ _ _ _ _ Hloop). cbv beta iota.
  unfold bind at 1, getSession at 1. rewrite Hsess, Hp.
  rewrite (bind_Done _ _ _ _ _ (loadRequest_found _ _ _ Hreq)).
  unfold writeJSONResponseToClient, writeJSONNotifyToClient.
  unfold bind at 1. unfold bind at 1, getWorld at 1. rewrite Hcc, Hwr, Hsess.
  unfold served. rewrite Hc.
  destruct w as [s rq lk cc cr sc sr sb nw zk ar tr]. cbn in *. subst sc.
  destruct (authSuccess st); cbn; [destruct (versionMask s =? 0); cbn |];
    unfold bind, getWorld, emit, modifyWorld, ret; cbn; rewrite ?Hwr; cbn;
    rewrite <- ?app_assoc; reflexivity.
Qed.
Lemma refused_in_harmless (s : StratumSession) (pre : list Line) (r : JSONRPCResponse) :
  Forall (harmless s) pre -> r ∈ omap authReplyOf pre -> ~ accepts r.
Proof.
  intros Hall Hin. apply list_elem_of_omap in Hin as (l & Hl & Hr).
  rewrite Forall_forall in Hall.
  apply authReplyOf_Some in Hr. destruct Hr as (Hresp & Hid & Hauth & Hnot & _).
  destruct (Hall l Hl) as [Hn | (r' & Hresp' & _ & Hno & _)]; [congruence |].
  assert (r' = r) by congruence. subst r'. now apply Hno.
Qed.

Lemma trace_served (rest : list Line) (evs : list Event) (w : World) :
  trace (served rest evs w) = (trace w ++ evs)%list.
Proof. now destruct w. Qed.

(** *** A connection attempt whose handshake fails *)

Lemma locked_served (rest : list Line) (evs : list Event) (w : World) :
  locked (served rest evs w) = locked w.
Proof. now destruct w. Qed.

(** When the attempt reaches the world [w], what [connectStratumServer]
    returns is what the reader goroutine returns in [w]. *)
Lemma connect_sent (w2 w : World) :
  Sent w2 w -> connectStratumServer w2 = readServerReplies w.
Proof.
  intros (m & info & conn & rest & wa & wb & ua & proto & name & passwd &
          Hm & Hreq & Hinfo & Hnet & Hconf & Hsub & Hauth).
  unfold connectStratumServer.
  unfold bind at 1, getSession at 1.
  unfold bind at 1, theManager at 1, bind at 1, getSession at 1. rewrite Hm.
  unfold ret at 1.
  assert (Hid : exists rpcID,
            match stratumAuthorizeRequest (session w2) with
            | Some _ => let* r := loadRequest (stratumAuthorizeRequest (session w2)) in
                        ret (req_ID r)
            | None => ret JNull
            end w2 = Done rpcID w2).
  { destruct (stratumAuthorizeRequest (session w2)) as [p|] eqn:Hp.
    - destruct (Hreq p eq_refl) as [r Hr]. exists (req_ID r).
      now rewrite (bind_Done _ _ _ _ _ (loadRequest_found _ _ _ Hr)).
    - now exists JNull. }
  destruct Hid as [rpcID Hid]. rewrite (bind_Done _ _ _ _ _ Hid).
  rewrite Hinfo.
  unfold bind at 1, emit at 1, modifyWorld at 1. unfold bind at 1, getWorld at 1.
  replace (network (set_trace (trace w2 ++ [Dialed (URL info)]) w2)) with (network w2)
    by now destruct w2.
  rewrite Hnet.
  unfold bind at 1, modifyWorld at 1. unfold bind at 1, modifyWorld at 1.
  unfold bind at 1, modifyWorld at 1.
  fold (dialed (URL info) conn rest w2).
  unfold serverSubscribeAndAuthorize.
  rewrite (bind_Done _ _ _ _ _ Hconf). cbv beta iota.
  rewrite (bind_Done _ _ _ _ _ Hsub). cbv beta iota.
  rewrite (bind_Done _ _ _ _ _ Hauth). reflexivity.
Qed.

(** On the first connection of the session a handshake that fails stops
    the session. *)
Lemma runProxyStratum_handshake_error (w0 w1 w2 w wf : World) (m0 m : StratumSessionManager)
    (e : error) :
  stratumFindWorkerName w0 = Done None w1 ->
  manager (session w1) = Some m0 ->
  findMiningCoin (enableUserAutoReg m0) w1 = Done None w2 ->
  Sent w2 w -> readServerReplies w = Done (Some e) wf ->
  locked wf = false -> runningStat (session wf) <> StatStoped ->
  manager (session wf) = Some m ->
  exists w4, runProxyStratum w0 = Done tt w4 /\
             runningStat (session w4) = StatStoped /\ clientConn w4 = closed /\
             clientResponses (trace w4) = clientResponses (trace wf).
Proof.
  intros Hfind Hm0 Hcoin Hsent Hread Hlock Hstat Hm.
  assert (Hconn : connectStratumServer w2 = Done (Some e) wf)
    by (now rewrite (connect_sent _ _ Hsent)).
  rewrite (runProxyStratum_connect_error _ _ _ _ _ _ Hfind Hm0 Hcoin Hconn).
  destruct (Stop_stops _ _ Hlock Hstat Hm) as (w4 & Hstop & Hs4 & _ & Hc4 & _ & Hresp).
  now exists w4.
Qed.

(** Inside a reconnect a handshake that fails is followed by a sleep and
    the next attempt. *)
Lemma reconnectLoop_handshake_error (w2 w wf : World) (e : error) (n : nat)
    (e0 : option error) :
  Sent w2 w -> readServerReplies w = Done (Some e) wf ->
  reconnectLoop (S n) e0 w2 = reconnectLoop n (Some e) (set_trace (trace wf ++ [Slept]) wf).
Proof.
  intros Hsent Hread. cbn [reconnectLoop].
  assert (Hconn : connectStratumServer w2 = Done (Some e) wf)
    by (now rewrite (connect_sent _ _ Hsent)).
  rewrite (bind_Done _ _ _ _ _ Hconn). reflexivity.
Qed.

(** C1, as the code has it.  The session awaits the replies of the
    upstream; [pre] are lines that do not end the handshake and hold one
    reply to an authorize request, [r1], and the line [l2] after them is a
    second reply, [r2], that refuses too.  Then [r1] is a refusal, the
    authorize request with the suffixed worker name has been sent (once or
    more, and nothing else) when the reader goroutine ends; it ends with the
    error "Authorize Failed for Server", and the last thing written is the
    response to the client with the id of the client's authorize request
    and the result and error of the SECOND refusal [r2].  That error is what
    [connectStratumServer] returns for the attempt that sent the requests:
    inside a reconnect the session then sleeps and makes its next attempt,
    and on its first connection, in [runProxyStratum], the session is
    stopped, the second refusal being the last response that the client
    got. *)
Theorem C1_authorize_retry (w : World) (m : StratumSessionManager)
    (cached : JSONRPCRequest) (pre rest : list Line) (l2 : Line)
    (r1 r2 : JSONRPCResponse) :
  Handshaking w m cached (pre ++ l2 :: rest) -> writable (clientConn w) = true ->
  Forall (harmless (session w)) pre -> omap authReplyOf pre = [r1] ->
  authReplyOf l2 = Some r2 -> ~ accepts r2 ->
  let second := ServerGets (upstreamAuthorize cached (suffixedWorkerName m (session w))) in
  let refusal := mkResponse (req_ID cached) (resp_Result r2) (resp_Error r2) in
  let answer := ClientGetsResponse refusal (jsonRPCVersion (session w)) in
  let failed := Some (errors_New "Authorize Failed for Server") in
  let wf := served rest (replicate (resends 0 pre) second ++ [answer]) w in
  ~ accepts r1 /\ (1 <= resends 0 pre)%nat /\
  readServerReplies w = Done failed wf /\
  (forall w2 : World,
     Sent w2 w ->
     connectStratumServer w2 = Done failed wf /\
     (forall (n : nat) (e0 : option error),
        reconnectLoop (S n) e0 w2
        = reconnectLoop n failed (set_trace (trace wf ++ [Slept]) wf)) /\
     (forall (w0 w1 : World) (m0 : StratumSessionManager),
        stratumFindWorkerName w0 = Done None w1 -> manager (session w1) = Some m0 ->
        findMiningCoin (enableUserAutoReg m0) w1 = Done None w2 ->
        locked w = false -> runningStat (session w) <> StatStoped ->
        exists w4, runProxyStratum w0 = Done tt w4 /\
                   runningStat (session w4) = StatStoped /\ clientConn w4 = closed /\
                   last (clientResponses (trace w4)) = Some refusal)).
Proof.
  intros Hhs Hwr Hpre Hone Hl2 Hno second refusal answer failed wf.
  assert (Hread : readServerReplies w = Done failed wf).
  { rewrite (readServerReplies_after_loop _ _ _ _ _ _ _ Hhs Hwr
               (authLoop_two_refusals _ _ _ _ _ _ _ _ Hhs Hpre Hone Hl2 Hno)).
    reflexivity. }
  split. { eapply refused_in_harmless; [exact Hpre |]. rewrite Hone. set_solver. }
  split. { apply resends_first_refusal. now rewrite Hone. }
  split; [exact Hread |].
  intros w2 Hsent. split; [now rewrite (connect_sent _ _ Hsent) |].
  split; [intros n e0; exact (reconnectLoop_handshake_error _ _ _ _ n e0 Hsent Hread) |].
  intros w0 w1 m0 Hfind Hm0 Hcoin Hlock Hstat.
  assert (Hlf : locked wf = false) by (subst wf; now rewrite locked_served).
  assert (Hsf : runningStat (session wf) <> StatStoped)
    by (subst wf; now rewrite session_served).
  assert (Hmf : manager (session wf) = Some m)
    by (subst wf; rewrite session_served; now destruct Hhs).
  destruct (runProxyStratum_handshake_error _ _ _ _ _ _ _ _ Hfind Hm0 Hcoin Hsent Hread
              Hlf Hsf Hmf) as (w4 & Hrun & Hs4 & Hc4 & Hresp).
  exists w4. split; [exact Hrun |]. split; [exact Hs4 |]. split; [exact Hc4 |].
  rewrite Hresp. subst wf answer. rewrite trace_served. unfold clientResponses.
  rewrite !app_assoc, omap_app, last_app. reflexivity.
Qed.

Lemma hexDigit_in (n : Z) : In (Hex.hexDigit n) Hex.digits.
Proof.
  unfold Hex.hexDigit. apply nth_In.
  assert (0 <= n mod 16 < 16) by (apply Z.mod_pos_bound; lia).
  change (length Hex.digits) with 16%nat. lia.
Qed.

Lemma Sprintf_08x_shape (v : Z) :
  String.length (Hex.Sprintf_08x v) = 8%nat /\ lowerHex (Hex.Sprintf_08x v).
Proof.
  split; [reflexivity |].
  unfold Hex.Sprintf_08x, Hex.BigEndianBytes.
  cbv [Hex.EncodeToString Hex.hexByte String.append lowerHex].
  repeat split; apply hexDigit_in.
Qed.

(** C5.  The session awaits the replies of the upstream; [pre] are lines
    that do not end the handshake, with at most one (refused) reply to an
    authorize request, and the line [l] after them is a reply that accepts.
    Then the reader goroutine ends without an error.  When the client asked
    for a nonzero mask, the client gets exactly one notification, as the last
    event: [mining.set_version_mask] with the bitwise AND of the mask of the
    client and the server-allowed mask (the last mask that the lines [pre]
    announced, zero if none), written as 8 characters 0-9a-f.  When the client
    asked for none it gets no notification. *)
Theorem C5_version_mask_notification (w : World) (m : StratumSessionManager)
    (cached : JSONRPCRequest) (pre rest : list Line) (l : Line) (r : JSONRPCResponse) :
  Handshaking w m cached (pre ++ l :: rest) -> writable (clientConn w) = true ->
  Forall (harmless (session w)) pre -> (length (omap authReplyOf pre) <= 1)%nat ->
  authReplyOf l = Some r -> accepts r ->
  let mask := Hex.Sprintf_08x (Z.land (versionMask (session w)) (serverAllowedMask pre)) in
  let notify := mkRequest JNull "mining.set_version_mask" [JStr mask] "" in
  exists evs,
    readServerReplies w = Done None (served rest evs w) /\
    (versionMask (session w) <> 0 ->
     clientNotifies evs = [notify] /\ last evs = Some (ClientGetsNotify notify) /\
     String.length mask = 8%nat /\ lowerHex mask) /\
    (versionMask (session w) = 0 -> clientNotifies evs = []).
Proof.
  intros Hhs Hwr Hpre Hone Hl Hyes mask notify.
  eexists. split.
  - rewrite (readServerReplies_after_loop _ _ _ _ _ _ _ Hhs Hwr
               (authLoop_acceptance _ _ _ _ _ _ _ Hhs Hpre Hone Hl Hyes)).
    reflexivity.
  - cbn [authSuccess allowedVersionMask authResponse andb].
    assert (Hsends : forall k e, clientNotifies (replicate k (ServerGets e)) = []).
    { intros k e. induction k as [| k IH]; [reflexivity | exact IH]. }
    unfold clientNotifies in *. split.
    + intros Hmask. apply Z.eqb_neq in Hmask. rewrite Hmask. cbn [negb].
      rewrite Z.land_comm. fold mask. fold notify.
      split; [| split; [| apply Sprintf_08x_shape]].
      * rewrite omap_app, Hsends. reflexivity.
      * rewrite last_app. reflexivity.
    + intros Hmask. rewrite Hmask. cbn [Z.eqb negb].
      rewrite omap_app, Hsends. reflexivity.
Qed.

(** *** The subscribe request *)

Lemma loadRequest_Done (w w' : World) (p : option nat) (r : JSONRPCRequest) :
  loadRequest p w = Done r w' -> w' = w /\ exists l, p = Some l /\ requests w !! l = Some r.
Proof.
  unfold loadRequest. destruct p as [l|]; [| discriminate].
  unfold bind, getWorld, ret. destruct (requests w !! l) as [r'|] eqn:E; [| discriminate].
  intros [= <- <-]. eauto.
Qed.

Lemma sendMiningSubscribeToServer_Done (w w' : World) (ua proto : string)
    (e : option error) :
  sendMiningSubscribeToServer w = Done (ua, proto, e) w' ->
  exists (p : nat) (r0 : JSONRPCRequest) (ip : string),
    stratumSubscribeRequest (session w) = Some p /\
    requests w !! p = Some r0 /\
    let req := mkRequest (JStr "subscribe") (req_Method r0)
                 (upstreamSubscribeParams (session w) ua proto ip) (req_Worker r0) in
    requests w' = <[p := req]> (requests w) /\
    session w' = session w /\
    (e = None -> trace w' = (trace w ++ [ServerGets req])%list).
Proof.
  unfold sendMiningSubscribeToServer. unfold bind at 1, getSession at 1.
  destruct (stratumSubscribeRequest (session w)) as [p|] eqn:Hp; [| discriminate].
  destruct (requests w !! p) as [r0|] eqn:Hr0.
  2:{ unfold bind at 1, updateRequest, bind at 1, loadRequest, bind at 1, getWorld.
      rewrite Hr0. discriminate. }
  rewrite (bind_Done _ _ _ _ _ (updateRequest_found _ _ _ _ Hr0)).
  assert (Hlt : (p < length (requests w))%nat) by (eapply lookup_lt_Some; eassumption).
  set (w1 := set_requests _ w).
  assert (Hr1 : requests w1 !! p = Some (set_req_ID (JStr "subscribe") r0)).
  { subst w1. destruct w. cbn in *. now apply list_lookup_insert_eq. }
  intros Hrun. exists p, r0.
  unfold upstreamSubscribeParams.
  destruct (protocolType (session w)) eqn:Hproto;
    try (unfold bind at 1 in Hrun; unfold bind at 1 in Hrun; discriminate Hrun);
    unfold bind at 1 in Hrun; rewrite (bind_Done _ _ _ _ _ (loadRequest_found _ _ _ Hr1)) in Hrun;
    unfold clientIPOf in Hrun;
    (destruct (GoStrings.slice (clientIPPort (session w)) 0
               (GoStrings.LastIndex (clientIPPort (session w)) ":")) as [ip|];
     [| discriminate Hrun]); exists ip;
    unfold bind at 1, ret at 1 in Hrun;
    rewrite (bind_Done _ _ _ _ _ (updateRequest_found _ _ _ _ Hr1)) in Hrun;
    unfold ret at 1 in Hrun; cbv beta iota in Hrun;
    match type of Hrun with
    | context [set_requests (<[p := ?r2]> (requests w1)) w1] =>
        set (w2 := set_requests (<[p := r2]> (requests w1)) w1) in Hrun;
        assert (Hr2 : requests w2 !! p = Some r2)
          by (subst w2 w1; destruct w; cbn in *; apply list_lookup_insert_eq;
              now rewrite length_insert)
    end;
    rewrite (bind_Done _ _ _ _ _ (loadRequest_found _ _ _ Hr2)) in Hrun;
    unfold writeJSONRequestToServer, bind, getWorld, emit, modifyWorld, ret in Hrun;
    (destruct (serverConn w2) as [c|]; [| discriminate Hrun]);
    (destruct (writable c); injection Hrun as <- <- <- <-);
    subst w2 w1; destruct w; cbn -[Hex.Uint32ToHex] in *;
    (split; [reflexivity |]); (split; [assumption |]);
    rewrite list_insert_insert_eq; repeat split; try reflexivity; try discriminate.
Qed.

Lemma negb_eqb_true (a b : string) : negb (String.eqb a b) = true <-> a <> b.
Proof. rewrite negb_true_iff. apply String.eqb_neq. Qed.

(** What a subscribe reply that the session accepts holds. *)
Lemma subscribe_accepted (s : StratumSession) (resp : JSONRPCResponse) :
  stratumHandleServerSubscribeResponse s resp = Returns None ->
  match protocolType s with
  | ProtocolBitcoinStratum =>
      exists result, resp_Result resp = JArr result /\
                     result !! 1%nat = Some (JStr (sessionIDString s))
  | ProtocolEthereumStratumNiceHash =>
      exists result notify nonce,
        resp_Result resp = JArr result /\ result !! 0%nat = Some (JArr notify) /\
        notify !! 1%nat = Some (JStr (sessionIDString s)) /\
        sessionExtraNonce s = Some nonce /\ result !! 1%nat = Some (JStr nonce)
  | ProtocolEthereumStratum | ProtocolEthereumProxy => resp_Result resp = JBool true
  | ProtocolUnknown => False
  end.
Proof.
  unfold stratumHandleServerSubscribeResponse.
  destruct (protocolType s); try discriminate.
  - destruct (resp_Result resp) as [| | | | result |]; cbn [asArray]; try discriminate.
    destruct (_ <? 2); [discriminate |].
    destruct (result !! 1%nat) as [[| | | id | |]|] eqn:H1; cbn [asString];
      try discriminate.
    destruct (String.eqb id (sessionIDString s)) eqn:E; [| discriminate].
    apply String.eqb_eq in E. subst id. intros _. now exists result.
  - destruct (resp_Result resp) as [| b | | | |]; cbn [asBool]; try discriminate.
    destruct b; [reflexivity | discriminate].
  - destruct (resp_Result resp) as [| | | | result |]; cbn [asArray]; try discriminate.
    destruct (_ <? 2); [discriminate |].
    destruct (result !! 0%nat) as [[| | | | notify |]|] eqn:H0; cbn [asArray];
      try discriminate; try (destruct (result !! 1%nat); discriminate).
    destruct (result !! 1%nat) as [r1|] eqn:H1; [| discriminate].
    destruct (notify !! 1%nat) as [[| | | id | |]|] eqn:Hn; cbn [asString];
      try discriminate.
    destruct (sessionExtraNonce s) as [own|] eqn:Hown; [| discriminate].
    destruct r1 as [| | | nonce | |]; cbn [asString]; try discriminate.
    destruct (String.eqb id (sessionIDString s)) eqn:E; [| discriminate].
    destruct (String.eqb nonce own) eqn:E'; [| discriminate].
    apply String.eqb_eq in E, E'. subst id nonce. intros _.
    exists result, notify, own. repeat split; assumption || reflexivity.
  - destruct (resp_Result resp) as [| b | | | |]; cbn [asBool]; try discriminate.
    destruct b; [reflexivity | discriminate].
Qed.

Lemma subscribe_refused_bitcoin (s : StratumSession) (resp : JSONRPCResponse)
    (result : list JSON) (id : string) :
  protocolType s = ProtocolBitcoinStratum ->
  resp_Result resp = JArr result -> result !! 1%nat = Some (JStr id) ->
  id <> sessionIDString s ->
  stratumHandleServerSubscribeResponse s resp = Returns (Some ErrSessionIDInconformity).
Proof.
  intros Hp Hres H1 Hne. unfold stratumHandleServerSubscribeResponse.
  rewrite Hp, Hres. cbn [asArray].
  assert (Hlen : (1 < length result)%nat) by (eapply lookup_lt_Some; eassumption).
  destruct (Z.ltb_spec (Z.of_nat (length result)) 2) as [Hlt | _]; [lia |].
  rewrite H1. cbn [asString]. now rewrite (proj2 (negb_eqb_true _ _) Hne).
Qed.

Lemma subscribe_refused_nicehash (s : StratumSession) (resp : JSONRPCResponse)
    (result notify : list JSON) (id nonce own : string) :
  protocolType s = ProtocolEthereumStratumNiceHash ->
  resp_Result resp = JArr result -> result !! 0%nat = Some (JArr notify) ->
  notify !! 1%nat = Some (JStr id) -> result !! 1%nat = Some (JStr nonce) ->
  sessionExtraNonce s = Some own ->
  id <> sessionIDString s \/ nonce <> own ->
  stratumHandleServerSubscribeResponse s resp = Returns (Some ErrSessionIDInconformity).
Proof.
  intros Hp Hres H0 Hn H1 Hown Hne. unfold stratumHandleServerSubscribeResponse.
  rewrite Hp, Hres. cbn [asArray].
  assert (Hlen : (1 < length result)%nat) by (eapply lookup_lt_Some; eassumption).
  destruct (Z.ltb_spec (Z.of_nat (length result)) 2) as [Hlt | _]; [lia |].
  rewrite H0, H1. cbn [asArray]. rewrite Hn. cbn [asString]. rewrite Hown.
  destruct (String.eqb id (sessionIDString s)) eqn:E; cbn [negb]; [| reflexivity].
  apply String.eqb_eq in E. destruct Hne as [Hne | Hne]; [contradiction |].
  now rewrite (proj2 (negb_eqb_true _ _) Hne).
Qed.

Lemma authLoop_subscribe_refused (pre rest : list Line) (l : Line) (r : JSONRPCResponse)
    (e : error) (w : World) m cached :
  Handshaking w m cached (pre ++ l :: rest) ->
  Forall (harmless (session w)) pre -> (length (omap authReplyOf pre) <= 1)%nat ->
  asResponse l = Some r -> asString (resp_ID r) = Some "subscribe" ->
  stratumHandleServerSubscribeResponse (session w) r = Returns (Some e) ->
  authLoop (pre ++ l :: rest) (mkAuthState 0 zeroResponse 0 false) w =
  Done (inl e)
       (served rest
          (replicate (resends 0 pre)
             (ServerGets (upstreamAuthorize cached (suffixedWorkerName m (session w))))) w).
Proof.
  intros Hhs Hpre Hone Hresp Hid Hsub.
  assert (Hcnt : authMsgCounter (mkAuthState 0 zeroResponse 0 false) +
                 Z.of_nat (length (omap authReplyOf pre)) < 2)
    by (cbn [authMsgCounter]; lia).
  rewrite (authLoop_prefix pre _ (mkAuthState 0 zeroResponse 0 false) _ _ _ Hhs eq_refl Hcnt Hpre).
  cbn [authMsgCounter authResponse allowedVersionMask].
  assert (Hhs1 : Handshaking (served (l :: rest)
                   (replicate (resends 0 pre)
                      (ServerGets (upstreamAuthorize cached
                                     (suffixedWorkerName m (session w))))) w)
                   m cached (l :: rest)) by (eapply Handshaking_served; eassumption).
  assert (Hlt : (0 + Z.of_nat (length (omap authReplyOf pre)) <? 2) = true)
    by (apply Z.ltb_lt; lia).
  assert (Hnn : notNil (resp_ID r) = true) by (now destruct (resp_ID r)).
  set (st1 := mkAuthState _ _ _ false).
  rewrite (authLoop_response l rest st1 _ m cached r Hhs1 Hlt Hresp Hnn).
  unfold stratumHandleServerResponse at 1. rewrite Hid.
  change (String.eqb "subscribe" "configure") with false.
  change (String.eqb "subscribe" "subscribe") with true. cbv beta iota.
  unfold bind at 1. unfold bind at 1, getSession at 1.
  rewrite !session_served, Hsub. cbn [returned]. unfold ret at 1. unfold bind at 1, ret at 1.
  unfold ret. rewrite served_served, app_nil_r. reflexivity.
Qed.

Lemma readServerReplies_subscribe_refused (pre rest : list Line) (l : Line)
    (r : JSONRPCResponse) (e : error) (w : World) m cached :
  Handshaking w m cached (pre ++ l :: rest) ->
  Forall (harmless (session w)) pre -> (length (omap authReplyOf pre) <= 1)%nat ->
  asResponse l = Some r -> asString (resp_ID r) = Some "subscribe" ->
  stratumHandleServerSubscribeResponse (session w) r = Returns (Some e) ->
  readServerReplies w =
  Done (Some e)
       (served rest
          (replicate (resends 0 pre)
             (ServerGets (upstreamAuthorize cached (suffixedWorkerName m (session w))))) w).
Proof.
  intros Hhs Hpre Hone Hresp Hid Hsub.
  pose proof (authLoop_subscribe_refused _ _ _ _ _ _ _ _ Hhs Hpre Hone Hresp Hid Hsub) as Hloop.
  destruct Hhs as [Hr Hc Hm _ Hn].
  unfold readServerReplies. unfold bind at 1, getWorld at 1. rewrite Hc. cbn [pending].
  rewrite (bind_Done _ _ _ _ _ Hloop). reflexivity.
Qed.


Lemma clientResponses_sends (k : nat) (r : JSONRPCRequest) :
  clientResponses (replicate k (ServerGets r)) = [].
Proof. induction k as [| k IH]; [reflexivity | exact IH]. Qed.

(** C2, amended.  The upstream subscribe request that the session sends
    carries, on the Bitcoin protocol, the big-endian hex of the session id as
    its second parameter and, on the Ethereum protocols, [sessionIDString] as
    its third.  For a session that [NewStratumSession] made on the Bitcoin
    chain the two are the same string (on the Decred chains they are not).
    A subscribe reply that the session accepts embeds [sessionIDString]: as
    result[1] on the Bitcoin protocol; as result[0][1], with the possibly
    truncated extranonce as result[1], on NiceHash Ethereum; on the other
    Ethereum protocols the result is [true].  A reply whose embedded
    identifier (or extranonce) differs is refused with
    [ErrSessionIDInconformity].  When the handshake reads a subscribe reply
    that is refused, after lines that do not end the handshake and hold at
    most one refused authorization, the reader goroutine ends with the error
    of the refusal before the client gets any response, and that error is
    what [connectStratumServer] returns for the attempt that sent the
    requests: inside a reconnect the session then sleeps and makes its next
    attempt, and on its first connection, in [runProxyStratum], the session
    is stopped.  An authorize reply that accepts ends the handshake: the
    lines after it, whatever they are, are left unread. *)
Theorem C2_subscribe_session_id (w : World) (s : StratumSession) (resp : JSONRPCResponse) :
  (forall (w' : World) (ua proto : string),
     sendMiningSubscribeToServer w = Done (ua, proto, None) w' ->
     exists req, last (trace w') = Some (ServerGets req) /\
       match protocolType (session w) with
       | ProtocolBitcoinStratum =>
           req_Params req !! 1%nat = Some (JStr (Hex.Uint32ToHex (sessionID (session w))))
       | _ => req_Params req !! 2%nat = Some (JStr (sessionIDString (session w)))
       end) /\
  (forall (mgr : StratumSessionManager) (addr : string) (sid : Z) (s0 : StratumSession),
     NewStratumSession mgr addr sid = Some s0 -> chainType mgr = ChainTypeBitcoin ->
     Hex.Uint32ToHex (sessionID s0) = sessionIDString s0) /\
  (stratumHandleServerSubscribeResponse s resp = Returns None ->
   match protocolType s with
   | ProtocolBitcoinStratum =>
       exists result, resp_Result resp = JArr result /\
                      result !! 1%nat = Some (JStr (sessionIDString s))
   | ProtocolEthereumStratumNiceHash =>
       exists result notify nonce,
         resp_Result resp = JArr result /\ result !! 0%nat = Some (JArr notify) /\
         notify !! 1%nat = Some (JStr (sessionIDString s)) /\
         sessionExtraNonce s = Some nonce /\ result !! 1%nat = Some (JStr nonce)
   | ProtocolEthereumStratum | ProtocolEthereumProxy => resp_Result resp = JBool true
   | ProtocolUnknown => False
   end) /\
  (forall (result : list JSON) (id : string),
     protocolType s = ProtocolBitcoinStratum ->
     resp_Result resp = JArr result -> result !! 1%nat = Some (JStr id) ->
     id <> sessionIDString s ->
     stratumHandleServerSubscribeResponse s resp = Returns (Some ErrSessionIDInconformity)) /\
  (forall (result notify : list JSON) (id nonce own : string),
     protocolType s = ProtocolEthereumStratumNiceHash ->
     resp_Result resp = JArr result -> result !! 0%nat = Some (JArr notify) ->
     notify !! 1%nat = Some (JStr id) -> result !! 1%nat = Some (JStr nonce) ->
     sessionExtraNonce s = Some own ->
     id <> sessionIDString s \/ nonce <> own ->
     stratumHandleServerSubscribeResponse s resp = Returns (Some ErrSessionIDInconformity)) /\
  (forall (m : StratumSessionManager) (cached : JSONRPCRequest) (pre rest : list Line)
          (l : Line) (e : error),
     Handshaking w m cached (pre ++ l :: rest) ->
     Forall (harmless (session w)) pre -> (length (omap authReplyOf pre) <= 1)%nat ->
     asResponse l = Some resp -> asString (resp_ID resp) = Some "subscribe" ->
     stratumHandleServerSubscribeResponse (session w) resp = Returns (Some e) ->
     exists wf,
       readServerReplies w = Done (Some e) wf /\
       clientResponses (trace wf) = clientResponses (trace w) /\
       forall w2 : World,
         Sent w2 w ->
         connectStratumServer w2 = Done (Some e) wf /\
         (forall (n : nat) (e0 : option error),
            reconnectLoop (S n) e0 w2
            = reconnectLoop n (Some e) (set_trace (trace wf ++ [Slept]) wf)) /\
         (forall (w0 w1 : World) (m0 : StratumSessionManager),
            stratumFindWorkerName w0 = Done None w1 -> manager (session w1) = Some m0 ->
            findMiningCoin (enableUserAutoReg m0) w1 = Done None w2 ->
            locked w = false -> runningStat (session w) <> StatStoped ->
            exists w4, runProxyStratum w0 = Done tt w4 /\
                       runningStat (session w4) = StatStoped /\ clientConn w4 = closed /\
                       clientResponses (trace w4) = clientResponses (trace w))) /\
  (forall (m : StratumSessionManager) (cached : JSONRPCRequest) (pre rest : list Line)
          (l : Line) (r : JSONRPCResponse),
     Handshaking w m cached (pre ++ l :: rest) -> writable (clientConn w) = true ->
     Forall (harmless (session w)) pre -> (length (omap authReplyOf pre) <= 1)%nat ->
     authReplyOf l = Some r -> accepts r ->
     exists evs,
       readServerReplies w = Done None (served rest evs w) /\
       serverConn (served rest evs w) = Some (mkConn rest true) /\
       forall w2 : World,
         Sent w2 w -> connectStratumServer w2 = Done None (served rest evs w)).
Proof.
  split; [| split; [| split; [| split; [| split; [| split]]]]].
  - intros w' ua proto Hrun.
    destruct (sendMiningSubscribeToServer_Done _ _ _ _ _ Hrun)
      as (p & r0 & ip & _ & _ & _ & _ & Htrace).
    eexists. rewrite (Htrace eq_refl), last_app. split; [reflexivity |].
    cbn [req_Params]. unfold upstreamSubscribeParams.
    now destruct (protocolType (session w)).
  - intros mgr addr sid s0 Hnew Hchain. unfold NewStratumSession in Hnew.
    rewrite Hchain in Hnew. now injection Hnew as <-.
  - apply subscribe_accepted.
  - intros result id. apply subscribe_refused_bitcoin.
  - intros result notify id nonce own. apply subscribe_refused_nicehash.
  - intros m cached pre rest l e Hhs Hpre Hone Hresp Hid Hsub.
    pose proof (readServerReplies_subscribe_refused _ _ _ _ _ _ _ _
                  Hhs Hpre Hone Hresp Hid Hsub) as Hread.
    set (wf := served rest _ w) in Hread.
    assert (Hsame : clientResponses (trace wf) = clientResponses (trace w)).
    { subst wf. rewrite trace_served. unfold clientResponses at 1. rewrite omap_app.
      fold (clientResponses (trace w)).
      fold (clientResponses (replicate (resends 0 pre)
              (ServerGets (upstreamAuthorize cached (suffixedWorkerName m (session w)))))).
      now rewrite clientResponses_sends, app_nil_r. }
    exists wf. split; [exact Hread |]. split; [exact Hsame |].
    intros w2 Hsent. split; [now rewrite (connect_sent _ _ Hsent) |].
    split; [intros n e0; exact (reconnectLoop_handshake_error _ _ _ _ n e0 Hsent Hread) |].
    intros w0 w1 m0 Hfind Hm0 Hcoin Hlock Hstat.
    assert (Hlf : locked wf = false) by (subst wf; now rewrite locked_served).
    assert (Hsf : runningStat (session wf) <> StatStoped)
      by (subst wf; now rewrite session_served).
    assert (Hmf : manager (session wf) = Some m)
      by (subst wf; rewrite session_served; now destruct Hhs).
    destruct (runProxyStratum_handshake_error _ _ _ _ _ _ _ _ Hfind Hm0 Hcoin Hsent Hread
                Hlf Hsf Hmf) as (w4 & Hrun & Hs4 & Hc4 & Hresp4).
    exists w4. split; [exact Hrun |]. split; [exact Hs4 |]. split; [exact Hc4 |].
    now rewrite Hresp4.
  - intros m cached pre rest l r Hhs Hwr Hpre Hone Hl Hyes.
    pose proof (readServerReplies_after_loop _ _ _ _ _ _ _ Hhs Hwr
                  (authLoop_acceptance _ _ _ _ _ _ _ Hhs Hpre Hone Hl Hyes)) as Hread.
    cbn [authSuccess] in Hread.
    eexists. split; [exact Hread |]. split.
    + destruct Hhs as [_ Hc _ _ _]. unfold served. rewrite Hc. now destruct w.
    + intros w2 Hsent. now rewrite (connect_sent _ _ Hsent).
Qed.

Lemma keepsStore_ret {A : Type} (a : A) : keepsStore (ret a).
Proof. intros w w' a' [= _ <-]. now split. Qed.

Lemma keepsStore_panic {A : Type} : keepsStore (@panic A).
Proof. intros w w' a' Hrun. discriminate Hrun. Qed.

Lemma keepsStore_bind {A B : Type} (m : M A) (k : A -> M B) :
  keepsStore m -> (forall a, keepsStore (k a)) -> keepsStore (bind m k).
Proof.
  intros Hm Hk w w' b. unfold bind.
  destruct (m w) as [a w1| |] eqn:Em; try discriminate.
  intros Hrun. destruct (Hm _ _ _ Em) as [Hr Hs], (Hk a _ _ _ Hrun) as [Hr' Hs'].
  split; congruence.
Qed.

Lemma keepsStore_getWorld : keepsStore getWorld.
Proof. intros w w' a [= _ <-]. now split. Qed.

Lemma keepsStore_getSession : keepsStore getSession.
Proof. intros w w' a [= _ <-]. now split. Qed.

Lemma keepsStore_emit (e : Event) : keepsStore (emit e).
Proof. intros w w' [] [= <-]. destruct w. now split. Qed.

Lemma keepsStore_theManager : keepsStore theManager.
Proof.
  apply keepsStore_bind; [apply keepsStore_getSession |].
  intros s. destruct (manager s); [apply keepsStore_ret | apply keepsStore_panic].
Qed.

Lemma keepsStore_loadRequest (p : option nat) : keepsStore (loadRequest p).
Proof. intros w w' r Hrun. now destruct (loadRequest_Done _ _ _ _ Hrun) as [-> _]. Qed.

Lemma keepsStore_writeJSONRequestToServer (r : JSONRPCRequest) :
  keepsStore (writeJSONRequestToServer r).
Proof.
  apply keepsStore_bind; [apply keepsStore_getWorld |].
  intros w. destruct (serverConn w) as [c|]; [| apply keepsStore_panic].
  destruct (writable c); [| apply keepsStore_ret].
  apply keepsStore_bind; [apply keepsStore_emit | intros; apply keepsStore_ret].
Qed.

(** The request that [sendMiningAuthorizeToServer] sends is a new object:
    the request objects and the session stay as they are. *)
Lemma sendMiningAuthorizeToServer_frame (withSuffix : bool) :
  keepsStore (sendMiningAuthorizeToServer withSuffix).
Proof.
  apply keepsStore_bind; [apply keepsStore_getSession |]. intros s.
  apply keepsStore_bind.
  { destruct withSuffix; [| apply keepsStore_ret].
    apply keepsStore_bind; [| intros; apply keepsStore_ret].
    apply keepsStore_bind; [apply keepsStore_theManager |]. intros m.
    apply keepsStore_bind; [apply keepsStore_getSession |]. intros s'.
    destruct (stratumServerInfoMap m !! miningCoin s'); apply keepsStore_ret. }
  intros name. apply keepsStore_bind; [apply keepsStore_loadRequest |]. intros cached.
  cbv zeta. destruct (req_Params cached); [apply keepsStore_panic |].
  apply keepsStore_bind; [apply keepsStore_writeJSONRequestToServer |].
  intros; apply keepsStore_ret.
Qed.

(** C3 is not what the code does.  Whenever [sendMiningSubscribeToServer]
    returns, the cached subscribe request, which is the object that
    [session.stratumSubscribeRequest] points to, has the id "subscribe" and
    the rewritten parameters, and it is this object that was sent; while
    [sendMiningAuthorizeToServer] leaves every request object as it is.  For
    a Bitcoin session with the id 1 whose miner subscribed with the id 1 and
    the one parameter cgminer/4.11, the cached subscribe request has, after
    the send, the id subscribe and three parameters: cgminer/4.11, 00000001
    and the client address as a number. *)
Theorem C3_cached_subscribe_is_overwritten :
  (forall (w w' : World) (ua proto : string) (e : option error),
     sendMiningSubscribeToServer w = Done (ua, proto, e) w' ->
     exists (p : nat) (before after : JSONRPCRequest),
       stratumSubscribeRequest (session w') = Some p /\
       requests w !! p = Some before /\ requests w' !! p = Some after /\
       req_ID after = JStr "subscribe" /\
       length (req_Params after) = match protocolType (session w) with
                                   | ProtocolBitcoinStratum => 3%nat
                                   | _ => 4%nat
                                   end /\
       (e = None -> last (trace w') = Some (ServerGets after))) /\
  (forall (withSuffix : bool) (w w' : World) (res : string * string * option error),
     sendMiningAuthorizeToServer withSuffix w = Done res w' ->
     requests w' = requests w) /\
  (let w := Demo.connected ChainTypeBitcoin 1 Demo.minerHello [] in
   stratumSubscribeRequest (session w) = Some 0%nat /\
   requests w !! 0%nat
   = Some (mkRequest (JNum 1) "mining.subscribe" [JStr "cgminer/4.11"] "") /\
   exists w' : World,
     @sendMiningSubscribeToServer Demo.externals w
     = Done ("cgminer/4.11", "Stratum", None) w' /\
     requests w' !! 0%nat
     = Some (mkRequest (JStr "subscribe") "mining.subscribe"
               [JStr "cgminer/4.11"; JStr "00000001"; JNum 167772162] "")).
Proof.
  split; [| split].
  - intros w w' ua proto e Hrun.
    destruct (sendMiningSubscribeToServer_Done _ _ _ _ _ Hrun)
      as (p & r0 & ip & Hp & Hr0 & Hreq & Hsess & Htrace).
    exists p, r0. eexists. rewrite Hsess, Hreq.
    split; [exact Hp |]. split; [exact Hr0 |].
    split; [apply list_lookup_insert_eq; eapply lookup_lt_Some; eassumption |].
    split; [reflexivity |]. split.
    + unfold upstreamSubscribeParams. now destruct (protocolType (session w)).
    + intros He. rewrite (Htrace He). now rewrite last_app.
  - intros withSuffix w w' res Hrun.
    now destruct (sendMiningAuthorizeToServer_frame _ _ _ _ Hrun).
  - split; [reflexivity |]. split; [reflexivity |].
    eexists. split; [vm_compute; reflexivity | reflexivity].
Qed.

End Upstream.

(** The attempt of the session of [Demo.handshaken] reaches the world of
    [Demo.sent]. *)
Lemma Demo_sent (chain : ChainType) (dials : list (list Line)) (lines : list Line)
    (wa wb : World) :
  let w2 := Demo.handshaken chain 1 Demo.minerHello dials in
  manager (session w2) = Some (Demo.theManagerOf chain) ->
  stratumAuthorizeRequest (session w2) = Some 1%nat ->
  is_Some (requests w2 !! 1%nat) ->
  miningCoin (session w2) = "btc" ->
  network w2 = Some (mkConn lines true) :: [] ->
  sendMiningConfigureToServer (dialed "10.0.0.1:3333" (mkConn lines true) [] w2)
  = Done None wa ->
  @sendMiningSubscribeToServer Demo.externals wa = Done ("cgminer/4.11", "Stratum", None) wb ->
  sendMiningAuthorizeToServer false wb
  = Done ("alice.rig1", "x", None) (Demo.sent chain 1 Demo.minerHello dials) ->
  @Sent Demo.externals w2 (Demo.sent chain 1 Demo.minerHello dials).
Proof.
  intros w2 Hm Hp Hr Hcoin Hnet Hconf Hsub Hauth.
  exists (Demo.theManagerOf chain), (mkServerInfo "10.0.0.1:3333" "btc"),
    (mkConn lines true), [], wa, wb, "cgminer/4.11", "Stratum", "alice.rig1", "x".
  split; [exact Hm |]. split; [intros p Hq; rewrite Hp in Hq; now injection Hq as <- |].
  split; [rewrite Hcoin; now destruct chain |]. split; [exact Hnet |].
  split; [exact Hconf |]. split; [exact Hsub | exact Hauth].
Qed.

(** C2 on a Bitcoin session with the id 1: the request carries 00000001, a
    reply that embeds 00000001 is accepted and one that embeds 00000002 is
    refused; and when the upstream answers the subscription with 00000002,
    the first connection of the session fails with the error of the refusal
    and the session is stopped before the client gets a response to its
    authorization. *)
Lemma C2_subscribe_witness :
  let w := Demo.connected ChainTypeBitcoin 1 Demo.minerHello [] in
  let reply := fun id => mkResponse (JStr "subscribe") (JArr [JArr []; JStr id; JNum 8]) JNull in
  let lines := [Demo.subscribedWith "00000002"; Demo.accepted] in
  let v0 := Demo.worldOf (Demo.running ChainTypeBitcoin 1) Demo.minerHello [lines] in
  let v2 := Demo.handshaken ChainTypeBitcoin 1 Demo.minerHello [lines] in
  let v := Demo.sent ChainTypeBitcoin 1 Demo.minerHello [lines] in
  (exists (w' : World) (req : JSONRPCRequest),
     @sendMiningSubscribeToServer Demo.externals w = Done ("cgminer/4.11", "Stratum", None) w' /\
     last (trace w') = Some (ServerGets req) /\
     req_Params req !! 1%nat = Some (JStr "00000001") /\
     sessionIDString (session w) = "00000001" /\
     stratumHandleServerSubscribeResponse (session w) (reply "00000001") = Returns None /\
     stratumHandleServerSubscribeResponse (session w) (reply "00000002")
     = Returns (Some ErrSessionIDInconformity)) /\
  @Sent Demo.externals v2 v /\
  exists vf v4 : World,
    readServerReplies v = Done (Some ErrSessionIDInconformity) vf /\
    @connectStratumServer Demo.externals v2 = Done (Some ErrSessionIDInconformity) vf /\
    @runProxyStratum Demo.externals v0 = Done tt v4 /\
    runningStat (session v4) = StatStoped /\
    clientResponses (trace v4) = clientResponses (trace v).
Proof.
  intros w reply lines v0 v2 v. split.
  - destruct (@C2_subscribe_session_id Demo.externals w (session w) (reply "00000002"))
      as (Hsend & _ & _ & Hrefuse & _).
    assert (Hrun : exists w', @sendMiningSubscribeToServer Demo.externals w
                              = Done ("cgminer/4.11", "Stratum", None) w')
      by (eexists; vm_compute; reflexivity).
    destruct Hrun as [w' Hrun].
    destruct (Hsend _ _ _ Hrun) as (req & Hlast & Hparam).
    exists w', req. split; [exact Hrun |]. split; [exact Hlast |].
    split; [exact Hparam |]. split; [reflexivity |]. split; [vm_compute; reflexivity |].
    apply (Hrefuse [JArr []; JStr "00000002"; JNum 8] "00000002");
      try reflexivity; discriminate.
  - assert (Hhs : Handshaking v (Demo.theManagerOf ChainTypeBitcoin) Demo.helloAuthorize
                    ([] ++ Demo.subscribedWith "00000002" :: [Demo.accepted])).
    { split; try (vm_compute; reflexivity); [| discriminate].
      exists 1%nat. split; vm_compute; reflexivity. }
    assert (Hsent : @Sent Demo.externals v2 v).
    { eapply (Demo_sent ChainTypeBitcoin [lines] lines); try (vm_compute; reflexivity).
      eexists; vm_compute; reflexivity. }
    assert (Hone : (length (omap authReplyOf (@nil Line)) <= 1)%nat) by (cbn; lia).
    assert (Hsub : stratumHandleServerSubscribeResponse (session v) (reply "00000002")
                   = Returns (Some ErrSessionIDInconformity)) by (vm_compute; reflexivity).
    destruct (proj1 (proj2 (proj2 (proj2 (proj2 (proj2
                (@C2_subscribe_session_id Demo.externals v (session v) (reply "00000002")))))))
                _ _ [] [Demo.accepted] _ _ Hhs (List.Forall_nil _) Hone eq_refl eq_refl Hsub)
      as (vf & Hread & _ & Hafter).
    destruct (Hafter v2 Hsent) as (Hconn & _ & Hstop).
    assert (Hfind : exists v1, @stratumFindWorkerName Demo.externals v0 = Done None v1 /\
                               manager (session v1) = Some (Demo.theManagerOf ChainTypeBitcoin) /\
                               @findMiningCoin Demo.externals false v1 = Done None v2)
      by (eexists; split; [vm_compute; reflexivity |]; split; vm_compute; reflexivity).
    destruct Hfind as (v1 & Hfind & Hm1 & Hcoin).
    assert (Hlock : locked v = false) by (vm_compute; reflexivity).
    assert (Hstat : runningStat (session v) <> StatStoped) by (vm_compute; discriminate).
    destruct (Hstop v0 v1 _ Hfind Hm1 Hcoin Hlock Hstat) as (v4 & Hrun4 & Hs4 & _ & Hresp).
    split; [exact Hsent |]. exists vf, v4.
    split; [exact Hread |]. split; [exact Hconn |]. split; [exact Hrun4 |].
    split; [exact Hs4 | exact Hresp].
Defined.

(** C2 as stated fails.  On Decred the subscribe request carries 00000001
    for the session id 1, the reply that the session accepts must embed
    000000000000000001000000, and an upstream that echoes the identifier of
    the request gets the session stopped.  And on Bitcoin a subscribe reply
    with another identifier that arrives after the accepted authorization
    does not end the session: the handshake leaves it unread, and the session
    is registered and runs. *)
Lemma C2_fails_on_decred_and_on_late_replies :
  let w := Demo.connected ChainTypeDecredNormal 1 Demo.minerHello [] in
  let echoing := Demo.worldOf (Demo.running ChainTypeDecredNormal 1) Demo.minerHello
                   [[Demo.subscribedWith "00000001"; Demo.accepted]] in
  let late := Demo.worldOf (Demo.running ChainTypeBitcoin 1) Demo.minerHello
                [[Demo.accepted; Demo.subscribedWith "deadbeef"]] in
  (exists (w' w'' : World) (req : JSONRPCRequest),
     @sendMiningSubscribeToServer Demo.externals w = Done ("cgminer/4.11", "Stratum", None) w' /\
     last (trace w') = Some (ServerGets req) /\
     req_Params req !! 1%nat = Some (JStr "00000001") /\
     sessionIDString (session w') = "000000000000000001000000" /\
     stratumHandleServerSubscribeResponse (session w')
       (mkResponse (JStr "subscribe")
                   (JArr [JArr []; JStr "000000000000000001000000"; JNum 8]) JNull)
     = Returns None /\
     stratumHandleServerSubscribeResponse (session w')
       (mkResponse (JStr "subscribe") (JArr [JArr []; JStr "00000001"; JNum 8]) JNull)
     = Returns (Some ErrSessionIDInconformity) /\
     @runProxyStratum Demo.externals echoing = Done tt w'' /\
     runningStat (session w'') = StatStoped) /\
  (exists w3 : World,
     @runProxyStratum Demo.externals late = Done tt w3 /\
     runningStat (session w3) = StatRunning /\ In Registered (trace w3) /\
     serverConn w3 = Some (mkConn [Demo.subscribedWith "deadbeef"] true) /\
     stratumHandleServerSubscribeResponse (session w3)
       (mkResponse (JStr "subscribe") (JArr [JArr []; JStr "deadbeef"; JNum 8]) JNull)
     = Returns (Some ErrSessionIDInconformity)).
Proof.
  intros w echoing late. split.
  - eexists. eexists. eexists.
    split; [vm_compute; reflexivity |].
    split; [vm_compute; reflexivity |].
    split; [reflexivity |]. split; [reflexivity |].
    split; [vm_compute; reflexivity |]. split; [vm_compute; reflexivity |].
    split; [vm_compute; reflexivity | reflexivity].
  - eexists. split; [vm_compute; reflexivity |].
    split; [reflexivity |]. split; [vm_compute; tauto |].
    split; [reflexivity | vm_compute; reflexivity].
Qed.

(** C1 on a Bitcoin session whose upstream accepts the subscription and
    refuses both authorize attempts: the client reads the second refusal,
    and the session, which connects for the first time, is stopped. *)
Lemma C1_authorize_retry_witness :
  let lines := [Demo.subscribed; Demo.refusedFirst; Demo.refusedSecond] in
  let w0 := Demo.worldOf (Demo.running ChainTypeBitcoin 1) Demo.minerHello [lines] in
  let w2 := Demo.handshaken ChainTypeBitcoin 1 Demo.minerHello [lines] in
  let w := Demo.sent ChainTypeBitcoin 1 Demo.minerHello [lines] in
  let refusal := mkResponse (JNum 2) (JBool false) (JStr "second refusal") in
  Handshaking w (Demo.theManagerOf ChainTypeBitcoin) Demo.helloAuthorize lines /\
  @Sent Demo.externals w2 w /\
  exists w' w4,
    readServerReplies w = Done (Some (errors_New "Authorize Failed for Server")) w' /\
    In (ServerGets (mkRequest (JStr "auth") "mining.authorize"
                              [JStr "alice_btc.rig1"; JStr "x"] "")) (trace w') /\
    last (trace w') = Some (ClientGetsResponse refusal 1) /\
    @connectStratumServer Demo.externals w2
    = Done (Some (errors_New "Authorize Failed for Server")) w' /\
    @runProxyStratum Demo.externals w0 = Done tt w4 /\
    runningStat (session w4) = StatStoped /\
    last (clientResponses (trace w4)) = Some refusal.
Proof.
  intros lines w0 w2 w refusal.
  assert (Hhs : Handshaking w (Demo.theManagerOf ChainTypeBitcoin) Demo.helloAuthorize
                  ([Demo.subscribed; Demo.refusedFirst] ++ Demo.refusedSecond :: [])).
  { split; try (vm_compute; reflexivity); [| discriminate].
    exists 1%nat. split; vm_compute; reflexivity. }
  assert (Hpre : Forall (harmless (session w)) [Demo.subscribed; Demo.refusedFirst]).
  { constructor; [| constructor; [| constructor]].
    - right. eexists. split; [reflexivity |]. split; [reflexivity |].
      split; [discriminate | intros _; vm_compute; reflexivity].
    - right. eexists. split; [reflexivity |]. split; [reflexivity |].
      split; [intros _; discriminate | discriminate]. }
  assert (Hno : ~ accepts (mkResponse (JStr "auth") (JBool false) (JStr "second refusal")))
    by discriminate.
  assert (Hsent : @Sent Demo.externals w2 w).
  { eapply (Demo_sent ChainTypeBitcoin [lines] lines); try (vm_compute; reflexivity).
    eexists; vm_compute; reflexivity. }
  assert (Hwr : writable (clientConn w) = true) by (vm_compute; reflexivity).
  assert (Hone : omap authReplyOf [Demo.subscribed; Demo.refusedFirst]
                 = [mkResponse (JStr "auth") (JBool false) (JStr "first refusal")])
    by (vm_compute; reflexivity).
  assert (Hl2 : authReplyOf Demo.refusedSecond
                = Some (mkResponse (JStr "auth") (JBool false) (JStr "second refusal")))
    by (vm_compute; reflexivity).
  destruct (@C1_authorize_retry Demo.externals w _ _ _ [] _ _ _ Hhs Hwr Hpre Hone Hl2 Hno)
    as (_ & Hk & Hrun & Hafter).
  destruct (Hafter w2 Hsent) as (Hconn & _ & Hstop).
  assert (Hfind : exists w1, @stratumFindWorkerName Demo.externals w0 = Done None w1 /\
                             manager (session w1) = Some (Demo.theManagerOf ChainTypeBitcoin) /\
                             @findMiningCoin Demo.externals false w1 = Done None w2)
    by (eexists; split; [vm_compute; reflexivity |]; split; vm_compute; reflexivity).
  destruct Hfind as (w1 & Hfind & Hm1 & Hcoin).
  assert (Hlock : locked w = false) by (vm_compute; reflexivity).
  assert (Hstat : runningStat (session w) <> StatStoped) by (vm_compute; discriminate).
  destruct (Hstop w0 w1 _ Hfind Hm1 Hcoin Hlock Hstat) as (w4 & Hrun4 & Hs4 & _ & Hlast).
  split; [exact Hhs |]. split; [exact Hsent |]. eexists. exists w4.
  split; [exact Hrun |]. rewrite trace_served. split.
  - apply in_or_app. right. apply in_or_app. left.
    destruct (resends 0 [Demo.subscribed; Demo.refusedFirst]) as [| k];
      [lia | left; vm_compute; reflexivity].
  - split; [now rewrite !last_app |]. split; [exact Hconn |]. split; [exact Hrun4 |].
    split; [exact Hs4 | exact Hlast].
Defined.

(** C1 as stated fails: when both authorize attempts are refused, the
    client reads the second refusal, not the first, and the session is
    stopped. *)
Lemma C1_first_refusal_is_not_reported :
  let w := Demo.worldOf (Demo.running ChainTypeBitcoin 1) Demo.minerHello
             [[Demo.subscribed; Demo.refusedFirst; Demo.refusedSecond]] in
  exists w',
    @runProxyStratum Demo.externals w = Done tt w' /\
    runningStat (session w') = StatStoped /\
    authReplyOf Demo.refusedFirst =
      Some (mkResponse (JStr "auth") (JBool false) (JStr "first refusal")) /\
    last (clientResponses (trace w')) =
      Some (mkResponse (JNum 2) (JBool false) (JStr "second refusal")).
Proof.
  intros w. eexists. split; [vm_compute; reflexivity |].
  split; [reflexivity |]. split; reflexivity.
Qed.

(** C5 on a Bitcoin session whose miner asked for the mask 1fffe000 and
    whose upstream announces 00ffe000 before it accepts the authorization. *)
Lemma C5_version_mask_witness :
  let lines := [Demo.subscribed; Demo.maskNotify "00ffe000"; Demo.accepted] in
  let w := Demo.awaiting ChainTypeBitcoin 1 Demo.rollingHello lines in
  Handshaking w (Demo.theManagerOf ChainTypeBitcoin) Demo.helloAuthorize lines /\
  versionMask (session w) = 536862720 /\
  exists evs w',
    readServerReplies w = Done None w' /\ trace w' = (trace w ++ evs)%list /\
    clientNotifies evs = [mkRequest JNull "mining.set_version_mask" [JStr "00ffe000"] ""].
Proof.
  intros lines w.
  assert (Hhs : Handshaking w (Demo.theManagerOf ChainTypeBitcoin) Demo.helloAuthorize
                  ([Demo.subscribed; Demo.maskNotify "00ffe000"] ++ Demo.accepted :: [])).
  { split; try (vm_compute; reflexivity); [| discriminate].
    exists 2%nat. split; vm_compute; reflexivity. }
  assert (Hpre : Forall (harmless (session w))
                   [Demo.subscribed; Demo.maskNotify "00ffe000"]).
  { constructor; [| constructor; [| constructor]].
    - right. eexists. split; [reflexivity |]. split; [reflexivity |].
      split; [discriminate | intros _; vm_compute; reflexivity].
    - left. reflexivity. }
  assert (Hone : (length (omap authReplyOf [Demo.subscribed; Demo.maskNotify "00ffe000"])
                  <= 1)%nat) by (vm_compute; lia).
  destruct (C5_version_mask_notification w _ _ _ [] _ _ Hhs eq_refl Hpre Hone eq_refl
              eq_refl) as (evs & Hrun & Hmask & _).
  split; [exact Hhs |]. split; [vm_compute; reflexivity |].
  exists evs. eexists. split; [exact Hrun |]. split; [apply trace_served |].
  destruct Hmask as (Hn & _); [vm_compute; discriminate |]. rewrite Hn.
  vm_compute. reflexivity.
Defined.

(** ** Stopping, reconnecting and switching under the lock *)

Section Switching.
Context `{Externals}.


End Switching.



(** ** The seeder *)

Section SeederFacts.
Import GoStrings Seeder.

Lemma append_cons (c : ascii) (s t : string) : String c s ++ t = String c (s ++ t).
Proof. reflexivity. Qed.

Lemma append_empty (t : string) : "" ++ t = t.
Proof. reflexivity. Qed.

Lemma Index_LastIndex_neg (s sub : string) : LastIndex s sub < 0 <-> Index s sub < 0.
Proof.
  induction s as [| c s IH]; cbn [Index LastIndex].
  - destruct (HasPrefix "" sub); lia.
  - destruct (HasPrefix (String c s) sub).
    + destruct (Z.ltb_spec (LastIndex s sub) 0); lia.
    + destruct (Z.ltb_spec (LastIndex s sub) 0), (Z.ltb_spec (Index s sub) 0); lia.
Qed.

Lemma LastIndex_after (base tail : string) :
  Contains tail "_" = false -> LastIndex (base ++ "_" ++ tail) "_" = len base.
Proof.
  intros Hno. unfold Contains in Hno. apply Z.leb_gt in Hno.
  apply Index_LastIndex_neg in Hno.
  induction base as [| c base IH].
  - rewrite append_empty, append_cons, append_empty. cbn [LastIndex HasPrefix].
    change (Ascii.eqb "_" "_") with true. cbv iota.
    destruct (Z.ltb_spec (LastIndex tail "_") 0); [reflexivity | lia].
  - rewrite append_cons. cbn [LastIndex]. rewrite IH.
    unfold len. cbn [String.length].
    destruct (Z.ltb_spec (Z.of_nat (String.length base)) 0); lia.
Qed.

Lemma Contains_middle (base tail sub : string) :
  Contains (base ++ sub ++ tail) sub = true.
Proof.
  unfold Contains. apply Z.leb_le.
  assert (Hp : forall s t, HasPrefix (s ++ t) s = true).
  { induction s as [| c s IH]; intros t; [now destruct t |].
    rewrite append_cons. cbn. rewrite Ascii.eqb_refl. apply IH. }
  induction base as [| c base IH].
  - rewrite append_empty. destruct (sub ++ tail) eqn:E; cbn [Index]; rewrite <- ?E, Hp; lia.
  - rewrite append_cons. cbn [Index].
    destruct (HasPrefix _ sub); [lia |].
    destruct (Z.ltb_spec (Index (base ++ sub ++ tail) sub) 0); lia.
Qed.

Lemma substring_prefix (base t : string) :
  substring 0 (String.length base) (base ++ t) = base.
Proof.
  induction base as [| c base IH]; [now destruct t |].
  rewrite append_cons. cbn. now rewrite IH.
Qed.

Lemma len_append (s t : string) : len (s ++ t) = len s + len t.
Proof.
  unfold len. induction s as [| c s IH]; [rewrite append_empty; cbn; lia |].
  rewrite append_cons. cbn [String.length]. lia.
Qed.

Lemma slice_prefix (base t : string) : slice (base ++ t) 0 (len base) = Some base.
Proof.
  unfold slice. rewrite len_append.
  assert (0 <= len base) by (unfold len; lia). assert (0 <= len t) by (unfold len; lia).
  destruct (Z.leb_spec 0 0); [| lia].
  destruct (Z.leb_spec 0 (len base)); [| lia].
  destruct (Z.leb_spec (len base) (len base + len t)); [| lia].
  cbn [andb]. f_equal. rewrite Z.sub_0_r. unfold len. rewrite Nat2Z.id.
  apply substring_prefix.
Qed.

Lemma keyName_cut (base tail : string) :
  Contains tail "_" = false -> Seeder.keyName (base ++ "_" ++ tail) = Some base.
Proof.
  intros Hno. unfold Seeder.keyName.
  rewrite Contains_middle, (LastIndex_after _ _ Hno). apply slice_prefix.
Qed.

Lemma LastIndex_le_len (s sub : string) : LastIndex s sub <= len s.
Proof.
  unfold len. induction s as [| c s IH]; cbn [LastIndex String.length].
  - destruct (HasPrefix "" sub); lia.
  - destruct (Z.ltb_spec (LastIndex s sub) 0); [destruct (HasPrefix _ sub) |]; lia.
Qed.

Lemma keyName_total (puname : string) : is_Some (Seeder.keyName puname).
Proof.
  unfold Seeder.keyName. destruct (Contains puname "_") eqn:Hc; [| eauto].
  unfold Contains in Hc. apply Z.leb_le in Hc.
  assert (Hl : ~ LastIndex puname "_" < 0) by (rewrite Index_LastIndex_neg; lia).
  pose proof (LastIndex_le_len puname "_").
  unfold slice.
  destruct (Z.leb_spec 0 0); [| lia].
  destruct (Z.leb_spec 0 (LastIndex puname "_")); [| lia].
  destruct (Z.leb_spec (LastIndex puname "_") (len puname)); [| lia].
  cbn. eauto.
Qed.

Lemma zkArrive_nodes r z : nodes (snd (zkArrive r z)) = nodes z.
Proof. unfold zkArrive. now destruct (faults z). Qed.

Lemma zkArrive_no_faults r z :
  faults z = [] -> zkArrive r z = (false, mkZk (nodes z) [] (zkLog z ++ [r])).
Proof. intros Hf. unfold zkArrive. now rewrite Hf. Qed.

Lemma zkExists_no_faults path z : faults z = [] ->
  zkExists path z = (Some (bool_decide (is_Some (nodes z !! path))),
                     mkZk (nodes z) [] (zkLog z ++ [ZkExists path])).
Proof. intros Hf. unfold zkExists. now rewrite (zkArrive_no_faults _ _ Hf). Qed.

Lemma zkCreate_no_faults path data z : faults z = [] ->
  zkCreate path data z =
  match nodes z !! path with
  | Some _ => (false, mkZk (nodes z) [] (zkLog z ++ [ZkCreate path data]))
  | None => (true, mkZk (<[path := data]> (nodes z)) [] (zkLog z ++ [ZkCreate path data]))
  end.
Proof.
  intros Hf. unfold zkCreate. rewrite (zkArrive_no_faults _ _ Hf). cbn.
  now destruct (nodes z !! path).
Qed.

Lemma setMiningCoin_created cfg puname coin z0 z1 :
  setMiningCoin cfg puname coin z0 = (None, z1) ->
  nodes z1 !! switcherKey cfg puname = Some coin /\
  (GoStrings.len puname <? 1) = false /\ GoStrings.Contains puname "/" = false /\
  (GoStrings.len coin <? 1) = false /\ is_Some (UserListAPI cfg !! coin).
Proof.
  unfold setMiningCoin.
  destruct (len puname <? 1); [discriminate |].
  destruct (Contains puname "/"); [discriminate |].
  destruct (len coin <? 1); [discriminate |].
  destruct (bool_decide (is_Some (UserListAPI cfg !! coin))) eqn:Hcoin; [| discriminate].
  cbn [negb]. apply bool_decide_eq_true in Hcoin.
  destruct (zkExists (switcherKey cfg puname) (writeIndex cfg puname z0)) as [[[|]|] z2] eqn:Hex;
    try discriminate.
  destruct (zkCreate (switcherKey cfg puname) coin z2) as [[|] z3] eqn:Hcr; [| discriminate].
  intros [= <-]. split; [| done].
  unfold zkCreate in Hcr.
  destruct (zkArrive (ZkCreate (switcherKey cfg puname) coin) z2) as [[|] z'] eqn:Har;
    [discriminate |].
  destruct (nodes z' !! switcherKey cfg puname); [discriminate |].
  injection Hcr as <-. cbn. apply lookup_insert_eq.
Qed.

(** C8: what the loop does with an entry, and where that leaves the claim.
    For an entry [puname] of the fetched user map the loop calls
    [setMiningCoin] with the name [keyName puname], which is always defined:
    [puname] itself when it holds no underscore, and otherwise [puname] cut
    at its last underscore, whatever follows that underscore: the coin is not
    compared.  When the call returns nil, the key that it has created is the
    watch directory followed by that name, in lower case when the stratum
    servers ignore case, and the key holds the coin.  So, for the coin btc,
    the entry my_user, which does not end in _btc, is filed under
    /switcher/my and no key /switcher/my_user is made; and for the coin
    ltc_test the entry alice_ltc_test, which ends in _ltc_test, is filed
    under /switcher/alice_ltc, not under /switcher/alice. *)
Theorem C8_cut_at_any_underscore (cfg : ConfigData) (coin puname : string) (puid : Z)
    (st : LoopState) :
  (exists key st',
     keyName puname = Some key /\
     visitUser cfg coin (Some st) (puname, puid) = Some st' /\
     calls st' = (calls st ++ [(key, coin)])%list /\
     zk st' = snd (setMiningCoin cfg key coin (zk st)) /\
     (fst (setMiningCoin cfg key coin (zk st)) = None ->
      nodes (zk st') !! (ZKSwitcherWatchDir cfg ++
                         (if StratumServerCaseInsensitive cfg then ToLower key else key))
      = Some coin)) /\
  (Contains puname "_" = false -> keyName puname = Some puname) /\
  (forall base tail : string,
     puname = base ++ "_" ++ tail -> Contains tail "_" = false ->
     keyName puname = Some base) /\
  (HasSuffix "my_user" "_btc" = false /\
   exists st',
     round Demo.seederConfig "btc" (UserIDMap 0 [("my_user", 7)]) (mkLoop 0 Demo.emptyZk [])
     = Some st' /\
     calls st' = [("my", "btc")] /\
     nodes (zk st') !! "/switcher/my" = Some "btc" /\
     nodes (zk st') !! "/switcher/my_user" = None) /\
  (HasSuffix "alice_ltc_test" "_ltc_test" = true /\
   exists st',
     round (mkConfig (<["ltc_test" := "http://pool.example/users"]> ∅) false "" "/switcher/")
           "ltc_test" (UserIDMap 0 [("alice_ltc_test", 9)]) (mkLoop 0 Demo.emptyZk [])
     = Some st' /\
     calls st' = [("alice_ltc", "ltc_test")] /\
     nodes (zk st') !! "/switcher/alice_ltc" = Some "ltc_test" /\
     nodes (zk st') !! "/switcher/alice" = None).
Proof.
  split; [| split; [| split; [| split]]].
  - destruct (keyName_total puname) as [key Hkey]. exists key.
    unfold visitUser. rewrite Hkey.
    destruct (setMiningCoin cfg key coin (zk st)) as [err z'] eqn:Hcall.
    assert (Hnode : err = None ->
              nodes z' !! (ZKSwitcherWatchDir cfg ++
                           (if StratumServerCaseInsensitive cfg then ToLower key else key))
              = Some coin).
    { intros ->. exact (proj1 (setMiningCoin_created _ _ _ _ _ Hcall)). }
    destruct err as [e|].
    + destruct (decide (e = APIErrRecordExists)); eexists;
        (split; [reflexivity |]); (split; [reflexivity |]); (split; [reflexivity |]);
        (split; [reflexivity |]); discriminate.
    + eexists. split; [reflexivity |]. split; [reflexivity |]. split; [reflexivity |].
      split; [reflexivity |]. intros _. now apply Hnode.
  - intros Hno. unfold keyName. now rewrite Hno.
  - intros base tail -> Hno. now apply keyName_cut.
  - split; [reflexivity |]. eexists. split; [reflexivity |].
    split; [reflexivity |]. split; vm_compute; reflexivity.
  - split; [reflexivity |]. eexists. split; [vm_compute; reflexivity |].
    split; [reflexivity |]. split; vm_compute; reflexivity.
Qed.

Lemma writeIndex_keeps cfg puname key v z :
  faults z = [] -> nodes z !! key = Some v ->
  faults (writeIndex cfg puname z) = [] /\
  nodes (writeIndex cfg puname z) !! key = Some v /\
  exists added, zkLog (writeIndex cfg puname z) = (zkLog z ++ added)%list /\
                forall data, ~ In (ZkCreate key data) added.
Proof.
  intros Hf Hk. unfold writeIndex.
  destruct (StratumServerCaseInsensitive cfg).
  { repeat split; try assumption. exists []. split; [now rewrite app_nil_r | intros ? []]. }
  destruct (0 <? len (ZKUserCaseInsensitiveIndex cfg)).
  2:{ repeat split; try assumption. exists []. split; [now rewrite app_nil_r | intros ? []]. }
  set (idx := ZKUserCaseInsensitiveIndex cfg ++ ToLower puname).
  rewrite (zkExists_no_faults _ _ Hf).
  destruct (bool_decide (is_Some (nodes z !! idx))) eqn:Hidx.
  { cbn. repeat split; try assumption. exists [ZkExists idx]. split; [reflexivity |].
    intros data [Hin | []]. discriminate. }
  apply bool_decide_eq_false in Hidx.
  assert (Hnone : nodes z !! idx = None).
  { destruct (nodes z !! idx); [exfalso; apply Hidx; eauto | reflexivity]. }
  assert (Hne : idx <> key) by (intros ->; congruence).
  rewrite zkCreate_no_faults by reflexivity. cbn [nodes]. rewrite Hnone. cbn.
  split; [reflexivity |]. split; [now rewrite lookup_insert_ne |].
  exists [ZkExists idx; ZkCreate idx puname]. split; [now rewrite <- app_assoc |].
  intros data [Hin | [Hin | []]]; [discriminate | congruence].
Qed.

(** C9.  When a call of [setMiningCoin] has succeeded, the switcher key
    exists with the coin as its data; and a second call with the same pair,
    made while the coordinator answers every request, returns the
    record-exists error, leaves the key as it is and sends no create for
    it. *)
Theorem C9_setMiningCoin_idempotent (cfg : ConfigData) (puname coin : string) (z0 z1 : ZooKeeper) :
  setMiningCoin cfg puname coin z0 = (None, z1) ->
  faults z1 = [] ->
  nodes z1 !! switcherKey cfg puname = Some coin /\
  exists z2 added,
    setMiningCoin cfg puname coin z1 = (Some APIErrRecordExists, z2) /\
    nodes z2 !! switcherKey cfg puname = Some coin /\
    zkLog z2 = (zkLog z1 ++ added)%list /\
    forall data, ~ In (ZkCreate (switcherKey cfg puname) data) added.
Proof.
  intros Hfirst Hf.
  destruct (setMiningCoin_created _ _ _ _ _ Hfirst) as (Hkey & H1 & H2 & H3 & H4).
  split; [exact Hkey |].
  destruct (writeIndex_keeps cfg puname _ _ _ Hf Hkey) as (Hf' & Hkey' & added & Hlog & Hno).
  unfold setMiningCoin. rewrite H1, H2, H3, (bool_decide_eq_true_2 _ H4). cbn [negb].
  rewrite (zkExists_no_faults _ _ Hf'), Hkey'.
  rewrite bool_decide_eq_true_2 by eauto.
  eexists. exists (added ++ [ZkExists (switcherKey cfg puname)])%list.
  split; [reflexivity |]. cbn. split; [exact Hkey' |].
  split; [now rewrite Hlog, <- app_assoc |].
  intros data Hin.
  apply in_app_or in Hin as [Hin | [Hin | []]]; [now apply (Hno data) | discriminate].
Qed.

End SeederFacts.

(** C9 for the user alice and the coin btc on an empty coordinator. *)
Lemma C9_setMiningCoin_witness :
  let z1 := snd (Seeder.setMiningCoin Demo.seederConfig "alice" "btc" Demo.emptyZk) in
  Seeder.setMiningCoin Demo.seederConfig "alice" "btc" Demo.emptyZk = (None, z1) /\
  faults z1 = [] /\
  nodes z1 !! "/switcher/alice" = Some "btc" /\
  exists z2,
    Seeder.setMiningCoin Demo.seederConfig "alice" "btc" z1 =
      (Some Seeder.APIErrRecordExists, z2) /\
    nodes z2 !! "/switcher/alice" = Some "btc".
Proof.
  intros z1.
  assert (Hfirst : Seeder.setMiningCoin Demo.seederConfig "alice" "btc" Demo.emptyZk
                   = (None, z1)) by (vm_compute; reflexivity).
  assert (Hf : faults z1 = []) by (vm_compute; reflexivity).
  destruct (C9_setMiningCoin_idempotent Demo.seederConfig "alice" "btc" Demo.emptyZk z1
              Hfirst Hf) as (Hkey & z2 & added & Hsecond & Hkey2 & _).
  split; [exact Hfirst |]. split; [exact Hf |]. split; [exact Hkey |].
  exists z2. split; [exact Hsecond | exact Hkey2].
Defined.
